(** * Meeting-content generation: schemas, enrichment stages and pipeline driver

    A shallow embedding of the TypeScript sources of the
    sluug_stllug_generation repository:

    - [JS] and [JSDate]: the string primitives of the host language that
      the program calls (trim, replace, toLowerCase, join) and the Date
      constructor;
    - [Zod]: the runtime-validation combinators the schemas are built from;
    - [Models]: the schemas of models.ts;
    - [Run]: a state-and-error monad over a world made of the scripted
      answers of the generative API, the log of the exchanges, the files
      written and the downloads that were started and not awaited;
    - [Path]: [path.join] of node:path;
    - [Index]: the enrichment stages and the top-level statements of
      index.ts (what it prints on the console is left out);
    - [Legacy], [JSLib] and [LegacyNames]: the earlier revision of index.ts,
      where it differs.

    Strings are [string]s of 8-bit characters: the model covers the JavaScript
    strings whose code units are below 256. *)

From Stdlib Require Import Strings.String Strings.Ascii Lists.List ZArith QArith Bool Lia.
From Stdlib Require Import DecimalString Sorting.Permutation.
Import ListNotations.
Close Scope Q_scope.
Open Scope string_scope.
Open Scope list_scope.

(** String concatenation (JavaScript's [+] on strings and the pieces of a
    template literal). *)
Infix "+++" := String.append (right associativity, at level 60).

(* ================================================================== *)
(** ** Host-language primitives *)

Module JS.

(** ECMAScript WhiteSpace and LineTerminator code units below 256:
    TAB, LF, VT, FF, CR, SPACE and NO-BREAK SPACE. *)
Definition isWhiteSpace (c : ascii) : bool :=
  let n := nat_of_ascii c in
  (((9 <=? n) && (n <=? 13)) || (n =? 32) || (n =? 160))%nat.

(** [String.prototype.trimStart]. *)
Fixpoint trimStart (s : string) : string :=
  match s with
  | EmptyString => EmptyString
  | String c r => if isWhiteSpace c then trimStart r else s
  end.

(** [String.prototype.trimEnd]. *)
Fixpoint trimEnd (s : string) : string :=
  match s with
  | EmptyString => EmptyString
  | String c r =>
      match trimEnd r with
      | EmptyString => if isWhiteSpace c then EmptyString else String c EmptyString
      | r' => String c r'
      end
  end.

(** [s.slice(n)] for [0 <= n]. *)
Fixpoint drop (n : nat) (s : string) : string :=
  match n, s with
  | O, _ => s
  | S _, EmptyString => EmptyString
  | S k, String _ r => drop k r
  end.

(** [s.slice(0, n)] for [0 <= n]. *)
Fixpoint take (n : nat) (s : string) : string :=
  match n, s with
  | O, _ => EmptyString
  | S _, EmptyString => EmptyString
  | S k, String c r => String c (take k r)
  end.

(** [String.prototype.replace] with a string pattern, and a replacement
    that holds no dollar pattern: only the first occurrence of [pat] is
    replaced. *)
Fixpoint replace (pat rep s : string) : string :=
  if prefix pat s then rep +++ drop (String.length pat) s
  else match s with
       | EmptyString => EmptyString
       | String c r => String c (replace pat rep r)
       end.

(** [String.prototype.replaceAll] with a non-empty string pattern: every
    occurrence, left to right, without overlap.  [skip] counts the
    characters of a matched occurrence still to be dropped. *)
Fixpoint replaceAll_from (skip : nat) (pat rep s : string) : string :=
  match s with
  | EmptyString => EmptyString
  | String c r =>
      match skip with
      | S k => replaceAll_from k pat rep r
      | O => if prefix pat s
             then rep +++ replaceAll_from (String.length pat - 1) pat rep r
             else String c (replaceAll_from 0 pat rep r)
      end
  end.

Definition replaceAll (pat rep s : string) : string :=
  replaceAll_from 0 pat rep s.

(** [s.replace(/[...]/g, "")] for a character class given as a string:
    every character of the class is removed. *)
Fixpoint removeChars (class : string) (s : string) : string :=
  match s with
  | EmptyString => EmptyString
  | String c r =>
      if existsb (Ascii.eqb c) (list_ascii_of_string class)
      then removeChars class r
      else String c (removeChars class r)
  end.

(** [String.prototype.toLowerCase] on code units below 256: A-Z and the
    Latin-1 capitals (0xC0-0xDE but the multiplication sign 0xD7) move up
    by 32; every other code unit is kept. *)
Definition toLowerChar (c : ascii) : ascii :=
  let n := nat_of_ascii c in
  if (((65 <=? n) && (n <=? 90))
      || ((192 <=? n) && (n <=? 222) && negb (n =? 215)))%nat
  then ascii_of_nat (n + 32) else c.

Fixpoint toLowerCase (s : string) : string :=
  match s with
  | EmptyString => EmptyString
  | String c r => String (toLowerChar c) (toLowerCase r)
  end.

(** [Array.prototype.join()] with its default separator, a comma. *)
Definition join (l : list string) : string := String.concat "," l.

(** [Array.prototype.join(sep)]. *)
Definition joinWith (sep : string) (l : list string) : string :=
  String.concat sep l.

(** The line feed of a multi-line template literal. *)
Definition LF : string := String (ascii_of_nat 10) EmptyString.

End JS.

(* ================================================================== *)
(** ** JSON values *)

(** The result of [JSON.parse]: an object is the list of its properties and a
    property is read through [getProp], which takes the first binding. *)
#[warnings="-register-all"]
Inductive json : Type :=
| JNull
| JBool (b : bool)
| JNum (q : Q)
| JStr (s : string)
| JArr (items : list json)
| JObj (props : list (string * json)).

(** [obj[key]]; [None] is [undefined]. *)
Fixpoint getProp (key : string) (props : list (string * json)) : option json :=
  match props with
  | [] => None
  | (k, v) :: rest => if String.eqb k key then Some v else getProp key rest
  end.

(** [doc[key]] on any value: only an object has properties. *)
Definition getField (key : string) (doc : json) : option json :=
  match doc with
  | JObj props => getProp key props
  | _ => None
  end.

(* ================================================================== *)
(** ** Dates *)

Module JSDate.

(** A Date is its time value, milliseconds since the epoch; [None] is the
    Invalid Date. *)
Definition Date := Z.

Definition msPerDay : Z := 86400000.

Definition isDigit (c : ascii) : bool :=
  let n := nat_of_ascii c in ((48 <=? n) && (n <=? 57))%nat.

(** The value of a non-empty string of decimal digits. *)
Fixpoint digits (acc : Z) (s : string) : option Z :=
  match s with
  | EmptyString => Some acc
  | String c r =>
      if isDigit c
      then digits (10 * acc + Z.of_nat (nat_of_ascii c - 48)) r
      else None
  end.

Definition number (s : string) : option Z :=
  match s with
  | EmptyString => None
  | _ => digits 0 s
  end.

Definition isLeapYear (y : Z) : bool :=
  ((y mod 4 =? 0) && negb (y mod 100 =? 0) || (y mod 400 =? 0))%Z.

Definition daysInMonth (y m : Z) : Z :=
  (if m =? 2 then (if isLeapYear y then 29 else 28)
   else if (m =? 4) || (m =? 6) || (m =? 9) || (m =? 11) then 30
   else 31)%Z.

(** The day number of a civil date (ECMAScript MakeDay), days since
    1970-01-01. *)
Definition makeDay (y m d : Z) : Z :=
  (let y' := if m <=? 2 then y - 1 else y in
   let era := y' / 400 in
   let yoe := y' - era * 400 in
   let mp := (m + 9) mod 12 in
   let doy := (153 * mp + 2) / 5 + d - 1 in
   let doe := yoe * 365 + yoe / 4 - yoe / 100 + doy in
   era * 146097 + doe - 719468)%Z.

(** UTC midnight of a civil date, when month and day are in range. *)
Definition utcMidnight (y m d : Z) : option Date :=
  (if (1 <=? m) && (m <=? 12) && (1 <=? d) && (d <=? daysInMonth y m)
   then Some (makeDay y m d * msPerDay)
   else None)%Z.

Definition isHyphen (s : string) : bool := String.eqb s "-".

(** The date-only forms of the ECMAScript Date Time String Format, which
    denote UTC midnight: YYYY, YYYY-MM and YYYY-MM-DD. *)
Definition parseDateOnly (s : string) : option Date :=
  match String.length s with
  | 4%nat =>
      match number s with
      | Some y => utcMidnight y 1 1
      | None => None
      end
  | 7%nat =>
      match number (JS.take 4 s), number (JS.drop 5 s) with
      | Some y, Some m =>
          if isHyphen (JS.take 1 (JS.drop 4 s)) then utcMidnight y m 1 else None
      | _, _ => None
      end
  | 10%nat =>
      match number (JS.take 4 s), number (JS.take 2 (JS.drop 5 s)),
            number (JS.drop 8 s) with
      | Some y, Some m, Some d =>
          if isHyphen (JS.take 1 (JS.drop 4 s))
             && isHyphen (JS.take 1 (JS.drop 7 s))
          then utcMidnight y m d else None
      | _, _, _ => None
      end
  | _ => None
  end.

(** What the host decides alone: [Date.parse] on a string that is not one
    of the date-only forms above (the date-time forms and every
    implementation-defined format), and the conversion of an array or of
    an object to a Date (through ToPrimitive). *)
Record Host : Type := {
  parseOther : string -> option Date;
  ofObject : json -> option Date
}.

(** TimeClip of a number: out of range is the Invalid Date, a fraction is
    truncated. *)
Definition timeClip (q : Q) : option Date :=
  let t := Z.quot (Qnum q) (Z.pos (Qden q)) in
  if Qle_bool (inject_Z (-8640000000000000)) q
     && Qle_bool q (inject_Z 8640000000000000)
  then Some t else None.

Section WithHost.
Variable host : Host.

(** [Date.parse(s)]. *)
Definition parse (s : string) : option Date :=
  match parseDateOnly s with
  | Some t => Some t
  | None => parseOther host s
  end.

(** [new Date(v)] for a JSON value [v]. *)
Definition newDate (v : json) : option Date :=
  match v with
  | JNull => Some 0%Z
  | JBool b => Some (if b then 1 else 0)%Z
  | JNum q => timeClip q
  | JStr s => parse s
  | JArr _ | JObj _ => ofObject host v
  end.
End WithHost.

End JSDate.

(* ================================================================== *)
(** ** The validation combinators *)

Module Zod.

Inductive pathItem : Type := Key (k : string) | Index (i : nat).

Inductive issueCode : Type :=
| invalid_type | invalid_enum_value | invalid_date | too_small | too_big.

Record ZodIssue : Type := { code : issueCode; path : list pathItem }.

(** The result of [schema.safeParse]; [schema.parse] returns the data of a
    success and throws a ZodError carrying the issues of a failure. *)
Inductive SafeParse (A : Type) : Type :=
| Success (data : A)
| Failure (issues : list ZodIssue).
Arguments Success {A} data.
Arguments Failure {A} issues.

(** A schema reads the value found at [path]; [None] is [undefined], the
    value of a property that is not there. *)
Definition ZodType (A : Type) : Type :=
  list pathItem -> option json -> SafeParse A.

Definition issuesOf {A} (r : SafeParse A) : list ZodIssue :=
  match r with
  | Success _ => []
  | Failure issues => issues
  end.

Definition isSuccess {A} (r : SafeParse A) : bool :=
  match r with
  | Success _ => true
  | Failure _ => false
  end.

(** The parts of a composite value are all validated and their issues are
    gathered. *)
Definition ap {A B} (f : SafeParse (A -> B)) (x : SafeParse A) : SafeParse B :=
  match f, x with
  | Success g, Success a => Success (g a)
  | Success _, Failure j => Failure j
  | Failure i, Success _ => Failure i
  | Failure i, Failure j => Failure (i ++ j)
  end.

Definition issue (c : issueCode) (p : list pathItem) : ZodIssue :=
  {| code := c; path := p |}.

(** [z.string()]. *)
Definition z_string : ZodType string :=
  fun p v =>
    match v with
    | Some (JStr s) => Success s
    | _ => Failure [issue invalid_type p]
    end.

Fixpoint enumValue {A} (values : list (string * A)) (s : string) : option A :=
  match values with
  | [] => None
  | (k, a) :: rest => if String.eqb k s then Some a else enumValue rest s
  end.

(** [z.enum([...])], each literal paired with the constructor it denotes. *)
Definition z_enum {A} (values : list (string * A)) : ZodType A :=
  fun p v =>
    match v with
    | Some (JStr s) =>
        match enumValue values s with
        | Some a => Success a
        | None => Failure [issue invalid_enum_value p]
        end
    | _ => Failure [issue invalid_type p]
    end.

(** [.min(n)], [.max(n)] and [.length(n)] of an array schema. *)
Inductive arrayCheck : Type := Min (n : nat) | Max (n : nat) | Length (n : nat).

Definition checkIssues (p : list pathItem) (len : nat) (c : arrayCheck)
  : list ZodIssue :=
  match c with
  | Min n => if (len <? n)%nat then [issue too_small p] else []
  | Max n => if (n <? len)%nat then [issue too_big p] else []
  | Length n =>
      if (len =? n)%nat then []
      else [issue (if (n <? len)%nat then too_big else too_small) p]
  end.

Fixpoint parseItems {A} (elem : ZodType A) (p : list pathItem) (i : nat)
         (items : list json) : SafeParse (list A) :=
  match items with
  | [] => Success []
  | v :: rest =>
      ap (ap (Success cons) (elem (p ++ [Index i]) (Some v)))
         (parseItems elem p (S i) rest)
  end.

(** [z.array(elem)] with its length checks. *)
Definition z_array {A} (elem : ZodType A) (checks : list arrayCheck)
  : ZodType (list A) :=
  fun p v =>
    match v with
    | Some (JArr items) =>
        match flat_map (checkIssues p (List.length items)) checks with
        | [] => parseItems elem p 0 items
        | issues => Failure (issues ++ issuesOf (parseItems elem p 0 items))
        end
    | _ => Failure [issue invalid_type p]
    end.

(** [schema.optional()]. *)
Definition z_optional {A} (inner : ZodType A) : ZodType (option A) :=
  fun p v =>
    match v with
    | None => Success None
    | Some _ => ap (Success Some) (inner p v)
    end.

(** [z.coerce.date()]: the input goes through [new Date(input)] and an
    Invalid Date is refused. *)
Definition z_coerce_date (host : JSDate.Host) : ZodType JSDate.Date :=
  fun p v =>
    match v with
    | None => Failure [issue invalid_date p]
    | Some j =>
        match JSDate.newDate host j with
        | Some t => Success t
        | None => Failure [issue invalid_date p]
        end
    end.

(** [z.object({...})]: the body validates the properties of the shape, the
    others are stripped. *)
Definition z_object {A}
           (shape : list (string * json) -> list pathItem -> SafeParse A)
  : ZodType A :=
  fun p v =>
    match v with
    | Some (JObj props) => shape props p
    | _ => Failure [issue invalid_type p]
    end.

(** The property [key] of the shape, validated by [schema]. *)
Definition prop {A} (props : list (string * json)) (p : list pathItem)
           (key : string) (schema : ZodType A) : SafeParse A :=
  schema (p ++ [Key key]) (getProp key props).

(** [schema.safeParse(doc)]. *)
Definition safeParse {A} (schema : ZodType A) (doc : json) : SafeParse A :=
  schema [] (Some doc).

End Zod.

Notation "f <*> x" := (Zod.ap f x) (at level 50, left associativity).

(* ================================================================== *)
(** ** models.ts *)

Module Models.
Import Zod.

Inductive MeetingType : Type := SLUUG | STLLUG.

Definition meetingTypeSchema : ZodType MeetingType :=
  z_enum [("SLUUG", SLUUG); ("STLLUG", STLLUG)].

Record Link : Type := { url : string; linkText : option string }.

Definition linkSchema : ZodType Link :=
  z_object (fun o p =>
    Success Build_Link
      <*> prop o p "url" z_string
      <*> prop o p "linkText" (z_optional z_string)).

Record Image : Type := { src : string; alt : string }.

Definition imageSchema : ZodType Image :=
  z_object (fun o p =>
    Success Build_Image
      <*> prop o p "src" z_string
      <*> prop o p "alt" z_string).

Record Presentation : Type := {
  title : string;
  presenterNames : list string;
  abstract : string;
  references : option (list Link);
  tags : option (list string);
  tweets : option (list string)
}.

Definition presentationSchema : ZodType Presentation :=
  z_object (fun o p =>
    Success Build_Presentation
      <*> prop o p "title" z_string
      <*> prop o p "presenterNames" (z_array z_string [])
      <*> prop o p "abstract" z_string
      <*> prop o p "references" (z_optional (z_array linkSchema []))
      <*> prop o p "tags" (z_optional (z_array z_string []))
      <*> prop o p "tweets" (z_optional (z_array z_string []))).

Record Meeting : Type := {
  meetingDate : option JSDate.Date;
  meetingType : option MeetingType;
  presentations : list Presentation;
  meetupUrl : option string;
  youtubeUrl : option string;
  youtubeTitles : option (list string);
  image : option (list Image)
}.

Section WithHost.
Variable host : JSDate.Host.

Definition meetingSchema : ZodType Meeting :=
  z_object (fun o p =>
    Success Build_Meeting
      <*> prop o p "meetingDate" (z_optional (z_coerce_date host))
      <*> prop o p "meetingType" (z_optional meetingTypeSchema)
      <*> prop o p "presentations" (z_array presentationSchema [Min 1])
      <*> prop o p "meetupUrl" (z_optional z_string)
      <*> prop o p "youtubeUrl" (z_optional z_string)
      <*> prop o p "youtubeTitles" (z_optional (z_array z_string []))
      <*> prop o p "image" (z_optional (z_array imageSchema []))).
End WithHost.

(** The parameter records of the tools; each has a single property. *)
Record TweetToolParams : Type := { tweetsParam : list string }.
Record TagToolParams : Type := { tagsParam : list string }.
Record YouTubeTitleToolParams : Type := { titlesParam : list string }.
Record ImageDesignsToolParams : Type := { designsParam : list string }.

Definition tweetToolParamsSchema : ZodType TweetToolParams :=
  z_object (fun o p =>
    Success Build_TweetToolParams
      <*> prop o p "tweets" (z_array z_string [Length 3])).

Definition tagToolParamsSchema : ZodType TagToolParams :=
  z_object (fun o p =>
    Success Build_TagToolParams
      <*> prop o p "tags" (z_array z_string [Max 3])).

Definition youTubeTitleToolParamsSchema : ZodType YouTubeTitleToolParams :=
  z_object (fun o p =>
    Success Build_YouTubeTitleToolParams
      <*> prop o p "titles" (z_array z_string [Length 3])).

Definition imageDesignsToolParamsSchema : ZodType ImageDesignsToolParams :=
  z_object (fun o p =>
    Success Build_ImageDesignsToolParams
      <*> prop o p "designs" (z_array z_string [Length 3])).

(** The tool handed to [runTools]: the function to run, its name and the
    validation of its arguments.  The JSON-schema rendering of the
    parameters and the description, which only the remote model reads, are
    left out. *)
Record RunnableToolFunctionWithParse (T : Type) : Type := {
  function : T -> list string;
  name : string;
  parse : json -> SafeParse T
}.
Arguments function {T} r.
Arguments name {T} r.
Arguments parse {T} r.

(** [zodFunction({function, schema, name})]; [parse] takes the arguments of
    the tool call once [JSON.parse] has read them. *)
Definition zodFunction {T} (fn : T -> list string) (schema : ZodType T)
           (fnName : string) : RunnableToolFunctionWithParse T :=
  {| function := fn;
     name := fnName;
     parse := fun input => safeParse schema input |}.

End Models.

(* ================================================================== *)
(** ** The world of a run and its monad *)

Module Run.

(** What the program throws. *)
Inductive Error : Type :=
| Err (message : string)                 (* [new Error(message)] *)
| ZodError (issues : list Zod.ZodIssue)  (* thrown by [schema.parse] *)
| SyntaxError                            (* thrown by [JSON.parse] *)
| ApiError (message : string)            (* a call of the API client rejects *)
| IoError (path : string).               (* a file cannot be opened *)

Inductive Result (A : Type) : Type :=
| Ok (value : A)
| Throw (error : Error).
Arguments Ok {A} value.
Arguments Throw {A} error.

(** The three calls the program makes on the generative API. *)
Inductive Request : Type :=
| ChatTool (toolName : string) (prompt : string)
    (* [beta.chat.completions.runTools], the tool forced by [tool_choice] *)
| ChatText (prompt : string)   (* [chat.completions.create] *)
| ImageGen (prompt : string).  (* [images.generate] *)

(** What the API answers. *)
Inductive Response : Type :=
| ToolCall (args : json)       (* the model calls the tool with [args] *)
| NoToolCall                   (* the run ends without a tool result *)
| Text (content : option string)         (* [choices[0].message.content] *)
| ImageData (url revised_prompt : option string)  (* [data[0]] *)
| Rejected (message : string). (* the call fails *)

Inductive File : Type :=
| JsonFile (text : json)       (* what [JSON.stringify] serialises *)
| PngFile (fromUrl : string).  (* the image downloaded from [fromUrl] *)

Record World : Type := {
  apiKey : option string;                (* [process.env.OPENAI_API_KEY] *)
  inputs : list (string * option json);  (* readable files: path and what
                                            [JSON.parse] makes of the text,
                                            [None] when it is not JSON *)
  replies : list Response;               (* the answers of the API, in the
                                            order of the requests *)
  exchanges : list (Request * option Response); (* requests issued so far,
                                            each with the answer it got *)
  files : list (string * File);          (* files written so far by writes
                                            that the run awaited *)
  detached : list (string * File);       (* downloads started and not
                                            awaited, each with the file it
                                            writes if and when it ends *)
  readOnly : list string                 (* paths [writeFile] cannot write *)
}.

(** A computation that may await, throw and act on the world. *)
Definition IO (A : Type) : Type := World -> Result A * World.

Definition ret {A} (a : A) : IO A := fun w => (Ok a, w).

Definition throw {A} (e : Error) : IO A := fun w => (Throw e, w).

Definition bind {A B} (c : IO A) (k : A -> IO B) : IO B :=
  fun w =>
    match c w with
    | (Ok a, w') => k a w'
    | (Throw e, w') => (Throw e, w')
    end.

(** A pure computation that may throw, run in place. *)
Definition lift {A} (r : Result A) : IO A := fun w => (r, w).

(** [try { c } catch (error) { throw handler(error) }]. *)
Definition rethrow {A} (handler : Error -> Error) (c : IO A) : IO A :=
  fun w =>
    match c w with
    | (Ok a, w') => (Ok a, w')
    | (Throw e, w') => (Throw (handler e), w')
    end.

(** One request: it is logged with the answer it gets; the call rejects
    when the API fails or has nothing more to answer. *)
Definition call (rq : Request) : IO Response :=
  fun w =>
    match replies w with
    | [] =>
        (Throw (ApiError "no response"),
         {| apiKey := apiKey w; inputs := inputs w; replies := [];
            exchanges := exchanges w ++ [(rq, None)]; files := files w;
            detached := detached w; readOnly := readOnly w |})
    | r :: rest =>
        (match r with
         | Rejected msg => Throw (ApiError msg)
         | _ => Ok r
         end,
         {| apiKey := apiKey w; inputs := inputs w; replies := rest;
            exchanges := exchanges w ++ [(rq, Some r)]; files := files w;
            detached := detached w; readOnly := readOnly w |})
    end.

(** [await writeFile(path, data)]: the promise rejects when the path cannot
    be written, and nothing is written then. *)
Definition writeFile (path : string) (data : File) : IO unit :=
  fun w =>
    if existsb (String.eqb path) (readOnly w)
    then (Throw (IoError path), w)
    else
      (Ok tt,
       {| apiKey := apiKey w; inputs := inputs w; replies := replies w;
          exchanges := exchanges w; files := files w ++ [(path, data)];
          detached := detached w; readOnly := readOnly w |}).

(** Work that is started and not awaited, here a download handed to a
    callback that ends by writing [data] to [path]: the run goes on at
    once and the work is recorded as started.  When the file is written,
    before or after what the run does next and before or after the files
    of other detached work, and whether it is written at all (the process
    may end first), is a matter of time that the run does not decide: the
    file is not added to [files]. *)
Definition detach (path : string) (data : File) : IO unit :=
  fun w =>
    (Ok tt,
     {| apiKey := apiKey w; inputs := inputs w; replies := replies w;
        exchanges := exchanges w; files := files w;
        detached := detached w ++ [(path, data)]; readOnly := readOnly w |}).

Fixpoint firstError {A} (rs : list (Result A)) : Result (list A) :=
  match rs with
  | [] => Ok []
  | Throw e :: _ => Throw e
  | Ok a :: rest =>
      match firstError rest with
      | Ok l => Ok (a :: l)
      | Throw e => Throw e
      end
  end.

(** The branches of [Promise.all(items.map(async ...))], each of which
    makes its request when started: every branch runs, whatever the others
    do, and takes the answers of the API in the order the branches were
    started. *)
Fixpoint runAll {A} (branches : list (IO A)) (w : World)
  : list (Result A) * World :=
  match branches with
  | [] => ([], w)
  | c :: rest =>
      let '(r, w1) := c w in
      let '(rs, w2) := runAll rest w1 in
      (r :: rs, w2)
  end.

(** [Promise.all]: the values in order when every branch returns, and an
    error of a branch that threw otherwise.  Which of several failed
    branches rejects first is a matter of time, which the run does not
    have: the model takes the error of the failed branch of lowest index.
    A property that names the error with which a [Promise.all] rejects is
    therefore stated for a single failed branch, where the choice does not
    matter. *)
Definition promiseAll {A} (branches : list (IO A)) : IO (list A) :=
  fun w => let '(rs, w') := runAll branches w in (firstError rs, w').

End Run.

Notation "x <- c ;; k" := (Run.bind c (fun x => k))
  (at level 61, c at next level, right associativity).

(* ================================================================== *)
(** ** Paths of files (node:path) *)

Module Path.

(** [p.split("/")]. *)
Fixpoint segments (p : string) : list string :=
  match p with
  | EmptyString => [EmptyString]
  | String c r =>
      match segments r with
      | seg :: segs =>
          if Ascii.eqb c "/" then EmptyString :: seg :: segs
          else String c seg :: segs
      | [] => [String c EmptyString]
      end
  end.

Definition isAbsolute (p : string) : bool :=
  match p with
  | String c _ => Ascii.eqb c "/"
  | EmptyString => false
  end.

Fixpoint hasTrailingSeparator (p : string) : bool :=
  match p with
  | EmptyString => false
  | String c EmptyString => Ascii.eqb c "/"
  | String _ r => hasTrailingSeparator r
  end.

(** The segments that are left once the empty ones and the dots are gone
    and every double dot has taken the segment before it; [stack] holds the
    segments kept so far, the last one first.  A double dot with nothing to
    take is kept when the path is relative and dropped when it is
    absolute. *)
Fixpoint resolveDots (allowAboveRoot : bool) (stack segs : list string)
  : list string :=
  match segs with
  | [] => rev stack
  | seg :: rest =>
      if String.eqb seg "" || String.eqb seg "."
      then resolveDots allowAboveRoot stack rest
      else if String.eqb seg ".."
      then
        match stack with
        | top :: below =>
            if String.eqb top ".."
            then resolveDots allowAboveRoot
                             (if allowAboveRoot then ".." :: stack else stack) rest
            else resolveDots allowAboveRoot below rest
        | [] =>
            resolveDots allowAboveRoot
                        (if allowAboveRoot then [".."] else []) rest
        end
      else resolveDots allowAboveRoot (seg :: stack) rest
  end.

(** [path.normalize] of node:path on POSIX. *)
Definition normalize (p : string) : string :=
  match p with
  | EmptyString => "."
  | _ =>
      let body :=
        JS.joinWith "/" (resolveDots (negb (isAbsolute p)) [] (segments p)) in
      match body with
      | EmptyString =>
          if isAbsolute p then "/"
          else if hasTrailingSeparator p then "./" else "."
      | _ =>
          (if isAbsolute p then "/" else "") +++ body
          +++ (if hasTrailingSeparator p then "/" else "")
      end
  end.

(** [path.join] of node:path on POSIX: the arguments that are not empty,
    with a separator between them, normalised. *)
Definition join (args : list string) : string :=
  match filter (fun arg => negb (String.eqb arg "")) args with
  | [] => "."
  | parts => normalize (JS.joinWith "/" parts)
  end.

End Path.

(* ================================================================== *)
(** ** index.ts *)

Module Index.
Import Zod Run.

(** *** The records as index.ts types them

    index.ts reads [meetingDate] as a string and the posts of a
    presentation under [tweet]: the revision of the schemas in which
    [meetingDate] is [z.string()] and [meetingType] is required. *)

Record Presentation : Type := {
  title : string;
  presenterNames : list string;
  abstract : string;
  references : option (list Models.Link);
  tags : option (list string);
  tweet : option (list string)
}.

Definition presentationSchema : ZodType Presentation :=
  z_object (fun o p =>
    Success Build_Presentation
      <*> prop o p "title" z_string
      <*> prop o p "presenterNames" (z_array z_string [])
      <*> prop o p "abstract" z_string
      <*> prop o p "references" (z_optional (z_array Models.linkSchema []))
      <*> prop o p "tags" (z_optional (z_array z_string []))
      <*> prop o p "tweet" (z_optional (z_array z_string []))).

Record Meeting : Type := {
  meetingDate : string;
  meetingType : Models.MeetingType;
  presentations : list Presentation;
  meetupUrl : option string;
  youtubeUrl : option string;
  youtubeTitle : option (list string);
  image : option (list Models.Image)
}.

Definition meetingSchema : ZodType Meeting :=
  z_object (fun o p =>
    Success Build_Meeting
      <*> prop o p "meetingDate" z_string
      <*> prop o p "meetingType" Models.meetingTypeSchema
      <*> prop o p "presentations" (z_array presentationSchema [Min 1])
      <*> prop o p "meetupUrl" (z_optional z_string)
      <*> prop o p "youtubeUrl" (z_optional z_string)
      <*> prop o p "youtubeTitle" (z_optional (z_array z_string []))
      <*> prop o p "image" (z_optional (z_array Models.imageSchema []))).

(** A meeting with the property the title stage adds, [youTubeTitle],
    which is not a property of the schema. *)
Record MeetingWithYouTubeTitles : Type := {
  meeting : Meeting;
  youTubeTitle : list string
}.

(** [{ ...presentation, tags: v }]. *)
Definition withTags (presentation : Presentation) (v : list string)
  : Presentation :=
  {| title := title presentation;
     presenterNames := presenterNames presentation;
     abstract := abstract presentation;
     references := references presentation;
     tags := Some v;
     tweet := tweet presentation |}.

(** [{ ...presentation, tweet: v }]. *)
Definition withTweet (presentation : Presentation) (v : list string)
  : Presentation :=
  {| title := title presentation;
     presenterNames := presenterNames presentation;
     abstract := abstract presentation;
     references := references presentation;
     tags := tags presentation;
     tweet := Some v |}.

(** [{ ...m, presentations: v }]. *)
Definition withPresentations (m : Meeting) (v : list Presentation) : Meeting :=
  {| meetingDate := meetingDate m;
     meetingType := meetingType m;
     presentations := v;
     meetupUrl := meetupUrl m;
     youtubeUrl := youtubeUrl m;
     youtubeTitle := youtubeTitle m;
     image := image m |}.

(** [{ ...m, image: v }]. *)
Definition withImage (m : MeetingWithYouTubeTitles) (v : list Models.Image)
  : MeetingWithYouTubeTitles :=
  {| meeting :=
       {| meetingDate := meetingDate (meeting m);
          meetingType := meetingType (meeting m);
          presentations := presentations (meeting m);
          meetupUrl := meetupUrl (meeting m);
          youtubeUrl := youtubeUrl (meeting m);
          youtubeTitle := youtubeTitle (meeting m);
          image := Some v |};
     youTubeTitle := youTubeTitle m |}.

(** The string of a meeting type. *)
Definition meetingTypeName (t : Models.MeetingType) : string :=
  match t with
  | Models.SLUUG => "SLUUG"
  | Models.STLLUG => "STLLUG"
  end.

(** *** Serialisation of the final record *)

Definition jStrings (l : list string) : json := JArr (map JStr l).

(** A property that is [undefined] is left out by [JSON.stringify].  The
    properties of the schema are listed first, in the order of the schema:
    the place [image] and [youTubeTitle] take among them is not modelled. *)
Definition optProp {A} (key : string) (enc : A -> json) (v : option A)
  : list (string * json) :=
  match v with
  | Some a => [(key, enc a)]
  | None => []
  end.

Definition linkToJson (l : Models.Link) : json :=
  JObj ([("url", JStr (Models.url l))]
        ++ optProp "linkText" JStr (Models.linkText l)).

Definition imageToJson (i : Models.Image) : json :=
  JObj [("src", JStr (Models.src i)); ("alt", JStr (Models.alt i))].

Definition presentationToJson (p : Presentation) : json :=
  JObj ([("title", JStr (title p));
         ("presenterNames", jStrings (presenterNames p));
         ("abstract", JStr (abstract p))]
        ++ optProp "references" (fun l => JArr (map linkToJson l)) (references p)
        ++ optProp "tags" jStrings (tags p)
        ++ optProp "tweet" jStrings (tweet p)).

Definition meetingToJson (m : MeetingWithYouTubeTitles) : json :=
  JObj ([("meetingDate", JStr (meetingDate (meeting m)));
         ("meetingType", JStr (meetingTypeName (meetingType (meeting m))));
         ("presentations",
          JArr (map presentationToJson (presentations (meeting m))))]
        ++ optProp "meetupUrl" JStr (meetupUrl (meeting m))
        ++ optProp "youtubeUrl" JStr (youtubeUrl (meeting m))
        ++ optProp "youtubeTitle" jStrings (youtubeTitle (meeting m))
        ++ optProp "image" (fun l => JArr (map imageToJson l)) (image (meeting m))
        ++ [("youTubeTitle", jStrings (youTubeTitle m))]).

(** *** Reading the input *)

Definition extractInputFilePathFromArgs (argv : list string) : Result string :=
  match argv with
  | _ :: _ :: path :: _ => Ok path
  | _ =>
      Throw (Err "No file path provided. You must supply the path to a JSON file as an argument.")
  end.

Definition extractApiKeyFromEnv : IO string :=
  fun w =>
    match apiKey w with
    | Some (String c r) => (Ok (String c r), w)
    | _ => (Throw (Err "Environment Variable: OPENAI_API_KEY not found."), w)
    end.

(** An open file: what [JSON.parse] makes of its text, [None] when the text
    is not JSON. *)
Definition FileHandle : Type := option json.

Definition openMeetingFile (filePath : string) : IO FileHandle :=
  fun w =>
    match find (fun f => String.eqb (fst f) filePath) (inputs w) with
    | None => (Throw (IoError filePath), w)
    | Some (_, file) => (Ok file, w)
    end.

Definition parseMeetingFile (file : FileHandle) : IO Meeting :=
  match file with
  | None => throw SyntaxError
  | Some doc =>
      match safeParse meetingSchema doc with
      | Success m => ret m
      | Failure issues => throw (ZodError issues)
      end
  end.

(** *** Prompts *)

(** The line break of the template literal and the indentation of the
    line that follows. *)
Definition NL : string := JS.LF +++ "    ".

Definition convertPresentationToPrompt (presentation : Presentation)
           (includePresenters : bool) (meetingDate : option string) : string :=
  (match meetingDate with
   | Some (String c r) => "This presentation will be given on: " +++ String c r
   | _ => ""
   end) +++ "." +++ NL
  +++ "The title of the presentation is: " +++ title presentation +++ "." +++ NL
  +++ (if includePresenters
       then "The presenter(s) are: " +++ JS.join (presenterNames presentation) +++ "."
       else "") +++ NL
  +++ "This presentation abstract is as follows: " +++ abstract presentation +++ NL
  +++ (match tags presentation with
       | Some t => "Tags: " +++ JS.join t
       | None => ""
       end).

Definition convertPresentationsToPrompt (presentations : list Presentation)
           (includePresenters : bool) (meetingDate : option string) : string :=
  JS.joinWith JS.LF
    (map (fun presentation =>
            convertPresentationToPrompt presentation includePresenters meetingDate)
         presentations).

(** *** The generative client *)

(** Modelled from the spec: the runner of the API client,
    [runTools(...).finalFunctionCallResult()], which is library code and not
    part of the repository.  One request is issued with the tool forced;
    when the model calls the tool, its arguments go through the [parse] of
    the tool and then to its function, whose value is the result; arguments
    that [parse] refuses make the stage fail; when the model does not call
    the tool there is no result.  (The result travels as JSON text, which
    the stage reads back with [JSON.parse]; the model hands the array
    over as it is.) *)
Definition runTools {T} (tool : Models.RunnableToolFunctionWithParse T)
           (prompt : string) : IO (option (list string)) :=
  r <- call (ChatTool (Models.name tool) prompt) ;;
  match r with
  | ToolCall args =>
      match Models.parse tool args with
      | Success a => ret (Some (Models.function tool a))
      | Failure issues => throw (ZodError issues)
      end
  | NoToolCall => ret None
  | _ => throw (ApiError "unexpected response")
  end.

(** *** Tags *)

Definition tagTool (args : Models.TagToolParams) : list string :=
  map (fun tag => JS.toLowerCase (JS.replace " " "-" (JS.trimEnd (JS.trimStart tag))))
      (Models.tagsParam args).

Definition generateTags (presentation : Presentation) : IO Presentation :=
  result <- runTools (Models.zodFunction tagTool Models.tagToolParamsSchema "tagTool")
                     (convertPresentationToPrompt presentation false None) ;;
  match result with
  | None => throw (Err "OpenAI did not call the tool.")
  | Some generated => ret (withTags presentation generated)
  end.

(** *** Tweets *)

Definition tweetTool (args : Models.TweetToolParams) : list string :=
  Models.tweetsParam args.

Definition generateTweets (presentation : Presentation) (meetingDate : string)
  : IO Presentation :=
  result <- runTools (Models.zodFunction tweetTool Models.tweetToolParamsSchema "tweetTool")
                     (convertPresentationToPrompt presentation true (Some meetingDate)) ;;
  match result with
  | None => throw (Err "OpenAI did not call the tool.")
  | Some generated => ret (withTweet presentation generated)
  end.

Definition addLinkToTweets (presentation : Presentation)
           (meetupUrl : option string) : Result Presentation :=
  match tweet presentation with
  | None => Throw (Err "Presentation does not contain any tweets")
  | Some tweets =>
      match meetupUrl with
      | Some (String c r) =>
          Ok (withTweet presentation
                (map (fun tweet => JS.trimEnd (tweet +++ " " +++ String c r)) tweets))
      | _ =>
          Ok (withTweet presentation (map (fun tweet => JS.trimEnd tweet) tweets))
      end
  end.

(** *** YouTube titles *)

Definition youTubeTitleTool (args : Models.YouTubeTitleToolParams) : list string :=
  Models.titlesParam args.

Definition suffixTitleWithMeetingDateAndType (generatedTitles : list string)
           (meetingDate : string) (meetingType : Models.MeetingType) : list string :=
  map (fun title => title +++ " | " +++ meetingTypeName meetingType +++ " " +++ meetingDate)
      generatedTitles.

Definition generateYouTubeTitleFromPrompt (presentationPrompt meetingDate : string)
           (meetingType : Models.MeetingType) : IO (list string) :=
  result <- runTools (Models.zodFunction youTubeTitleTool
                        Models.youTubeTitleToolParamsSchema "youTubeTitleTool")
                     presentationPrompt ;;
  match result with
  | None => throw (Err "OpenAI did not call the tool.")
  | Some generatedTitles =>
      ret (suffixTitleWithMeetingDateAndType generatedTitles meetingDate meetingType)
  end.

(** *** Images *)

Definition generateImageDesignIdeaFromPrompt (presentationPrompt : string)
  : IO string :=
  result <- call (ChatText presentationPrompt) ;;
  match result with
  | Text (Some (String c r)) => ret (String c r)
  | Text _ => throw (Err "OpenAI did not call the tool.")
  | _ => throw (ApiError "unexpected response")
  end.

Definition getFileNamePrefix (meetingDate : string)
           (meetingType : Models.MeetingType) : string :=
  meetingDate +++ "_" +++ JS.toLowerCase (meetingTypeName meetingType).

(** The characters of the class of the regular expression that strips
    the punctuation of a file name; the character of code 34 is the
    double quote. *)
Definition punctuation : string :=
  ".,/#!$%^&*'" +++ String (ascii_of_nat 34) ";:{}=_`~()".

Definition natToString (i : nat) : string :=
  NilEmpty.string_of_uint (Nat.to_uint i).

(** [String(error)]. *)
Definition errorText (e : Error) : string :=
  match e with
  | Err message => "Error: " +++ message
  | ZodError _ => "ZodError"
  | SyntaxError => "SyntaxError"
  | ApiError message => "Error: " +++ message
  | IoError path => "Error: " +++ path
  end.

(** [path.join(directory, fileName)]. *)
Definition pathJoin (directory fileName : string) : string :=
  Path.join [directory; fileName].

Fixpoint mapi_from {A B} (i : nat) (f : A -> nat -> B) (l : list A) : list B :=
  match l with
  | [] => []
  | a :: rest => f a i :: mapi_from (S i) f rest
  end.

(** The download, the resize and the write of the image are started with
    [https.get] and a callback, and not awaited: the branch returns its
    image at once; when the file is written, and whether it is, the
    branch does not decide. *)
Definition generateImage (designIdeas : list string)
           (directoryPath fileNamePrefix : string) : IO (list Models.Image) :=
  promiseAll
    (mapi_from 0
       (fun design i =>
          rethrow
            (fun error =>
               Err ("Error generating image " +++ natToString i +++ "}:"
                    +++ errorText error))
            (response <- call (ImageGen design) ;;
             match response with
             | ImageData (Some (String c r)) (Some (String c' r')) =>
                 let imageUrl := String c r in
                 let revisedPrompt := String c' r' in
                 let fileName :=
                   fileNamePrefix +++ "_"
                   +++ JS.toLowerCase
                         (JS.replaceAll " " "-"
                            (JS.removeChars punctuation
                               (JS.trimEnd (JS.take 60 revisedPrompt))))
                   +++ ".png" in
                 let generatedImagePath := pathJoin directoryPath fileName in
                 _ <- detach generatedImagePath (PngFile imageUrl) ;;
                 ret {| Models.src := "./" +++ fileName;
                        Models.alt := revisedPrompt |}
             | ImageData (Some (String _ _)) _ =>
                 throw (Err "No revised prompt returned from OpenAI.")
             | ImageData _ _ => throw (Err "No image url returned from OpenAI.")
             | _ => throw (ApiError "unexpected response")
             end))
       designIdeas).

Definition writeMeetingToFile (outputDir outputFileName : string)
           (meeting : MeetingWithYouTubeTitles) : IO unit :=
  writeFile (pathJoin outputDir outputFileName) (JsonFile (meetingToJson meeting)).

(** *** Main *)

(** [for (let i = 0; i < n; i++) { acc = await body(acc) }]. *)
Fixpoint forLoop {A} (n : nat) (body : A -> IO A) (acc : A) : IO A :=
  match n with
  | O => ret acc
  | S k => acc' <- body acc ;; forLoop k body acc'
  end.

Definition meetingWithTags (meetingFromFile : Meeting) : IO Meeting :=
  generated <- promiseAll (map generateTags (presentations meetingFromFile)) ;;
  ret (withPresentations meetingFromFile generated).

Definition meetingWithTweets (meetingWithTags : Meeting) : IO Meeting :=
  generated <-
    promiseAll
      (map (fun presentation =>
              presentationWithGeneratedTweets <-
                generateTweets presentation (meetingDate meetingWithTags) ;;
              lift (addLinkToTweets presentationWithGeneratedTweets
                                    (meetupUrl meetingWithTags)))
           (presentations meetingWithTags)) ;;
  ret (withPresentations meetingWithTags generated).

Definition youTubeTitles (meetingWithTweets : Meeting) : IO (list string) :=
  match presentations meetingWithTweets with
  | [presentation0] =>
      forLoop 3
        (fun youTubeTitles =>
           generated <-
             generateYouTubeTitleFromPrompt
               (convertPresentationToPrompt presentation0 false None)
               (meetingDate meetingWithTweets) (meetingType meetingWithTweets) ;;
           ret (youTubeTitles ++ generated))
        []
  | presentations =>
      titles <-
        promiseAll
          (map (fun presentation =>
                  generateYouTubeTitleFromPrompt
                    (convertPresentationToPrompt presentation false None)
                    (meetingDate meetingWithTweets) (meetingType meetingWithTweets))
               presentations) ;;
      combined <-
        generateYouTubeTitleFromPrompt
          (convertPresentationsToPrompt presentations false None)
          (meetingDate meetingWithTweets) (meetingType meetingWithTweets) ;;
      ret (([] ++ concat titles) ++ combined)
  end.

Definition meetingWithYouTubeTitles (meetingWithTweets : Meeting)
  : IO MeetingWithYouTubeTitles :=
  titles <- youTubeTitles meetingWithTweets ;;
  ret {| meeting := meetingWithTweets; youTubeTitle := titles |}.

Definition designIdeas (meetingWithYouTubeTitles : MeetingWithYouTubeTitles)
  : IO (list string) :=
  match presentations (meeting meetingWithYouTubeTitles) with
  | [presentation0] =>
      forLoop 3
        (fun designIdeas =>
           idea <-
             generateImageDesignIdeaFromPrompt
               (convertPresentationToPrompt presentation0 false None) ;;
           ret (designIdeas ++ [idea]))
        []
  | presentations =>
      ideas <-
        promiseAll
          (map (fun presentation =>
                  generateImageDesignIdeaFromPrompt
                    (convertPresentationToPrompt presentation false None))
               presentations) ;;
      combined <-
        generateImageDesignIdeaFromPrompt
          (convertPresentationsToPrompt presentations false None) ;;
      ret (([] ++ ideas) ++ [combined])
  end.

Definition meetingWithImages (outputDir : string)
           (meetingWithYouTubeTitles : MeetingWithYouTubeTitles)
  : IO MeetingWithYouTubeTitles :=
  ideas <- designIdeas meetingWithYouTubeTitles ;;
  images <-
    generateImage ideas outputDir
      (getFileNamePrefix (meetingDate (meeting meetingWithYouTubeTitles))
                         (meetingType (meeting meetingWithYouTubeTitles))) ;;
  ret (withImage meetingWithYouTubeTitles images).

(** The top-level statements of index.ts; [outputDir] is the directory
    above the one of the compiled script. *)
Definition main (argv : list string) (outputDir : string) : IO unit :=
  inputFilePath <- lift (extractInputFilePathFromArgs argv) ;;
  file <- openMeetingFile inputFilePath ;;
  meetingFromFile <- parseMeetingFile file ;;
  _ <- extractApiKeyFromEnv ;;
  withTags <- meetingWithTags meetingFromFile ;;
  withTweets <- meetingWithTweets withTags ;;
  withTitles <- meetingWithYouTubeTitles withTweets ;;
  withImages <- meetingWithImages outputDir withTitles ;;
  writeMeetingToFile outputDir
    (getFileNamePrefix (meetingDate (meeting withTitles))
                       (meetingType (meeting withTitles)) +++ ".json")
    withImages.

End Index.

(* ================================================================== *)
(** ** The earlier revision of index.ts *)

Module Legacy.
Import Zod Run.

(** This revision reads the posts of a presentation under [tweets], as
    [Models.Presentation] has them, and takes the date and the type of the
    meeting from the name of the input file; [isoDate] stands for
    [meetingDate.toISOString().slice(0, 10)]. *)

Definition convertPresentationToPrompt (presentation : Models.Presentation)
  : string :=
  "The title of the presentation is: " +++ Models.title presentation +++ "."
  +++ Index.NL
  +++ "The presenter(s) are: " +++ JS.join (Models.presenterNames presentation)
  +++ "." +++ Index.NL
  +++ "This presentation abstract is as follows: " +++ Models.abstract presentation
  +++ Index.NL
  +++ (match Models.tags presentation with
       | Some t => "Tags: " +++ JS.join t
       | None => ""
       end).

Definition tagTool (args : Models.TagToolParams) : list string :=
  map (fun tag => JS.toLowerCase (JS.replace " " "-" tag)) (Models.tagsParam args).

(** [{ ...presentation, tweets: v }]. *)
Definition withTweets (presentation : Models.Presentation) (v : list string)
  : Models.Presentation :=
  {| Models.title := Models.title presentation;
     Models.presenterNames := Models.presenterNames presentation;
     Models.abstract := Models.abstract presentation;
     Models.references := Models.references presentation;
     Models.tags := Models.tags presentation;
     Models.tweets := Some v |}.

(** The text a template literal gives a [string | undefined]. *)
Definition templateText (s : option string) : string :=
  match s with
  | Some text => text
  | None => "undefined"
  end.

Definition addLinkToTweets (presentation : Models.Presentation)
           (meetupUrl : option string) : Result Models.Presentation :=
  match Models.tweets presentation with
  | None => Throw (Err "Presentation does not contain any tweets")
  | Some tweets =>
      Ok (withTweets presentation
            (map (fun tweet => JS.trimEnd (tweet +++ " " +++ templateText meetupUrl))
                 tweets))
  end.

Definition youTubeTitleTool (args : Models.YouTubeTitleToolParams) : list string :=
  Models.titlesParam args.

Definition addMeetingDateAndType (generatedTitles : list string) (isoDate : string)
           (meetingType : Models.MeetingType) : list string :=
  map (fun title => Index.meetingTypeName meetingType +++ " " +++ isoDate
                    +++ " - " +++ title)
      generatedTitles.

(** [{ ...meeting, youtubeTitles: v }]. *)
Definition withYoutubeTitles (m : Models.Meeting) (v : list string)
  : Models.Meeting :=
  {| Models.meetingDate := Models.meetingDate m;
     Models.meetingType := Models.meetingType m;
     Models.presentations := Models.presentations m;
     Models.meetupUrl := Models.meetupUrl m;
     Models.youtubeUrl := Models.youtubeUrl m;
     Models.youtubeTitles := Some v;
     Models.image := Models.image m |}.

Definition generateYouTubeTitles (isoDate : string)
           (meetingType : Models.MeetingType) (m : Models.Meeting)
  : IO Models.Meeting :=
  match Models.presentations m with
  | [] => throw (Err "Cannot read properties of undefined")
  | presentation0 :: _ =>
      result <- Index.runTools
                  (Models.zodFunction youTubeTitleTool
                     Models.youTubeTitleToolParamsSchema "youTubeTitleTool")
                  (convertPresentationToPrompt presentation0) ;;
      match result with
      | None => throw (Err "OpenAI did not call the tool.")
      | Some generatedTitles =>
          ret (withYoutubeTitles m
                 (addMeetingDateAndType generatedTitles isoDate meetingType))
      end
  end.

End Legacy.

(* ================================================================== *)
(** ** Vocabulary of the properties *)

(** The last character of a string, if any, is a white space. *)
Fixpoint endsWithWhiteSpace (s : string) : bool :=
  match s with
  | EmptyString => false
  | String c EmptyString => JS.isWhiteSpace c
  | String _ r => endsWithWhiteSpace r
  end.

(** The link as the suffixing reads it: an absent link is the empty one. *)
Definition linkOrEmpty (l : option string) : string :=
  match l with
  | Some text => text
  | None => ""
  end.

(** [t] occurs in [s]. *)
Definition contains (s t : string) : Prop :=
  exists before after, s = before +++ t +++ after.

(** A host that reads no date but the date-only forms. *)
Definition plainHost : JSDate.Host :=
  {| JSDate.parseOther := fun _ => None; JSDate.ofObject := fun _ => None |}.

(** The meeting of the end-to-end scenario and its only talk. *)
Definition containersTalk : json :=
  JObj [("title", JStr "Intro to Containers");
        ("presenterNames", JArr [JStr "Jane Doe"]);
        ("abstract", JStr "A talk about containers.")].

Definition containersMeeting : json :=
  JObj [("meetingDate", JStr "2024-02-14");
        ("meetingType", JStr "SLUUG");
        ("presentations", JArr [containersTalk])].

(** [{ ...presentation, tags, tweets }] on the records of models.ts. *)
Definition withTagsAndTweets (presentation : Models.Presentation)
           (newTags newTweets : list string) : Models.Presentation :=
  {| Models.title := Models.title presentation;
     Models.presenterNames := Models.presenterNames presentation;
     Models.abstract := Models.abstract presentation;
     Models.references := Models.references presentation;
     Models.tags := Some newTags;
     Models.tweets := Some newTweets |}.

(** [{ ...m, presentations }] on the records of models.ts. *)
Definition withPresentationList (m : Models.Meeting)
           (l : list Models.Presentation) : Models.Meeting :=
  {| Models.meetingDate := Models.meetingDate m;
     Models.meetingType := Models.meetingType m;
     Models.presentations := l;
     Models.meetupUrl := Models.meetupUrl m;
     Models.youtubeUrl := Models.youtubeUrl m;
     Models.youtubeTitles := Models.youtubeTitles m;
     Models.image := Models.image m |}.

(** [{ ...m, meetingDate }] on the records of models.ts. *)
Definition withMeetingDate (m : Models.Meeting) (d : option JSDate.Date)
  : Models.Meeting :=
  {| Models.meetingDate := d;
     Models.meetingType := Models.meetingType m;
     Models.presentations := Models.presentations m;
     Models.meetupUrl := Models.meetupUrl m;
     Models.youtubeUrl := Models.youtubeUrl m;
     Models.youtubeTitles := Models.youtubeTitles m;
     Models.image := Models.image m |}.

(** The properties of a presentation document with [tags] and [tweets] set
    to arrays of strings. *)
Definition setTagsAndTweets (props : list (string * json))
           (newTags newTweets : list string) : list (string * json) :=
  ("tags", JArr (map JStr newTags)) :: ("tweets", JArr (map JStr newTweets)) :: props.

(** A meeting document whose talk carries four tags and two tweets. *)
Definition overTaggedMeeting : json :=
  JObj [("presentations",
         JArr [JObj [("title", JStr "Intro to Containers");
                     ("presenterNames", JArr [JStr "Jane Doe"]);
                     ("abstract", JStr "A talk about containers.");
                     ("tags", JArr [JStr "a"; JStr "b"; JStr "c"; JStr "d"]);
                     ("tweets", JArr [JStr "one"; JStr "two"])]])].

(** The decimal digit [n], for [0 <= n <= 9]. *)
Definition digitChar (n : Z) : ascii := ascii_of_nat (48 + Z.to_nat n).

(** Two and four decimal digits, padded with zeros. *)
Definition pad2 (n : Z) : string :=
  String (digitChar (n / 10)) (String (digitChar (n mod 10)) EmptyString).

Definition pad4 (n : Z) : string :=
  String (digitChar (n / 1000))
         (String (digitChar (n / 100 mod 10)) (pad2 (n mod 100))).

(** A year, a month and a day written YYYY-MM-DD. *)
Definition isoDate (y m d : Z) : string :=
  pad4 y +++ "-" +++ pad2 m +++ "-" +++ pad2 d.

(** A year and a month written YYYY-MM. *)
Definition isoMonth (y m : Z) : string := pad4 y +++ "-" +++ pad2 m.

(** The shape YYYY-MM-DD: ten characters, digits but for the two hyphens. *)
Definition isYearMonthDay (s : string) : bool :=
  (String.length s =? 10)%nat
  && forallb JSDate.isDigit (list_ascii_of_string (JS.take 4 s))
  && JSDate.isHyphen (JS.take 1 (JS.drop 4 s))
  && forallb JSDate.isDigit (list_ascii_of_string (JS.take 2 (JS.drop 5 s)))
  && JSDate.isHyphen (JS.take 1 (JS.drop 7 s))
  && forallb JSDate.isDigit (list_ascii_of_string (JS.drop 8 s)).

(** *** Traces of a run *)

(** The requests issued so far. *)
Definition requests (w : Run.World) : list Run.Request :=
  map fst (Run.exchanges w).

(** The error of a validation that fails. *)
Definition parseError {T} (r : Zod.SafeParse T) : option Run.Error :=
  match r with
  | Zod.Success _ => None
  | Zod.Failure issues => Some (Run.ZodError issues)
  end.

(** What the schema of the tool called [toolName] holds against the
    arguments [args]. *)
Definition toolParseError (toolName : string) (args : json) : option Run.Error :=
  if String.eqb toolName "tagTool"
  then parseError (Zod.safeParse Models.tagToolParamsSchema args)
  else if String.eqb toolName "tweetTool"
  then parseError (Zod.safeParse Models.tweetToolParamsSchema args)
  else if String.eqb toolName "youTubeTitleTool"
  then parseError (Zod.safeParse Models.youTubeTitleToolParamsSchema args)
  else None.

(** An answer that breaks the structured schema of its stage: the model
    called the tool with arguments the schema of the tool refuses. *)
Definition violation (x : Run.Request * option Run.Response)
  : option (list Zod.ZodIssue) :=
  match x with
  | (Run.ChatTool toolName _, Some (Run.ToolCall args)) =>
      match toolParseError toolName args with
      | Some (Run.ZodError issues) => Some issues
      | _ => None
      end
  | _ => None
  end.

(** The error with which a text-generation call fails on the answer it got,
    if it does. *)
Definition exchangeError (x : Run.Request * option Run.Response)
  : option Run.Error :=
  match x with
  | (Run.ImageGen _, _) => None
  | (_, None) => Some (Run.ApiError "no response")
  | (_, Some (Run.Rejected message)) => Some (Run.ApiError message)
  | (Run.ChatTool toolName _, Some (Run.ToolCall args)) => toolParseError toolName args
  | (Run.ChatTool _ _, Some Run.NoToolCall) =>
      Some (Run.Err "OpenAI did not call the tool.")
  | (Run.ChatTool _ _, Some _) => Some (Run.ApiError "unexpected response")
  | (Run.ChatText _, Some (Run.Text (Some (String _ _)))) => None
  | (Run.ChatText _, Some (Run.Text _)) =>
      Some (Run.Err "OpenAI did not call the tool.")
  | (Run.ChatText _, Some _) => Some (Run.ApiError "unexpected response")
  end.

(** The error of the first exchange that fails. *)
Fixpoint firstFailure (xs : list (Run.Request * option Run.Response))
  : option Run.Error :=
  match xs with
  | [] => None
  | x :: rest =>
      match exchangeError x with
      | Some e => Some e
      | None => firstFailure rest
      end
  end.

(** The result of a computation agrees with the exchanges it made: it
    throws the error of the first exchange that failed and returns when none
    did. *)
Definition outcomeMatches {A} (r : Run.Result A)
           (xs : list (Run.Request * option Run.Response)) : Prop :=
  match r with
  | Run.Ok _ => firstFailure xs = None
  | Run.Throw e => firstFailure xs = Some e
  end.

(** A text-generation computation: it writes no file, it only adds
    exchanges to the log, and its result agrees with them. *)
Definition traced {A} (c : Run.IO A) : Prop :=
  forall w r w',
    c w = (r, w') ->
    exists xs,
      Run.exchanges w' = Run.exchanges w ++ xs
      /\ Run.files w' = Run.files w
      /\ outcomeMatches r xs.

(** A traced computation that, when it returns, has issued the requests
    [rqs], in this order. *)
Definition issues {A} (rqs : list Run.Request) (c : Run.IO A) : Prop :=
  forall w r w',
    c w = (r, w') ->
    exists xs,
      Run.exchanges w' = Run.exchanges w ++ xs
      /\ Run.files w' = Run.files w
      /\ outcomeMatches r xs
      /\ (forall a, r = Run.Ok a -> map fst xs = rqs).

(** The requests of the stages. *)
Definition tagRequest (p : Index.Presentation) : Run.Request :=
  Run.ChatTool "tagTool" (Index.convertPresentationToPrompt p false None).

Definition tweetRequest (meetingDate : string) (p : Index.Presentation)
  : Run.Request :=
  Run.ChatTool "tweetTool"
    (Index.convertPresentationToPrompt p true (Some meetingDate)).

Definition titleRequest (p : Index.Presentation) : Run.Request :=
  Run.ChatTool "youTubeTitleTool" (Index.convertPresentationToPrompt p false None).

Definition combinedTitleRequest (ps : list Index.Presentation) : Run.Request :=
  Run.ChatTool "youTubeTitleTool" (Index.convertPresentationsToPrompt ps false None).

Definition ideaRequest (p : Index.Presentation) : Run.Request :=
  Run.ChatText (Index.convertPresentationToPrompt p false None).

Definition combinedIdeaRequest (ps : list Index.Presentation) : Run.Request :=
  Run.ChatText (Index.convertPresentationsToPrompt ps false None).

(** The requests of the title stage and of the design stage: three times
    the same request for a single talk, else one request per talk and one
    for all the talks together. *)
Definition titleRequests (ps : list Index.Presentation) : list Run.Request :=
  match ps with
  | [p] => [titleRequest p; titleRequest p; titleRequest p]
  | _ => map titleRequest ps ++ [combinedTitleRequest ps]
  end.

Definition ideaRequests (ps : list Index.Presentation) : list Run.Request :=
  match ps with
  | [p] => [ideaRequest p; ideaRequest p; ideaRequest p]
  | _ => map ideaRequest ps ++ [combinedIdeaRequest ps]
  end.

(** *** The end-to-end scenario *)

Definition scenarioTalk : Index.Presentation :=
  {| Index.title := "Intro to Containers";
     Index.presenterNames := ["Jane Doe"];
     Index.abstract := "A talk about containers.";
     Index.references := None;
     Index.tags := None;
     Index.tweet := None |}.

Definition scenarioMeeting : Index.Meeting :=
  {| Index.meetingDate := "2024-02-14";
     Index.meetingType := Models.SLUUG;
     Index.presentations := [scenarioTalk];
     Index.meetupUrl := None;
     Index.youtubeUrl := None;
     Index.youtubeTitle := None;
     Index.image := None |}.

Definition toolCall (key : string) (values : list string) : Run.Response :=
  Run.ToolCall (JObj [(key, JArr (map JStr values))]).

(** The answers of a run that goes well: tags, tweets, three times three
    titles, three design ideas and three images. *)
Definition scenarioReplies : list Run.Response :=
  [toolCall "tags" ["Containers"; "Linux"];
   toolCall "tweets" ["Join us!"; "Containers ahead."; "See you there."];
   toolCall "titles" ["A1"; "A2"; "A3"];
   toolCall "titles" ["B1"; "B2"; "B3"];
   toolCall "titles" ["C1"; "C2"; "C3"];
   Run.Text (Some "A whale");
   Run.Text (Some "A ship");
   Run.Text (Some "A crane");
   Run.ImageData (Some "https://img.example/1") (Some "A whale, at sea.");
   Run.ImageData (Some "https://img.example/2") (Some "A ship");
   Run.ImageData (Some "https://img.example/3") (Some "A crane")].

Definition scenarioWorld (replies : list Run.Response) : Run.World :=
  {| Run.apiKey := Some "sk-test";
     Run.inputs := [("meeting.json", Some containersMeeting)];
     Run.replies := replies;
     Run.exchanges := [];
     Run.files := [];
     Run.detached := [];
     Run.readOnly := [] |}.

Definition scenarioArgv : list string := ["node"; "index.js"; "meeting.json"].

(** The world in which the title stage and the design stage of the
    scenario start, and the worlds they leave. *)
Definition titleStageWorld : Run.World :=
  scenarioWorld (skipn 2 (firstn 8 scenarioReplies)).

Definition designStageWorld : Run.World :=
  snd (Index.youTubeTitles scenarioMeeting titleStageWorld).

Definition imageStageWorld : Run.World :=
  snd (Index.designIdeas
         {| Index.meeting := scenarioMeeting; Index.youTubeTitle := [] |}
         designStageWorld).

(** *** Frames of the stages *)






(** *** The parts of [main] *)

(** The statements of [main] before the first request. *)
Definition prelude (argv : list string) : Run.IO Index.Meeting :=
  inputFilePath <- Run.lift (Index.extractInputFilePathFromArgs argv) ;;
  file <- Index.openMeetingFile inputFilePath ;;
  meetingFromFile <- Index.parseMeetingFile file ;;
  _ <- Index.extractApiKeyFromEnv ;;
  Run.ret meetingFromFile.

(** The stages that generate text: tags, tweets, titles and design ideas. *)
Definition textStages (m : Index.Meeting)
  : Run.IO (Index.MeetingWithYouTubeTitles * list string) :=
  withTags <- Index.meetingWithTags m ;;
  withTweets <- Index.meetingWithTweets withTags ;;
  withTitles <- Index.meetingWithYouTubeTitles withTweets ;;
  ideas <- Index.designIdeas withTitles ;;
  Run.ret (withTitles, ideas).

(** The statements of [main] after the design ideas: the images and the
    output file. *)
Definition imagesAndOutput (outputDir : string)
           (state : Index.MeetingWithYouTubeTitles * list string) : Run.IO unit :=
  let prefix :=
    Index.getFileNamePrefix (Index.meetingDate (Index.meeting (fst state)))
                            (Index.meetingType (Index.meeting (fst state))) in
  images <- Index.generateImage (snd state) outputDir prefix ;;
  Index.writeMeetingToFile outputDir (prefix +++ ".json")
                           (Index.withImage (fst state) images).

(** A run in which the model answers the tweet stage with two tweets. *)
Definition twoTweetsWorld : Run.World :=
  scenarioWorld [toolCall "tags" ["Containers"; "Linux"];
                 toolCall "tweets" ["Join us!"; "Containers ahead."]].

(** *** Vocabulary of the further properties *)

(** The first character of a string, if any, is a white space. *)
Definition startsWithWhiteSpace (s : string) : bool :=
  match s with
  | EmptyString => false
  | String c _ => JS.isWhiteSpace c
  end.

(** The number of space characters of a string. *)
Fixpoint spaces (s : string) : nat :=
  match s with
  | EmptyString => 0
  | String c r => (if Ascii.eqb c " " then 1 else 0) + spaces r
  end.

(** A tag as the tag stage leaves it: trimmed and in lower case. *)
Definition tidyTag (tag : string) : Prop :=
  startsWithWhiteSpace tag = false
  /\ endsWithWhiteSpace tag = false
  /\ JS.toLowerCase tag = tag.

(** The meeting of the scenario after the tag stage, with a link. *)
Definition linkedMeeting : Index.Meeting :=
  {| Index.meetingDate := "2024-02-14";
     Index.meetingType := Models.SLUUG;
     Index.presentations := [Index.withTags scenarioTalk ["containers"; "linux"]];
     Index.meetupUrl := Some "https://meetup.example/e/1";
     Index.youtubeUrl := None;
     Index.youtubeTitle := None;
     Index.image := None |}.

(** A meeting of two talks. *)
Definition secondTalk : Index.Presentation :=
  {| Index.title := "Shell Tricks";
     Index.presenterNames := ["John Roe"; "Ann Poe"];
     Index.abstract := "Ten minutes of shell.";
     Index.references := None;
     Index.tags := None;
     Index.tweet := None |}.

Definition twoTalksMeeting : Index.Meeting :=
  {| Index.meetingDate := "2024-03-13";
     Index.meetingType := Models.STLLUG;
     Index.presentations := [scenarioTalk; secondTalk];
     Index.meetupUrl := None;
     Index.youtubeUrl := None;
     Index.youtubeTitle := None;
     Index.image := None |}.

(** A computation that makes exactly the requests [rqs], whatever comes of
    it, and writes no file. *)
Definition alwaysIssues {A} (rqs : list Run.Request) (c : Run.IO A) : Prop :=
  forall w r w',
    c w = (r, w') ->
    requests w' = requests w ++ rqs /\ Run.files w' = Run.files w.

(** The part of the name of an image file that is drawn from the revised
    prompt, and the name of the file. *)
Definition imageFileBody (revisedPrompt : string) : string :=
  JS.toLowerCase
    (JS.replaceAll " " "-"
       (JS.removeChars Index.punctuation (JS.trimEnd (JS.take 60 revisedPrompt)))).

Definition imageFileName (fileNamePrefix revisedPrompt : string) : string :=
  fileNamePrefix +++ "_" +++ imageFileBody revisedPrompt +++ ".png".

(** Every character of a string passes a test. *)
Fixpoint allChars (test : ascii -> bool) (s : string) : bool :=
  match s with
  | EmptyString => true
  | String c r => test c && allChars test r
  end.

(** A character that is neither a space nor one of the punctuation marks
    the file names are stripped of (among them the dot and the slash). *)
Definition plainChar (c : ascii) : bool :=
  negb (Ascii.eqb c " ")
  && negb (existsb (Ascii.eqb c) (list_ascii_of_string Index.punctuation)).

(** An image file. *)
Definition isPng (f : string * Run.File) : Prop :=
  exists url, snd f = Run.PngFile url.

(** An image as the image stage returns it: its description is not empty
    and its source names the file drawn from the description. *)
Definition wellNamedImage (fileNamePrefix : string) (img : Models.Image) : Prop :=
  Models.alt img <> EmptyString
  /\ Models.src img = "./" +++ imageFileName fileNamePrefix (Models.alt img).

(** The message of the error the image stage throws for the idea [i]. *)
Definition imageError (i : nat) (e : Run.Error) : Prop :=
  exists cause,
    e = Run.Err ("Error generating image " +++ Index.natToString i +++ "}:" +++ cause).

(** The number of requests of the title stage and of the design stage for
    [n] presentations. *)
Definition fanOut (n : nat) : nat := if (n =? 1)%nat then 3 else n + 1.

(* ================================================================== *)
(** ** Names of files and the text of a date *)

Module JSLib.

(** [String.prototype.endsWith]. *)
Definition endsWith (s search : string) : bool :=
  (String.length search <=? String.length s)%nat
  && String.eqb (JS.drop (String.length s - String.length search) s) search.

(** [s.split("/")]. *)
Fixpoint split (s : string) : list string :=
  match s with
  | EmptyString => [EmptyString]
  | String c r =>
      match split r with
      | seg :: segs =>
          if Ascii.eqb c "/" then EmptyString :: seg :: segs
          else String c seg :: segs
      | [] => [String c EmptyString]
      end
  end.

Definition isEmpty (s : string) : bool :=
  match s with
  | EmptyString => true
  | _ => false
  end.

(** [path.basename] of node:path on POSIX: the last run of characters
    other than the separator, the empty string when there is none. *)
Definition basename (p : string) : string :=
  last (filter (fun seg => negb (isEmpty seg)) (split p)) EmptyString.

(** The year, the month and the day of a day number (ECMAScript
    YearFromTime, MonthFromTime and DateFromTime), by eras of 400 years. *)
Definition fromDayOfEra (doe : Z) : Z * Z * Z :=
  (let yoe := (doe - doe / 1460 + doe / 36524 - doe / 146096) / 365 in
   let doy := doe - (365 * yoe + yoe / 4 - yoe / 100) in
   let mp := (5 * doy + 2) / 153 in
   let d := doy - (153 * mp + 2) / 5 + 1 in
   let m := if mp <? 10 then mp + 3 else mp - 9 in
   (yoe, m, d))%Z.

Definition civilFromDays (days : Z) : Z * Z * Z :=
  (let z := days + 719468 in
   let era := z / 146097 in
   let doe := z - era * 146097 in
   let '(yoe, m, d) := fromDayOfEra doe in
   let y := yoe + era * 400 in
   (if m <=? 2 then y + 1 else y, m, d))%Z.

(** [width] decimal digits of [n], padded with zeros. *)
Fixpoint decimal (width : nat) (n : Z) : string :=
  match width with
  | O => EmptyString
  | S w => decimal w (n / 10) +++ String (digitChar (n mod 10)) EmptyString
  end.

(** Four digits for the years 0 to 9999, a sign and six digits for the
    others. *)
Definition yearText (y : Z) : string :=
  if ((0 <=? y) && (y <=? 9999))%Z then decimal 4 y
  else (if (y <? 0)%Z then "-" else "+") +++ decimal 6 (Z.abs y).

(** [Date.prototype.toISOString] of a valid Date. *)
Definition toISOString (t : JSDate.Date) : string :=
  (let '(y, m, d) := civilFromDays (t / JSDate.msPerDay) in
   let ms := t mod JSDate.msPerDay in
   yearText y +++ "-" +++ decimal 2 m +++ "-" +++ decimal 2 d
   +++ "T" +++ decimal 2 (ms / 3600000)
   +++ ":" +++ decimal 2 (ms / 60000 mod 60)
   +++ ":" +++ decimal 2 (ms / 1000 mod 60)
   +++ "." +++ decimal 3 (ms mod 1000) +++ "Z")%Z.

End JSLib.

(** ** The earlier revision of index.ts: what it reads from the name of
    the input file *)

Module LegacyNames.
Import Run.

Section WithHost.
Variable host : JSDate.Host.

Definition parseMeetingDateFromFileName (filePath : string)
  : Result JSDate.Date :=
  let fileName := JSLib.basename filePath in
  let datePart := JS.take 10 fileName in
  match JSDate.parse host datePart with
  | None =>
      Throw (Err "Invalid date format in file name. The JSON file name must start with a date in this format YYYY-MM-DD.")
  | Some timestamp => Ok timestamp
  end.
End WithHost.

Definition quote : string := String (ascii_of_nat 34) EmptyString.

Definition parseMeetingTypeFromFileName (filePath : string)
  : Result Models.MeetingType :=
  let fileName := JSLib.basename filePath in
  if JSLib.endsWith fileName "sluug.json" then Ok Models.SLUUG
  else if JSLib.endsWith fileName "stllug.json" then Ok Models.STLLUG
  else Throw (Err ("Invalid file name. The file name must end with "
                   +++ quote +++ "sluug.json" +++ quote +++ " or "
                   +++ quote +++ "stllug.json" +++ quote +++ ".")).

Definition getFileNamePrefix (meetingDate : JSDate.Date)
           (meetingType : Models.MeetingType) : string :=
  match meetingType with
  | Models.SLUUG => JS.take 10 (JSLib.toISOString meetingDate) +++ "_sluug"
  | Models.STLLUG => JS.take 10 (JSLib.toISOString meetingDate) +++ "_stllug"
  end.

End LegacyNames.

(** The name the earlier revision expects of the input file of a meeting
    of the type [t] held on [y]-[m]-[d]. *)
Definition meetingFileName (y m d : Z) (t : Models.MeetingType) : string :=
  isoDate y m d +++ "_" +++ JS.toLowerCase (Index.meetingTypeName t) +++ ".json".

(** The day of its era of 400 years that [JSDate.makeDay] counts for the
    year [yoe] of the era. *)
Definition dayOfEra (yoe m d : Z) : Z :=
  (let mp := (m + 9) mod 12 in
   let doy := (153 * mp + 2) / 5 + d - 1 in
   yoe * 365 + yoe / 4 - yoe / 100 + doy)%Z.

(** A meeting of two talks as the earlier revision holds it, and a run in
    which the model answers with three titles. *)
Definition earlierTalk (title : string) : Models.Presentation :=
  {| Models.title := title;
     Models.presenterNames := ["Jane Doe"];
     Models.abstract := "A talk.";
     Models.references := None;
     Models.tags := None;
     Models.tweets := Some ["Join us!"; "See you there. "] |}.

Definition earlierMeeting : Models.Meeting :=
  {| Models.meetingDate := Some 1707868800000%Z;
     Models.meetingType := None;
     Models.presentations := [earlierTalk "Containers"; earlierTalk "Shells"];
     Models.meetupUrl := None;
     Models.youtubeUrl := None;
     Models.youtubeTitles := None;
     Models.image := None |}.

(** *** What a stage takes from the answers of the model *)

(** What [generateImage] hands to [toLowerCase] for the name of a file. *)
Definition imageFileStem (revisedPrompt : string) : string :=
  JS.replaceAll " " "-"
    (JS.removeChars Index.punctuation (JS.trimEnd (JS.take 60 revisedPrompt))).




(** The image [img] is described by the revised prompt that the model gave
    in the exchange [x], and names the file of that prompt. *)
Definition imageOfAnswer (fileNamePrefix : string)
           (x : Run.Request * option Run.Response)
           (img : Models.Image) : Prop :=
  exists url,
    snd x = Some (Run.ImageData (Some url) (Some (Models.alt img)))
    /\ Models.src img = "./" +++ imageFileName fileNamePrefix (Models.alt img).

(** A computation that starts no detached work. *)
Definition undetached {A} (c : Run.IO A) : Prop :=
  forall w r w', c w = (r, w') -> Run.detached w' = Run.detached w.

(** The path of the record of the meeting [m] in the directory
    [outputDir]. *)
Definition recordPath (outputDir : string) (m : Index.Meeting) : string :=
  Index.pathJoin outputDir
    (Index.meetingDate m +++ "_"
     +++ JS.toLowerCase (Index.meetingTypeName (Index.meetingType m))
     +++ ".json").

(** The path of the file of the image [img]. *)
Definition imagePath (directoryPath fileNamePrefix : string) (img : Models.Image)
  : string :=
  Index.pathJoin directoryPath (imageFileName fileNamePrefix (Models.alt img)).

(* ================================================================== *)
(** * Properties *)

(** ** Strings *)

Lemma trimEnd_app_space (s : string) :
  JS.trimEnd (s +++ " ") = JS.trimEnd s.
Proof.
  induction s as [|c r IH]; [reflexivity|].
  cbn [String.append JS.trimEnd]. now rewrite IH.
Qed.

Lemma trimEnd_idempotent (s : string) :
  JS.trimEnd (JS.trimEnd s) = JS.trimEnd s.
Proof.
  induction s as [|c r IH]; [reflexivity|].
  cbn [JS.trimEnd].
  destruct (JS.trimEnd r) as [|c' r'] eqn:E.
  - destruct (JS.isWhiteSpace c) eqn:W; [reflexivity|].
    cbn [JS.trimEnd]. now rewrite W.
  - cbn [JS.trimEnd] in IH |- *.
    destruct (match JS.trimEnd r' with
              | EmptyString =>
                  if JS.isWhiteSpace c' then EmptyString else String c' EmptyString
              | String a s0 => String c' (String a s0)
              end) eqn:F; [discriminate|].
    now rewrite IH.
Qed.

Lemma trimEnd_no_trailing_space (s : string) :
  endsWithWhiteSpace (JS.trimEnd s) = false.
Proof.
  induction s as [|c r IH]; [reflexivity|].
  cbn [JS.trimEnd].
  destruct (JS.trimEnd r) as [|c' r'] eqn:E.
  - destruct (JS.isWhiteSpace c) eqn:W; [reflexivity|]. cbn. exact W.
  - exact IH.
Qed.

(** ** Tags *)

(** C2.  The transform of [tagTool] is not idempotent: it replaces only the
    first space of a tag, so a tag of three words keeps a space after the
    first application and loses it in the second. *)
Theorem tagTool_twice_differs :
  Index.tagTool {| Models.tagsParam := ["Open Source Software"] |}
    = ["open-source software"]
  /\ Index.tagTool {| Models.tagsParam := ["open-source software"] |}
    = ["open-source-software"].
Proof. split; reflexivity. Qed.

(** The earlier revision of [tagTool], which does not trim, behaves alike. *)
Lemma legacy_tagTool_twice_differs :
  Legacy.tagTool {| Models.tagsParam := ["Open Source Software"] |}
    = ["open-source software"]
  /\ Legacy.tagTool {| Models.tagsParam := ["open-source software"] |}
    = ["open-source-software"].
Proof. split; reflexivity. Qed.

(** ** Social posts *)

Lemma map_trimEnd_idempotent (l : list string) :
  map JS.trimEnd (map JS.trimEnd l) = map JS.trimEnd l.
Proof.
  rewrite map_map. apply map_ext. intro s. apply trimEnd_idempotent.
Qed.

(** C3.  On a presentation that has posts, [addLinkToTweets] returns the
    presentation with each post [p] replaced by [p + " " + l] trimmed at
    the end, an absent link being read as the empty one; when the link is
    empty or absent each post is [p] trimmed at the end, no result ends with
    a white space, and applying the operation again changes nothing. *)
Theorem addLinkToTweets_appends_link
        (presentation : Index.Presentation) (posts : list string)
        (l : option string) :
  Index.tweet presentation = Some posts ->
  Index.addLinkToTweets presentation l
    = Run.Ok (Index.withTweet presentation
                (map (fun p => JS.trimEnd (p +++ " " +++ linkOrEmpty l)) posts))
  /\ (linkOrEmpty l = "" ->
      Index.addLinkToTweets presentation l
        = Run.Ok (Index.withTweet presentation (map JS.trimEnd posts))
      /\ Forall (fun p => endsWithWhiteSpace p = false) (map JS.trimEnd posts)
      /\ Index.addLinkToTweets
           (Index.withTweet presentation (map JS.trimEnd posts)) l
         = Run.Ok (Index.withTweet presentation (map JS.trimEnd posts))).
Proof.
  intro H.
  assert (E : linkOrEmpty l = "" ->
              Index.addLinkToTweets presentation l
              = Run.Ok (Index.withTweet presentation (map JS.trimEnd posts))).
  { intro L. unfold Index.addLinkToTweets. rewrite H.
    destruct l as [[|c r]|]; [reflexivity|discriminate L|reflexivity]. }
  split.
  - destruct l as [[|c r]|].
    + rewrite E by reflexivity. do 2 f_equal. apply map_ext. intro p.
      cbn [linkOrEmpty]. now rewrite trimEnd_app_space.
    + unfold Index.addLinkToTweets. rewrite H. reflexivity.
    + rewrite E by reflexivity. do 2 f_equal. apply map_ext. intro p.
      cbn [linkOrEmpty]. now rewrite trimEnd_app_space.
  - intro L. split; [exact (E L)|]. split.
    + apply Forall_forall. intros p Hp. apply in_map_iff in Hp.
      destruct Hp as [q [<- _]]. apply trimEnd_no_trailing_space.
    + unfold Index.addLinkToTweets. cbn [Index.tweet Index.withTweet].
      destruct l as [[|c r]|]; [|discriminate L|];
        unfold Index.withTweet; cbn; now rewrite map_trimEnd_idempotent.
Qed.

Lemma addLinkToTweets_appends_link_witness :
  Index.addLinkToTweets
    {| Index.title := "Intro to Containers"; Index.presenterNames := ["Jane Doe"];
       Index.abstract := "A talk about containers."; Index.references := None;
       Index.tags := None; Index.tweet := Some ["Join us! "; "See you there"] |}
    (Some "https://meetup.example/e/1")
  = Run.Ok
      {| Index.title := "Intro to Containers"; Index.presenterNames := ["Jane Doe"];
         Index.abstract := "A talk about containers."; Index.references := None;
         Index.tags := None;
         Index.tweet := Some ["Join us!  https://meetup.example/e/1";
                              "See you there https://meetup.example/e/1"] |}.
Proof.
  exact (proj1 (addLinkToTweets_appends_link
                  {| Index.title := "Intro to Containers";
                     Index.presenterNames := ["Jane Doe"];
                     Index.abstract := "A talk about containers.";
                     Index.references := None; Index.tags := None;
                     Index.tweet := Some ["Join us! "; "See you there"] |}
                  ["Join us! "; "See you there"]
                  (Some "https://meetup.example/e/1") eq_refl)).
Defined.

(** In the earlier revision the link goes through the template literal
    without a test, so an absent link leaves the text "undefined". *)
Lemma legacy_addLinkToTweets_absent_link :
  Legacy.addLinkToTweets
    {| Models.title := "t"; Models.presenterNames := []; Models.abstract := "a";
       Models.references := None; Models.tags := None;
       Models.tweets := Some ["Join us!"] |} None
  = Run.Ok {| Models.title := "t"; Models.presenterNames := []; Models.abstract := "a";
              Models.references := None; Models.tags := None;
              Models.tweets := Some ["Join us! undefined"] |}.
Proof. reflexivity. Qed.

(** C10.  A presentation without posts makes [addLinkToTweets] throw the
    error "Presentation does not contain any tweets"; nothing is returned. *)
Theorem addLinkToTweets_without_tweets
        (presentation : Index.Presentation) (meetupUrl : option string) :
  Index.tweet presentation = None ->
  Index.addLinkToTweets presentation meetupUrl
    = Run.Throw (Run.Err "Presentation does not contain any tweets").
Proof.
  intro H. unfold Index.addLinkToTweets. now rewrite H.
Qed.

Lemma addLinkToTweets_without_tweets_witness :
  Index.addLinkToTweets
    {| Index.title := "Intro to Containers"; Index.presenterNames := ["Jane Doe"];
       Index.abstract := "A talk about containers."; Index.references := None;
       Index.tags := Some ["containers"]; Index.tweet := None |}
    (Some "https://meetup.example/e/1")
  = Run.Throw (Run.Err "Presentation does not contain any tweets").
Proof.
  apply (addLinkToTweets_without_tweets
           {| Index.title := "Intro to Containers";
              Index.presenterNames := ["Jane Doe"];
              Index.abstract := "A talk about containers.";
              Index.references := None;
              Index.tags := Some ["containers"]; Index.tweet := None |}).
  reflexivity.
Defined.

(** ** Validation *)

Section ZodFacts.
Import Zod.

Lemma isSuccess_ap {A B} (f : SafeParse (A -> B)) (x : SafeParse A) :
  isSuccess (f <*> x) = isSuccess f && isSuccess x.
Proof. destruct f, x; reflexivity. Qed.

Lemma ap_Success {A B} (f : SafeParse (A -> B)) (x : SafeParse A) (b : B) :
  f <*> x = Success b ->
  exists g a, f = Success g /\ x = Success a /\ b = g a.
Proof.
  destruct f as [g|i], x as [a|j]; try discriminate.
  intro H. injection H as <-. now exists g, a.
Qed.

Lemma parseItems_length {A} (elem : ZodType A) p i items l :
  parseItems elem p i items = Success l -> List.length l = List.length items.
Proof.
  revert i l. induction items as [|v rest IH]; intros i l H.
  - injection H as <-. reflexivity.
  - cbn [parseItems] in H. apply ap_Success in H.
    destruct H as (g & tl & Hg & Htl & ->).
    apply ap_Success in Hg. destruct Hg as (c & a & Hc & _ & ->).
    injection Hc as <-. cbn. f_equal. exact (IH _ _ Htl).
Qed.

Lemma parseItems_strings p i (l : list string) :
  parseItems z_string p i (map JStr l) = Success l.
Proof.
  revert i. induction l as [|s rest IH]; intro i; [reflexivity|].
  cbn. now rewrite IH.
Qed.

(** An array of strings of any length passes [z.array(z.string())]. *)
Lemma z_array_strings p (l : list string) :
  z_array z_string [] p (Some (JArr (map JStr l))) = Success l.
Proof. cbn. apply parseItems_strings. Qed.

(** Replacing one item of an accepted array by an item that is accepted
    whenever the first is gives an accepted array. *)
Lemma parseItems_replace {A} (elem : ZodType A) p (f : A -> A) before :
  forall i v v' after l,
    parseItems elem p i (before ++ v :: after) = Success l ->
    (forall a,
        elem (p ++ [Index (i + List.length before)]) (Some v) = Success a ->
        elem (p ++ [Index (i + List.length before)]) (Some v') = Success (f a)) ->
    exists lb a la,
      l = lb ++ a :: la
      /\ List.length lb = List.length before
      /\ parseItems elem p i (before ++ v' :: after) = Success (lb ++ f a :: la).
Proof.
  induction before as [|b before IH]; intros i v v' after l H H'.
  - cbn [app List.length] in *. rewrite Nat.add_0_r in *.
    cbn [parseItems] in H. apply ap_Success in H.
    destruct H as (g & la & Hg & Hla & ->).
    apply ap_Success in Hg. destruct Hg as (c & a & Hc & Ha & ->).
    injection Hc as <-.
    exists [], a, la. repeat split.
    cbn [parseItems app]. now rewrite (H' _ Ha), Hla.
  - cbn [app List.length] in *.
    cbn [parseItems] in H. apply ap_Success in H.
    destruct H as (g & tl & Hg & Htl & ->).
    apply ap_Success in Hg. destruct Hg as (c & b0 & Hc & Hb & ->).
    injection Hc as <-.
    replace (i + S (List.length before))%nat
      with (S i + List.length before)%nat in * by lia.
    destruct (IH (S i) v v' after tl Htl H') as (lb & a & la & -> & Hlen & Hr).
    exists (b0 :: lb), a, la. repeat split.
    + cbn. now rewrite Hlen.
    + cbn [parseItems app]. now rewrite Hb, Hr.
Qed.

Lemma z_array_Success {A} (elem : ZodType A) checks p v l :
  z_array elem checks p v = Success l ->
  exists items,
    v = Some (JArr items)
    /\ flat_map (checkIssues p (List.length items)) checks = []
    /\ parseItems elem p 0 items = Success l.
Proof.
  unfold z_array. destruct v as [[| | | |items|]|]; try discriminate.
  destruct (flat_map _ checks) eqn:E; [|discriminate].
  intro H. now exists items.
Qed.

End ZodFacts.

Lemma not_success_failure {A} (r : Zod.SafeParse A) :
  Zod.isSuccess r = false -> exists issues, r = Zod.Failure issues.
Proof. destruct r as [a|i]; [discriminate|]. intros _. now exists i. Qed.

(** The [presentations] property decides alone against a document. *)
Lemma meetingSchema_presentations_gate (host : JSDate.Host) p o :
  Zod.isSuccess (Zod.prop o p "presentations"
                   (Zod.z_array Models.presentationSchema [Zod.Min 1])) = false ->
  Zod.isSuccess (Models.meetingSchema host p (Some (JObj o))) = false.
Proof.
  intro H. unfold Models.meetingSchema, Zod.z_object.
  rewrite !isSuccess_ap, H. now rewrite !andb_false_r.
Qed.

(** C7.  A meeting document without the property [presentations], or whose
    [presentations] is the empty array, is refused by the validation;
    hence a validated meeting has at least one presentation. *)
Theorem meetingSchema_needs_a_presentation (host : JSDate.Host) (doc : json) :
  (getField "presentations" doc = None
   \/ getField "presentations" doc = Some (JArr []) ->
   exists issues,
     Zod.safeParse (Models.meetingSchema host) doc = Zod.Failure issues)
  /\ (forall m,
        Zod.safeParse (Models.meetingSchema host) doc = Zod.Success m ->
        1 <= List.length (Models.presentations m)).
Proof.
  split.
  - intro H. apply not_success_failure. unfold Zod.safeParse.
    destruct doc as [| | | | |o]; try reflexivity.
    apply meetingSchema_presentations_gate.
    unfold Zod.prop. cbn [getField] in H.
    destruct H as [-> | ->]; reflexivity.
  - intros m H. unfold Zod.safeParse in H.
    destruct doc as [| | | | |o]; try discriminate.
    unfold Models.meetingSchema, Zod.z_object in H.
    repeat (apply ap_Success in H;
            let g := fresh "g" in let a := fresh "a" in
            let Hx := fresh "Hx" in
            destruct H as (g & a & H & Hx & ->)).
    injection H as <-. cbn [Models.presentations].
    apply z_array_Success in Hx3.
    destruct Hx3 as (items & _ & Hc & Hi).
    apply parseItems_length in Hi. rewrite Hi.
    cbn in Hc. destruct items; [discriminate|cbn; lia].
Qed.

Lemma meetingSchema_needs_a_presentation_witness :
  (exists issues,
      Zod.safeParse (Models.meetingSchema plainHost)
                    (JObj [("meetingType", JStr "SLUUG")])
      = Zod.Failure issues)
  /\ 1 <= List.length
            (Models.presentations
               {| Models.meetingDate := Some 1707868800000%Z;
                  Models.meetingType := Some Models.SLUUG;
                  Models.presentations :=
                    [{| Models.title := "Intro to Containers";
                        Models.presenterNames := ["Jane Doe"];
                        Models.abstract := "A talk about containers.";
                        Models.references := None;
                        Models.tags := None;
                        Models.tweets := None |}];
                  Models.meetupUrl := None;
                  Models.youtubeUrl := None;
                  Models.youtubeTitles := None;
                  Models.image := None |}).
Proof.
  split.
  - apply (proj1 (meetingSchema_needs_a_presentation plainHost
                    (JObj [("meetingType", JStr "SLUUG")]))).
    left. reflexivity.
  - apply (proj2 (meetingSchema_needs_a_presentation plainHost containersMeeting)).
    reflexivity.
Defined.

(** A presentation document that is accepted is accepted with any arrays of
    strings as its tags and its tweets. *)
Lemma presentationSchema_any_tags_and_tweets p o newTags newTweets presentation :
  Models.presentationSchema p (Some (JObj o)) = Zod.Success presentation ->
  Models.presentationSchema p (Some (JObj (setTagsAndTweets o newTags newTweets)))
  = Zod.Success (withTagsAndTweets presentation newTags newTweets).
Proof.
  intro H. unfold Models.presentationSchema, Zod.z_object in *.
  repeat (apply ap_Success in H;
          let g := fresh "g" in let a := fresh "a" in
          let Hx := fresh "Hx" in
          destruct H as (g & a & H & Hx & ->)).
  injection H as <-.
  unfold Zod.prop, setTagsAndTweets in *. cbn [getProp String.eqb Ascii.eqb Bool.eqb].
  rewrite Hx4, Hx3, Hx2, Hx1.
  unfold Zod.z_optional. rewrite !z_array_strings. reflexivity.
Qed.

(** C5.  The validation of the input puts no bound on the number of tags or
    of tweets: a meeting document that is accepted stays accepted when the
    tags and the tweets of any of its presentations are replaced by arrays of
    strings of any length. *)
Theorem meetingSchema_no_cardinality_bound
        (host : JSDate.Host) (o po : list (string * json))
        (before after : list json) (newTags newTweets : list string)
        (m : Models.Meeting) :
  getProp "presentations" o = Some (JArr (before ++ JObj po :: after)) ->
  Zod.safeParse (Models.meetingSchema host) (JObj o) = Zod.Success m ->
  exists lb presentation la,
    Models.presentations m = lb ++ presentation :: la
    /\ List.length lb = List.length before
    /\ Zod.safeParse (Models.meetingSchema host)
         (JObj (("presentations",
                 JArr (before ++ JObj (setTagsAndTweets po newTags newTweets) :: after))
                :: o))
       = Zod.Success
           (withPresentationList m
              (lb ++ withTagsAndTweets presentation newTags newTweets :: la)).
Proof.
  intros Hp H. unfold Zod.safeParse, Models.meetingSchema, Zod.z_object in *.
  repeat (apply ap_Success in H;
          let g := fresh "g" in let a := fresh "a" in
          let Hx := fresh "Hx" in
          destruct H as (g & a & H & Hx & ->)).
  injection H as <-.
  unfold Zod.prop in *. rewrite Hp in Hx3.
  apply z_array_Success in Hx3. destruct Hx3 as (items & Hi & Hc & Hl).
  injection Hi as <-.
  destruct (parseItems_replace Models.presentationSchema _
              (fun a => withTagsAndTweets a newTags newTweets) before 0
              (JObj po) (JObj (setTagsAndTweets po newTags newTweets)) after a3 Hl)
    as (lb & presentation & la & -> & Hlen & Hr).
  { intros pr. apply presentationSchema_any_tags_and_tweets. }
  exists lb, presentation, la. split; [reflexivity|]. split; [exact Hlen|].
  cbn [getProp String.eqb Ascii.eqb Bool.eqb].
  rewrite Hx5, Hx4, Hx2, Hx1, Hx0, Hx.
  unfold Zod.z_array.
  replace (List.length (before ++ JObj (setTagsAndTweets po newTags newTweets) :: after))
    with (List.length (before ++ JObj po :: after))
    by (rewrite !length_app; reflexivity).
  rewrite Hc, Hr. reflexivity.
Qed.


Lemma meetingSchema_no_cardinality_bound_witness :
  exists lb presentation la,
    [{| Models.title := "Intro to Containers";
        Models.presenterNames := ["Jane Doe"];
        Models.abstract := "A talk about containers.";
        Models.references := None;
        Models.tags := None;
        Models.tweets := None |}] = lb ++ presentation :: la
    /\ List.length lb = 0
    /\ Zod.safeParse (Models.meetingSchema plainHost)
         (JObj [("presentations",
                 JArr [JObj (setTagsAndTweets
                               [("title", JStr "Intro to Containers");
                                ("presenterNames", JArr [JStr "Jane Doe"]);
                                ("abstract", JStr "A talk about containers.")]
                               ["a"; "b"; "c"; "d"] ["one"; "two"])]);
                ("meetingDate", JStr "2024-02-14");
                ("meetingType", JStr "SLUUG");
                ("presentations", JArr [containersTalk])])
       = Zod.Success
           {| Models.meetingDate := Some 1707868800000%Z;
              Models.meetingType := Some Models.SLUUG;
              Models.presentations :=
                lb ++ withTagsAndTweets presentation
                        ["a"; "b"; "c"; "d"] ["one"; "two"] :: la;
              Models.meetupUrl := None;
              Models.youtubeUrl := None;
              Models.youtubeTitles := None;
              Models.image := None |}.
Proof.
  apply (meetingSchema_no_cardinality_bound plainHost
           [("meetingDate", JStr "2024-02-14");
            ("meetingType", JStr "SLUUG");
            ("presentations", JArr [containersTalk])]
           [("title", JStr "Intro to Containers");
            ("presenterNames", JArr [JStr "Jane Doe"]);
            ("abstract", JStr "A talk about containers.")]
           [] [] ["a"; "b"; "c"; "d"] ["one"; "two"]
           {| Models.meetingDate := Some 1707868800000%Z;
              Models.meetingType := Some Models.SLUUG;
              Models.presentations :=
                [{| Models.title := "Intro to Containers";
                    Models.presenterNames := ["Jane Doe"];
                    Models.abstract := "A talk about containers.";
                    Models.references := None;
                    Models.tags := None;
                    Models.tweets := None |}];
              Models.meetupUrl := None;
              Models.youtubeUrl := None;
              Models.youtubeTitles := None;
              Models.image := None |});
    reflexivity.
Defined.

(** Against C5 as stated: a meeting whose talk has four tags and two tweets
    is accepted. *)
Lemma meetingSchema_accepts_four_tags_two_tweets :
  Zod.safeParse (Models.meetingSchema plainHost) overTaggedMeeting
  = Zod.Success
      {| Models.meetingDate := None;
         Models.meetingType := None;
         Models.presentations :=
           [{| Models.title := "Intro to Containers";
               Models.presenterNames := ["Jane Doe"];
               Models.abstract := "A talk about containers.";
               Models.references := None;
               Models.tags := Some ["a"; "b"; "c"; "d"];
               Models.tweets := Some ["one"; "two"] |}];
         Models.meetupUrl := None;
         Models.youtubeUrl := None;
         Models.youtubeTitles := None;
         Models.image := None |}.
Proof. reflexivity. Qed.

(** The schema of the revision index.ts is written against has no bound
    either. *)
Lemma index_presentationSchema_accepts_four_tags :
  Zod.isSuccess
    (Zod.safeParse Index.presentationSchema
       (JObj [("title", JStr "Intro to Containers");
              ("presenterNames", JArr [JStr "Jane Doe"]);
              ("abstract", JStr "A talk about containers.");
              ("tags", JArr [JStr "a"; JStr "b"; JStr "c"; JStr "d"]);
              ("tweet", JArr [JStr "one"; JStr "two"])]))
  = true.
Proof. reflexivity. Qed.

(** ** Dates *)

Lemma digitChar_digit (k : Z) :
  (0 <= k <= 9)%Z ->
  JSDate.isDigit (digitChar k) = true
  /\ Z.of_nat (nat_of_ascii (digitChar k) - 48) = k.
Proof.
  intro H.
  assert (E : (k = 0 \/ k = 1 \/ k = 2 \/ k = 3 \/ k = 4 \/ k = 5 \/ k = 6
               \/ k = 7 \/ k = 8 \/ k = 9)%Z) by lia.
  repeat (destruct E as [-> | E]; [split; reflexivity|]).
  subst k. split; reflexivity.
Qed.

Lemma digits_digitChar (acc k : Z) (r : string) :
  (0 <= k <= 9)%Z ->
  JSDate.digits acc (String (digitChar k) r) = JSDate.digits (10 * acc + k) r.
Proof.
  intro H. destruct (digitChar_digit k H) as [D V].
  cbn [JSDate.digits]. now rewrite D, V.
Qed.

Lemma number_pad2 (n : Z) :
  (0 <= n <= 99)%Z -> JSDate.number (pad2 n) = Some n.
Proof.
  intro H. unfold JSDate.number, pad2.
  rewrite !digits_digitChar by (Z.to_euclidean_division_equations; lia).
  cbn [JSDate.digits]. f_equal. Z.to_euclidean_division_equations; lia.
Qed.

Lemma number_pad4 (n : Z) :
  (0 <= n <= 9999)%Z -> JSDate.number (pad4 n) = Some n.
Proof.
  intro H. unfold JSDate.number, pad4, pad2.
  rewrite !digits_digitChar by (Z.to_euclidean_division_equations; lia).
  cbn [JSDate.digits]. f_equal. Z.to_euclidean_division_equations; lia.
Qed.

Lemma utcMidnight_in_range (y m d : Z) :
  (1 <= m <= 12)%Z -> (1 <= d <= JSDate.daysInMonth y m)%Z ->
  JSDate.utcMidnight y m d = Some (JSDate.makeDay y m d * JSDate.msPerDay)%Z.
Proof.
  intros Hm Hd. unfold JSDate.utcMidnight.
  replace (1 <=? m)%Z with true by (symmetry; apply Z.leb_le; lia).
  replace (m <=? 12)%Z with true by (symmetry; apply Z.leb_le; lia).
  replace (1 <=? d)%Z with true by (symmetry; apply Z.leb_le; lia).
  replace (d <=? JSDate.daysInMonth y m)%Z with true
    by (symmetry; apply Z.leb_le; lia).
  reflexivity.
Qed.

Lemma daysInMonth_bounds (y m : Z) : (28 <= JSDate.daysInMonth y m <= 31)%Z.
Proof.
  unfold JSDate.daysInMonth.
  destruct (m =? 2)%Z; [destruct (JSDate.isLeapYear y); lia|].
  destruct ((m =? 4) || (m =? 6) || (m =? 9) || (m =? 11))%Z; lia.
Qed.

(** [Date.parse] reads every calendar date written YYYY-MM-DD as the UTC
    midnight of that day. *)
Lemma parseDateOnly_isoDate (y m d : Z) :
  (0 <= y <= 9999)%Z -> (1 <= m <= 12)%Z ->
  (1 <= d <= JSDate.daysInMonth y m)%Z ->
  JSDate.parseDateOnly (isoDate y m d)
  = Some (JSDate.makeDay y m d * JSDate.msPerDay)%Z.
Proof.
  intros Hy Hm Hd. pose proof (daysInMonth_bounds y m) as Hb.
  unfold JSDate.parseDateOnly.
  change (String.length (isoDate y m d)) with 10%nat. cbv iota.
  change (JS.take 4 (isoDate y m d)) with (pad4 y).
  change (JS.take 2 (JS.drop 5 (isoDate y m d))) with (pad2 m).
  change (JS.drop 8 (isoDate y m d)) with (pad2 d).
  rewrite number_pad4, !number_pad2 by lia.
  change (JS.take 1 (JS.drop 4 (isoDate y m d))) with "-".
  change (JS.take 1 (JS.drop 7 (isoDate y m d))) with "-".
  cbn [JSDate.isHyphen String.eqb Ascii.eqb Bool.eqb andb].
  now apply utcMidnight_in_range.
Qed.

(** It also reads a year and a month written YYYY-MM, as the first day of
    the month. *)
Lemma parseDateOnly_isoMonth (y m : Z) :
  (0 <= y <= 9999)%Z -> (1 <= m <= 12)%Z ->
  JSDate.parseDateOnly (isoMonth y m)
  = Some (JSDate.makeDay y m 1 * JSDate.msPerDay)%Z.
Proof.
  intros Hy Hm. pose proof (daysInMonth_bounds y m) as Hb.
  unfold JSDate.parseDateOnly.
  change (String.length (isoMonth y m)) with 7%nat. cbv iota.
  change (JS.take 4 (isoMonth y m)) with (pad4 y).
  change (JS.drop 5 (isoMonth y m)) with (pad2 m).
  rewrite number_pad4, number_pad2 by lia.
  change (JS.take 1 (JS.drop 4 (isoMonth y m))) with "-".
  cbn [JSDate.isHyphen String.eqb Ascii.eqb Bool.eqb].
  apply utcMidnight_in_range; lia.
Qed.

Lemma isoMonth_not_isYearMonthDay (y m : Z) :
  isYearMonthDay (isoMonth y m) = false.
Proof. reflexivity. Qed.

(** C6.  The validation turns the meeting date into a Date with the Date
    constructor and checks no format.  For a document that is accepted, the
    same document with the string [s] as its [meetingDate] is accepted
    exactly when [Date.parse] reads [s], and the date of the parsed meeting
    is then what [Date.parse] gives.  Every calendar date written
    YYYY-MM-DD is read, as the UTC midnight of that day; a year and a month
    written YYYY-MM, which is not of that format, is read as well. *)
Theorem meetingDate_goes_through_Date
        (host : JSDate.Host) (o : list (string * json)) (m : Models.Meeting) :
  Zod.safeParse (Models.meetingSchema host) (JObj o) = Zod.Success m ->
  (forall s t, JSDate.parse host s = Some t ->
               Zod.safeParse (Models.meetingSchema host)
                             (JObj (("meetingDate", JStr s) :: o))
               = Zod.Success (withMeetingDate m (Some t)))
  /\ (forall s, JSDate.parse host s = None ->
                exists issues,
                  Zod.safeParse (Models.meetingSchema host)
                                (JObj (("meetingDate", JStr s) :: o))
                  = Zod.Failure issues)
  /\ (forall y mo d,
         (0 <= y <= 9999)%Z -> (1 <= mo <= 12)%Z ->
         (1 <= d <= JSDate.daysInMonth y mo)%Z ->
         Zod.safeParse (Models.meetingSchema host)
                       (JObj (("meetingDate", JStr (isoDate y mo d)) :: o))
         = Zod.Success
             (withMeetingDate m (Some (JSDate.makeDay y mo d * JSDate.msPerDay)%Z)))
  /\ (forall y mo,
         (0 <= y <= 9999)%Z -> (1 <= mo <= 12)%Z ->
         isYearMonthDay (isoMonth y mo) = false
         /\ Zod.safeParse (Models.meetingSchema host)
                          (JObj (("meetingDate", JStr (isoMonth y mo)) :: o))
            = Zod.Success
                (withMeetingDate m (Some (JSDate.makeDay y mo 1 * JSDate.msPerDay)%Z))).
Proof.
  intro H.
  assert (A : forall s t, JSDate.parse host s = Some t ->
               Zod.safeParse (Models.meetingSchema host)
                             (JObj (("meetingDate", JStr s) :: o))
               = Zod.Success (withMeetingDate m (Some t))).
  { intros s t Ht. unfold Zod.safeParse, Models.meetingSchema, Zod.z_object in *.
    repeat (apply ap_Success in H;
            let g := fresh "g" in let a := fresh "a" in
            let Hx := fresh "Hx" in
            destruct H as (g & a & H & Hx & ->)).
    injection H as <-.
    unfold Zod.prop in *. cbn [getProp String.eqb Ascii.eqb Bool.eqb].
    rewrite Hx4, Hx3, Hx2, Hx1, Hx0, Hx.
    unfold Zod.z_optional, Zod.z_coerce_date. cbn [JSDate.newDate].
    rewrite Ht. reflexivity. }
  split; [exact A|split; [|split]].
  - intros s Hn. apply not_success_failure.
    unfold Zod.safeParse, Models.meetingSchema, Zod.z_object.
    rewrite !isSuccess_ap.
    unfold Zod.prop at 1. cbn [getProp String.eqb Ascii.eqb Bool.eqb].
    unfold Zod.z_optional, Zod.z_coerce_date. cbn [JSDate.newDate].
    rewrite Hn. reflexivity.
  - intros y mo d Hy Hm Hd. apply A. unfold JSDate.parse.
    now rewrite parseDateOnly_isoDate.
  - intros y mo Hy Hm. split; [reflexivity|]. apply A. unfold JSDate.parse.
    now rewrite parseDateOnly_isoMonth.
Qed.

Lemma meetingDate_goes_through_Date_witness :
  Zod.safeParse (Models.meetingSchema plainHost)
                (JObj [("meetingDate", JStr "2024-02-29");
                       ("meetingDate", JStr "2024-02-14");
                       ("meetingType", JStr "SLUUG");
                       ("presentations", JArr [containersTalk])])
  = Zod.Success
      {| Models.meetingDate := Some 1709164800000%Z;
         Models.meetingType := Some Models.SLUUG;
         Models.presentations :=
           [{| Models.title := "Intro to Containers";
               Models.presenterNames := ["Jane Doe"];
               Models.abstract := "A talk about containers.";
               Models.references := None;
               Models.tags := None;
               Models.tweets := None |}];
         Models.meetupUrl := None;
         Models.youtubeUrl := None;
         Models.youtubeTitles := None;
         Models.image := None |}.
Proof.
  refine (proj1 (proj2 (proj2
            (meetingDate_goes_through_Date plainHost
               [("meetingDate", JStr "2024-02-14");
                ("meetingType", JStr "SLUUG");
                ("presentations", JArr [containersTalk])]
               {| Models.meetingDate := Some 1707868800000%Z;
                  Models.meetingType := Some Models.SLUUG;
                  Models.presentations :=
                    [{| Models.title := "Intro to Containers";
                        Models.presenterNames := ["Jane Doe"];
                        Models.abstract := "A talk about containers.";
                        Models.references := None;
                        Models.tags := None;
                        Models.tweets := None |}];
                  Models.meetupUrl := None;
                  Models.youtubeUrl := None;
                  Models.youtubeTitles := None;
                  Models.image := None |}
               eq_refl))) 2024%Z 2%Z 29%Z _ _ _); cbn; lia.
Defined.

(** Against C6 as stated: the string 2024-02, which is not of the format
    YYYY-MM-DD, is accepted as a meeting date and converted. *)
Lemma meetingSchema_accepts_year_month :
  isYearMonthDay "2024-02" = false
  /\ Zod.safeParse (Models.meetingSchema plainHost)
       (JObj [("meetingDate", JStr "2024-02");
              ("presentations", JArr [containersTalk])])
     = Zod.Success
         {| Models.meetingDate := Some 1706745600000%Z;
            Models.meetingType := None;
            Models.presentations :=
              [{| Models.title := "Intro to Containers";
                  Models.presenterNames := ["Jane Doe"];
                  Models.abstract := "A talk about containers.";
                  Models.references := None;
                  Models.tags := None;
                  Models.tweets := None |}];
            Models.meetupUrl := None;
            Models.youtubeUrl := None;
            Models.youtubeTitles := None;
            Models.image := None |}.
Proof. split; reflexivity. Qed.

(** In the revision index.ts is written against, the date is any string and
    stays a string. *)
Lemma index_meetingSchema_keeps_any_string :
  Zod.safeParse Index.meetingSchema
    (JObj [("meetingDate", JStr "next Wednesday");
           ("meetingType", JStr "SLUUG");
           ("presentations", JArr [containersTalk])])
  = Zod.Success
      {| Index.meetingDate := "next Wednesday";
         Index.meetingType := Models.SLUUG;
         Index.presentations :=
           [{| Index.title := "Intro to Containers";
               Index.presenterNames := ["Jane Doe"];
               Index.abstract := "A talk about containers.";
               Index.references := None;
               Index.tags := None;
               Index.tweet := None |}];
         Index.meetupUrl := None;
         Index.youtubeUrl := None;
         Index.youtubeTitle := None;
         Index.image := None |}.
Proof. reflexivity. Qed.

(** ** Traces *)

Lemma firstFailure_app xs ys :
  firstFailure (xs ++ ys)
  = match firstFailure xs with
    | Some e => Some e
    | None => firstFailure ys
    end.
Proof.
  induction xs as [|x xs IH]; [reflexivity|].
  cbn. destruct (exchangeError x); [reflexivity|exact IH].
Qed.

Lemma issues_traced {A} rqs (c : Run.IO A) : issues rqs c -> traced c.
Proof.
  intros H w r w' E. destruct (H w r w' E) as (xs & H1 & H2 & H3 & _).
  now exists xs.
Qed.

Lemma issues_ret {A} (a : A) : issues [] (Run.ret a).
Proof.
  intros w r w' E. injection E as <- <-. exists [].
  rewrite app_nil_r. repeat split.
Qed.

Lemma traced_bind {A B} (c : Run.IO A) (k : A -> Run.IO B) :
  traced c -> (forall a, traced (k a)) -> traced (Run.bind c k).
Proof.
  intros Hc Hk w r w' E. unfold Run.bind in E.
  destruct (c w) as [[a|e] w1] eqn:E1.
  - destruct (Hc _ _ _ E1) as (xs1 & X1 & F1 & O1).
    destruct (Hk a _ _ _ E) as (xs2 & X2 & F2 & O2).
    exists (xs1 ++ xs2). rewrite X2, X1, F2, F1, app_assoc. repeat split.
    cbn in O1. destruct r; cbn in *; now rewrite firstFailure_app, O1.
  - injection E as <- <-.
    destruct (Hc _ _ _ E1) as (xs1 & X1 & F1 & O1). now exists xs1.
Qed.

Lemma issues_bind {A B} rqs1 rqs2 (c : Run.IO A) (k : A -> Run.IO B) :
  issues rqs1 c -> (forall a, issues rqs2 (k a)) ->
  issues (rqs1 ++ rqs2) (Run.bind c k).
Proof.
  intros Hc Hk w r w' E. unfold Run.bind in E.
  destruct (c w) as [[a|e] w1] eqn:E1.
  - destruct (Hc _ _ _ E1) as (xs1 & X1 & F1 & O1 & R1).
    destruct (Hk a _ _ _ E) as (xs2 & X2 & F2 & O2 & R2).
    exists (xs1 ++ xs2). rewrite X2, X1, F2, F1, app_assoc. repeat split.
    + cbn in O1. destruct r; cbn in *; now rewrite firstFailure_app, O1.
    + intros b ->. rewrite map_app, (R1 a eq_refl), (R2 b eq_refl). reflexivity.
  - injection E as <- <-.
    destruct (Hc _ _ _ E1) as (xs1 & X1 & F1 & O1 & R1).
    exists xs1. repeat split; try assumption. discriminate.
Qed.

(** The branches of [Promise.all], one request each. *)
Lemma issues_promiseAll {A} (rqs : list Run.Request) (branches : list (Run.IO A)) :
  Forall2 (fun rq c => issues [rq] c) rqs branches ->
  issues rqs (Run.promiseAll branches).
Proof.
  intro H. induction H as [|rq c rqs branches Hc _ IH]; intros w r w' E.
  - injection E as <- <-. exists []. rewrite app_nil_r. repeat split.
  - unfold Run.promiseAll in E. cbn [Run.runAll] in E.
    destruct (c w) as [r1 w1] eqn:E1.
    destruct (Run.runAll branches w1) as [rs w2] eqn:E2.
    injection E as <- <-.
    destruct (Hc _ _ _ E1) as (xs1 & X1 & F1 & O1 & R1).
    destruct (IH w1 (Run.firstError rs) w2) as (xs2 & X2 & F2 & O2 & R2).
    { unfold Run.promiseAll. now rewrite E2. }
    exists (xs1 ++ xs2). rewrite X2, X1, F2, F1, app_assoc.
    split; [reflexivity|]. split; [reflexivity|].
    destruct r1 as [a|e]; cbn [Run.firstError].
    + cbn in O1. destruct (Run.firstError rs) as [l|e]; cbn in *.
      * split; [now rewrite firstFailure_app, O1|].
        intros l' _. now rewrite map_app, (R1 a eq_refl), (R2 l eq_refl).
      * split; [now rewrite firstFailure_app, O1|]. discriminate.
    + cbn in *. split; [now rewrite firstFailure_app, O1|]. discriminate.
Qed.

Lemma issues_forLoop {A} rqs (body : A -> Run.IO A) (n : nat) :
  (forall a, issues rqs (body a)) ->
  forall acc, issues (concat (repeat rqs n)) (Index.forLoop n body acc).
Proof.
  intro H. induction n as [|n IH]; intro acc; cbn [Index.forLoop repeat concat].
  - apply issues_ret.
  - apply issues_bind; [apply H|exact IH].
Qed.

(** What one run of [runTools] does, by the answer it gets. *)
Lemma runTools_cases {T} (tool : Models.RunnableToolFunctionWithParse T)
      (prompt : string) (w w' : Run.World) (r : Run.Result (option (list string))) :
  Index.runTools tool prompt w = (r, w') ->
  Run.exchanges w'
  = Run.exchanges w ++ [(Run.ChatTool (Models.name tool) prompt, hd_error (Run.replies w))]
  /\ Run.files w' = Run.files w
  /\ r = match hd_error (Run.replies w) with
         | None => Run.Throw (Run.ApiError "no response")
         | Some (Run.ToolCall args) =>
             match Models.parse tool args with
             | Zod.Success a => Run.Ok (Some (Models.function tool a))
             | Zod.Failure issues => Run.Throw (Run.ZodError issues)
             end
         | Some Run.NoToolCall => Run.Ok None
         | Some (Run.Rejected message) => Run.Throw (Run.ApiError message)
         | Some _ => Run.Throw (Run.ApiError "unexpected response")
         end.
Proof.
  unfold Index.runTools, Run.bind, Run.call. intro E.
  destruct (Run.replies w) as [|[args| |content|u rp|message] rest];
    cbn [hd_error] in *;
    try (injection E as <- <-; cbn; repeat split; fail).
  destruct (Models.parse tool args); injection E as <- <-; cbn; repeat split.
Qed.

(** The common shape of the three stages that force a tool: the result of
    the tool, or the error "OpenAI did not call the tool." *)
Lemma tool_stage_cases {T B} (tool : Models.RunnableToolFunctionWithParse T)
      (prompt : string) (f : list string -> B)
      (w w' : Run.World) (r : Run.Result B) :
  Run.bind (Index.runTools tool prompt)
           (fun result =>
              match result with
              | None => Run.throw (Run.Err "OpenAI did not call the tool.")
              | Some generated => Run.ret (f generated)
              end) w = (r, w') ->
  Run.exchanges w'
  = Run.exchanges w ++ [(Run.ChatTool (Models.name tool) prompt, hd_error (Run.replies w))]
  /\ Run.files w' = Run.files w
  /\ r = match hd_error (Run.replies w) with
         | None => Run.Throw (Run.ApiError "no response")
         | Some (Run.ToolCall args) =>
             match Models.parse tool args with
             | Zod.Success a => Run.Ok (f (Models.function tool a))
             | Zod.Failure issues => Run.Throw (Run.ZodError issues)
             end
         | Some Run.NoToolCall => Run.Throw (Run.Err "OpenAI did not call the tool.")
         | Some (Run.Rejected message) => Run.Throw (Run.ApiError message)
         | Some _ => Run.Throw (Run.ApiError "unexpected response")
         end.
Proof.
  unfold Run.bind. intro E.
  destruct (Index.runTools tool prompt w) as [r1 w1] eqn:E1.
  apply runTools_cases in E1. destruct E1 as (X & F & ->).
  destruct (hd_error (Run.replies w)) as [[args| |content|u rp|message]|];
    try (injection E as <- <-; repeat split; assumption).
  destruct (Models.parse tool args); injection E as <- <-; repeat split; assumption.
Qed.

(** A stage of that shape is traced and issues one request, when the
    validation of the tool is the one recorded for its name. *)
Lemma tool_stage_issues {T B} (tool : Models.RunnableToolFunctionWithParse T)
      (prompt : string) (f : list string -> B) :
  (forall args,
      toolParseError (Models.name tool) args = parseError (Models.parse tool args)) ->
  issues [Run.ChatTool (Models.name tool) prompt]
         (Run.bind (Index.runTools tool prompt)
                   (fun result =>
                      match result with
                      | None => Run.throw (Run.Err "OpenAI did not call the tool.")
                      | Some generated => Run.ret (f generated)
                      end)).
Proof.
  intros Hp w r w' E. apply tool_stage_cases in E. destruct E as (X & F & ->).
  eexists [_]. split; [exact X|]. split; [exact F|].
  destruct (hd_error (Run.replies w)) as [[args| |content|u rp|message]|];
    try (split; [reflexivity|discriminate]).
  unfold outcomeMatches, firstFailure, exchangeError. rewrite Hp.
  destruct (Models.parse tool args); cbn; split;
    try reflexivity; try discriminate.
Qed.

Lemma generateTags_issues (p : Index.Presentation) :
  issues [tagRequest p] (Index.generateTags p).
Proof. apply tool_stage_issues. reflexivity. Qed.

Lemma generateYouTubeTitleFromPrompt_issues prompt meetingDate meetingType :
  issues [Run.ChatTool "youTubeTitleTool" prompt]
         (Index.generateYouTubeTitleFromPrompt prompt meetingDate meetingType).
Proof. apply tool_stage_issues. reflexivity. Qed.

Lemma generateTweets_issues (p : Index.Presentation) (meetingDate : string) :
  issues [tweetRequest meetingDate p] (Index.generateTweets p meetingDate).
Proof. apply tool_stage_issues. reflexivity. Qed.

Lemma generateImageDesignIdeaFromPrompt_issues (prompt : string) :
  issues [Run.ChatText prompt] (Index.generateImageDesignIdeaFromPrompt prompt).
Proof.
  intros w r w' E.
  unfold Index.generateImageDesignIdeaFromPrompt, Run.bind, Run.call in E.
  destruct (Run.replies w) as [|[args| |[[|c s]|]|u rp|message] rest];
    injection E as <- <-; eexists [_]; cbn;
    (split; [reflexivity|]); (split; [reflexivity|]);
    (split; [reflexivity|]); first [discriminate | reflexivity].
Qed.

(** After [generateTweets] the presentation has posts, so adding the link
    cannot throw. *)
Lemma tweets_branch_issues (meetingDate : string) (meetupUrl : option string)
      (p : Index.Presentation) :
  issues [tweetRequest meetingDate p]
         (Run.bind (Index.generateTweets p meetingDate)
                   (fun q => Run.lift (Index.addLinkToTweets q meetupUrl))).
Proof.
  intros w r w' E. unfold Run.bind in E.
  destruct (Index.generateTweets p meetingDate w) as [r1 w1] eqn:E1.
  pose proof (generateTweets_issues p meetingDate w r1 w1 E1) as (xs & X & F & O & R).
  apply tool_stage_cases in E1. destruct E1 as (_ & _ & V).
  destruct r1 as [q|e].
  - exists xs.
    assert (exists posts, r = Run.Ok (Index.withTweet p posts) /\ w' = w1)
      as (posts & -> & ->).
    { destruct (hd_error (Run.replies w)) as [[args| |content|u rp|message]|];
        try discriminate.
      destruct (Models.parse _ args); [|discriminate].
      injection V as ->. unfold Run.lift, Index.addLinkToTweets in E.
      cbn [Index.tweet Index.withTweet] in E.
      destruct meetupUrl as [[|c s]|]; injection E as <- <-; eexists; split; reflexivity. }
    split; [exact X|]. split; [exact F|]. split; [exact O|].
    intros a _. exact (R q eq_refl).
  - injection E as <- <-. exists xs.
    split; [exact X|]. split; [exact F|]. split; [exact O|]. discriminate.
Qed.

Lemma Forall2_issues_map {A B} (rq : A -> Run.Request) (f : A -> Run.IO B) l :
  (forall a, issues [rq a] (f a)) ->
  Forall2 (fun r c => issues [r] c) (map rq l) (map f l).
Proof.
  intro H. induction l as [|a l IH]; cbn; constructor; [apply H|exact IH].
Qed.

Lemma issues_eq {A} rqs rqs' (c : Run.IO A) :
  rqs = rqs' -> issues rqs c -> issues rqs' c.
Proof. now intros ->. Qed.

Lemma meetingWithTags_issues (m : Index.Meeting) :
  issues (map tagRequest (Index.presentations m)) (Index.meetingWithTags m).
Proof.
  unfold Index.meetingWithTags.
  eapply issues_eq; [apply app_nil_r|].
  apply issues_bind; [|intro; apply issues_ret].
  apply issues_promiseAll, Forall2_issues_map, generateTags_issues.
Qed.

Lemma meetingWithTweets_issues (m : Index.Meeting) :
  issues (map (tweetRequest (Index.meetingDate m)) (Index.presentations m))
         (Index.meetingWithTweets m).
Proof.
  unfold Index.meetingWithTweets.
  eapply issues_eq; [apply app_nil_r|].
  apply issues_bind; [|intro; apply issues_ret].
  apply issues_promiseAll.
  apply (Forall2_issues_map (tweetRequest (Index.meetingDate m))).
  intro p. apply tweets_branch_issues.
Qed.

Lemma youTubeTitles_issues (m : Index.Meeting) :
  issues (titleRequests (Index.presentations m)) (Index.youTubeTitles m).
Proof.
  unfold Index.youTubeTitles, titleRequests.
  destruct (Index.presentations m) as [|p [|p' ps]].
  - apply (issues_bind [] [_]); [apply (issues_promiseAll [] []); constructor|].
    intro titles. eapply issues_eq; [apply app_nil_r|].
    apply issues_bind; [|intro; apply issues_ret].
    apply generateYouTubeTitleFromPrompt_issues.
  - apply (issues_forLoop [titleRequest p] _ 3). intro acc.
    eapply issues_eq; [apply app_nil_r|].
    apply issues_bind; [|intro; apply issues_ret].
    apply generateYouTubeTitleFromPrompt_issues.
  - apply issues_bind.
    + apply issues_promiseAll.
      apply (Forall2_issues_map titleRequest). intro q.
      apply generateYouTubeTitleFromPrompt_issues.
    + intro titles. eapply issues_eq; [apply app_nil_r|].
      apply issues_bind; [|intro; apply issues_ret].
      apply generateYouTubeTitleFromPrompt_issues.
Qed.

Lemma designIdeas_issues (mt : Index.MeetingWithYouTubeTitles) :
  issues (ideaRequests (Index.presentations (Index.meeting mt)))
         (Index.designIdeas mt).
Proof.
  unfold Index.designIdeas, ideaRequests.
  destruct (Index.presentations (Index.meeting mt)) as [|p [|p' ps]].
  - apply (issues_bind [] [_]); [apply (issues_promiseAll [] []); constructor|].
    intro ideas. eapply issues_eq; [apply app_nil_r|].
    apply issues_bind; [|intro; apply issues_ret].
    apply generateImageDesignIdeaFromPrompt_issues.
  - apply (issues_forLoop [ideaRequest p] _ 3). intro acc.
    eapply issues_eq; [apply app_nil_r|].
    apply issues_bind; [|intro; apply issues_ret].
    apply generateImageDesignIdeaFromPrompt_issues.
  - apply issues_bind.
    + apply issues_promiseAll.
      apply (Forall2_issues_map ideaRequest). intro q.
      apply generateImageDesignIdeaFromPrompt_issues.
    + intro ideas. eapply issues_eq; [apply app_nil_r|].
      apply issues_bind; [|intro; apply issues_ret].
      apply generateImageDesignIdeaFromPrompt_issues.
Qed.

(** ** The fan-out of the title stage and of the design stage *)

Lemma issued_requests {A} rqs (c : Run.IO A) w a w' :
  issues rqs c -> c w = (Run.Ok a, w') -> requests w' = requests w ++ rqs.
Proof.
  intros H E. destruct (H _ _ _ E) as (xs & X & _ & _ & R).
  unfold requests. now rewrite X, map_app, (R a eq_refl).
Qed.

(** C1.  When the title stage and the design stage return, each has issued
    exactly three requests, all for the only talk, if the meeting has one
    presentation, and exactly N + 1 requests, one per presentation in order
    and then one for all presentations together, if it has N > 1. *)
Theorem fan_out_invocations
        (m : Index.Meeting) (youTube titles ideas : list string)
        (w1 w2 w3 w4 : Run.World) :
  Index.youTubeTitles m w1 = (Run.Ok titles, w2) ->
  Index.designIdeas {| Index.meeting := m; Index.youTubeTitle := youTube |} w3
    = (Run.Ok ideas, w4) ->
  let ps := Index.presentations m in
  let n := List.length ps in
  (n = 1 ->
   exists p,
     ps = [p]
     /\ requests w2 = requests w1 ++ [titleRequest p; titleRequest p; titleRequest p]
     /\ requests w4 = requests w3 ++ [ideaRequest p; ideaRequest p; ideaRequest p]
     /\ List.length (requests w2) = List.length (requests w1) + 3
     /\ List.length (requests w4) = List.length (requests w3) + 3)
  /\ (n > 1 ->
      requests w2 = requests w1 ++ map titleRequest ps ++ [combinedTitleRequest ps]
      /\ requests w4 = requests w3 ++ map ideaRequest ps ++ [combinedIdeaRequest ps]
      /\ List.length (requests w2) = List.length (requests w1) + (n + 1)
      /\ List.length (requests w4) = List.length (requests w3) + (n + 1)).
Proof.
  intros E1 E2 ps n.
  pose proof (issued_requests _ _ _ _ _ (youTubeTitles_issues m) E1) as R1.
  pose proof (issued_requests _ _ _ _ _ (designIdeas_issues _) E2) as R2.
  cbn [Index.meeting] in R2. fold ps in R1, R2.
  split; intro Hn; subst n.
  - destruct ps as [|p [|p' ps']]; try discriminate.
    exists p. cbn [titleRequests ideaRequests] in *.
    rewrite R1, R2, !length_app. repeat split.
  - destruct ps as [|p [|p' ps']]; cbn [List.length] in Hn; try lia.
    cbn [titleRequests ideaRequests] in *.
    rewrite R1, R2, !length_app, !length_map. cbn [List.length].
    repeat split; lia.
Qed.

Lemma fan_out_invocations_witness :
  List.length (requests designStageWorld)
  = List.length (requests titleStageWorld) + 3
  /\ List.length (requests imageStageWorld)
     = List.length (requests designStageWorld) + 3.
Proof.
  destruct (fan_out_invocations scenarioMeeting []
              ["A1 | SLUUG 2024-02-14"; "A2 | SLUUG 2024-02-14";
               "A3 | SLUUG 2024-02-14"; "B1 | SLUUG 2024-02-14";
               "B2 | SLUUG 2024-02-14"; "B3 | SLUUG 2024-02-14";
               "C1 | SLUUG 2024-02-14"; "C2 | SLUUG 2024-02-14";
               "C3 | SLUUG 2024-02-14"]
              ["A whale"; "A ship"; "A crane"]
              titleStageWorld designStageWorld designStageWorld imageStageWorld
              eq_refl eq_refl) as [H _].
  destruct (H eq_refl) as (p & _ & _ & _ & L1 & L2).
  split; assumption.
Defined.

(** ** Video titles *)

Lemma append_assoc (a b c : string) : (a +++ b) +++ c = a +++ b +++ c.
Proof. induction a as [|x a IH]; cbn; [reflexivity|now rewrite IH]. Qed.

Lemma append_empty_r (a : string) : a +++ "" = a.
Proof. induction a as [|x a IH]; cbn; [reflexivity|now rewrite IH]. Qed.

Lemma z_array_exact_length {A} (elem : Zod.ZodType A) n p v l :
  Zod.z_array elem [Zod.Length n] p v = Zod.Success l -> List.length l = n.
Proof.
  intro H. apply z_array_Success in H. destruct H as (items & _ & Hc & Hi).
  apply parseItems_length in Hi. rewrite Hi.
  cbn [flat_map Zod.checkIssues] in Hc.
  destruct (Nat.eqb_spec (List.length items) n); [assumption|discriminate].
Qed.

Lemma z_array_max_length {A} (elem : Zod.ZodType A) n p v l :
  Zod.z_array elem [Zod.Max n] p v = Zod.Success l -> List.length l <= n.
Proof.
  intro H. apply z_array_Success in H. destruct H as (items & _ & Hc & Hi).
  apply parseItems_length in Hi. rewrite Hi.
  cbn [flat_map Zod.checkIssues] in Hc.
  destruct (Nat.ltb_spec n (List.length items)); [discriminate|assumption].
Qed.

(** The parameters of the title tool that pass the validation hold exactly
    three titles. *)
Lemma youTubeTitleToolParams_three args a :
  Zod.safeParse Models.youTubeTitleToolParamsSchema args = Zod.Success a ->
  List.length (Models.titlesParam a) = 3.
Proof.
  unfold Zod.safeParse, Models.youTubeTitleToolParamsSchema, Zod.z_object.
  destruct args as [| | | | |o]; try discriminate.
  intro H. apply ap_Success in H. destruct H as (g & l & Hg & Hl & ->).
  injection Hg as <-. cbn. exact (z_array_exact_length _ _ _ _ _ Hl).
Qed.

(** One generation of titles that returns gives three titles, each a
    generated title followed by the type and the date of the meeting. *)
Lemma generateYouTubeTitleFromPrompt_Ok prompt meetingDate meetingType w titles w' :
  Index.generateYouTubeTitleFromPrompt prompt meetingDate meetingType w
    = (Run.Ok titles, w') ->
  exists generated,
    List.length generated = 3
    /\ titles = Index.suffixTitleWithMeetingDateAndType generated meetingDate meetingType.
Proof.
  intro E. apply tool_stage_cases in E. destruct E as (_ & _ & V).
  destruct (hd_error (Run.replies w)) as [[args| |content|u rp|message]|];
    try discriminate.
  cbn [Models.parse Models.zodFunction Models.function] in V.
  destruct (Zod.safeParse _ args) as [a|] eqn:P; [|discriminate].
  injection V as ->. exists (Models.titlesParam a).
  split; [exact (youTubeTitleToolParams_three _ _ P)|reflexivity].
Qed.

(** One generation of titles returns when the model calls the tool with
    arguments that pass the validation. *)
Lemma generateYouTubeTitleFromPrompt_accepts prompt meetingDate meetingType w args rest a :
  Run.replies w = Run.ToolCall args :: rest ->
  Zod.safeParse Models.youTubeTitleToolParamsSchema args = Zod.Success a ->
  exists w',
    Index.generateYouTubeTitleFromPrompt prompt meetingDate meetingType w
    = (Run.Ok (Index.suffixTitleWithMeetingDateAndType
                 (Models.titlesParam a) meetingDate meetingType), w')
    /\ Run.replies w' = rest.
Proof.
  intros R P.
  unfold Index.generateYouTubeTitleFromPrompt, Index.runTools, Run.bind, Run.call.
  rewrite R. cbn [Models.parse Models.zodFunction Models.function]. rewrite P.
  eexists. split; reflexivity.
Qed.

Lemma suffixed_title_contains generated meetingDate meetingType title :
  In title (Index.suffixTitleWithMeetingDateAndType generated meetingDate meetingType) ->
  contains title (Index.meetingTypeName meetingType) /\ contains title meetingDate.
Proof.
  unfold Index.suffixTitleWithMeetingDateAndType. intro H.
  apply in_map_iff in H. destruct H as (g & <- & _). split.
  - exists (g +++ " | "), (" " +++ meetingDate). now rewrite append_assoc.
  - exists (g +++ " | " +++ Index.meetingTypeName meetingType +++ " "), "".
    now rewrite append_empty_r, !append_assoc.
Qed.

(** For a meeting with exactly one presentation, when the title stage
    returns, the field it adds holds exactly nine strings, the three titles
    of each of its three generations, and every one of them contains the
    type and the date of the meeting; the stage returns when the model
    answers the three requests with arguments that pass the validation. *)
Lemma single_talk_video_titles
        (m : Index.Meeting) (p : Index.Presentation) (w : Run.World) :
  Index.presentations m = [p] ->
  (forall mt w',
      Index.meetingWithYouTubeTitles m w = (Run.Ok mt, w') ->
      Index.meeting mt = m
      /\ List.length (Index.youTubeTitle mt) = 9
      /\ Forall (fun title =>
                   contains title (Index.meetingTypeName (Index.meetingType m))
                   /\ contains title (Index.meetingDate m))
                (Index.youTubeTitle mt))
  /\ (forall a1 a2 a3 t1 t2 t3 rest,
         Run.replies w = Run.ToolCall a1 :: Run.ToolCall a2 :: Run.ToolCall a3 :: rest ->
         Zod.safeParse Models.youTubeTitleToolParamsSchema a1 = Zod.Success t1 ->
         Zod.safeParse Models.youTubeTitleToolParamsSchema a2 = Zod.Success t2 ->
         Zod.safeParse Models.youTubeTitleToolParamsSchema a3 = Zod.Success t3 ->
         exists w',
           Index.meetingWithYouTubeTitles m w
           = (Run.Ok
                {| Index.meeting := m;
                   Index.youTubeTitle :=
                     Index.suffixTitleWithMeetingDateAndType
                       (Models.titlesParam t1 ++ Models.titlesParam t2
                        ++ Models.titlesParam t3)
                       (Index.meetingDate m) (Index.meetingType m) |}, w')).
Proof.
  intro Hp. split.
  - intros mt w' E.
    unfold Index.meetingWithYouTubeTitles, Index.youTubeTitles in E.
    rewrite Hp in E. cbn [Index.forLoop] in E. unfold Run.bind, Run.ret in E.
    destruct (Index.generateYouTubeTitleFromPrompt _ _ _ w) as [[ts1|e] w1] eqn:E1;
      [|discriminate].
    destruct (Index.generateYouTubeTitleFromPrompt _ _ _ w1) as [[ts2|e] w2] eqn:E2;
      [|discriminate].
    destruct (Index.generateYouTubeTitleFromPrompt _ _ _ w2) as [[ts3|e] w3] eqn:E3;
      [|discriminate].
    injection E as <- <-. cbn [Index.meeting Index.youTubeTitle app].
    apply generateYouTubeTitleFromPrompt_Ok in E1, E2, E3.
    destruct E1 as (g1 & L1 & ->), E2 as (g2 & L2 & ->), E3 as (g3 & L3 & ->).
    split; [reflexivity|]. split.
    + unfold Index.suffixTitleWithMeetingDateAndType.
      rewrite !length_app, !length_map. lia.
    + apply Forall_forall. intros title Hin.
      apply in_app_or in Hin. destruct Hin as [Hin|Hin];
        [apply in_app_or in Hin; destruct Hin as [Hin|Hin]|];
        exact (suffixed_title_contains _ _ _ _ Hin).
  - intros a1 a2 a3 t1 t2 t3 rest R P1 P2 P3.
    unfold Index.meetingWithYouTubeTitles, Index.youTubeTitles.
    rewrite Hp. cbn [Index.forLoop]. unfold Run.bind, Run.ret.
    destruct (generateYouTubeTitleFromPrompt_accepts
                (Index.convertPresentationToPrompt p false None)
                (Index.meetingDate m) (Index.meetingType m) w a1 _ t1 R P1)
      as (w1 & -> & R1).
    destruct (generateYouTubeTitleFromPrompt_accepts
                (Index.convertPresentationToPrompt p false None)
                (Index.meetingDate m) (Index.meetingType m) w1 a2 _ t2 R1 P2)
      as (w2 & -> & R2).
    destruct (generateYouTubeTitleFromPrompt_accepts
                (Index.convertPresentationToPrompt p false None)
                (Index.meetingDate m) (Index.meetingType m) w2 a3 _ t3 R2 P3)
      as (w3 & -> & R3).
    exists w3. unfold Index.suffixTitleWithMeetingDateAndType.
    cbn [app]. now rewrite !map_app, app_assoc.
Qed.

Lemma single_talk_video_titles_example :
  exists w',
    Index.meetingWithYouTubeTitles scenarioMeeting titleStageWorld
    = (Run.Ok
         {| Index.meeting := scenarioMeeting;
            Index.youTubeTitle :=
              ["A1 | SLUUG 2024-02-14"; "A2 | SLUUG 2024-02-14";
               "A3 | SLUUG 2024-02-14"; "B1 | SLUUG 2024-02-14";
               "B2 | SLUUG 2024-02-14"; "B3 | SLUUG 2024-02-14";
               "C1 | SLUUG 2024-02-14"; "C2 | SLUUG 2024-02-14";
               "C3 | SLUUG 2024-02-14"] |}, w').
Proof.
  exact (proj2 (single_talk_video_titles scenarioMeeting scenarioTalk
                  titleStageWorld eq_refl)
               (JObj [("titles", JArr [JStr "A1"; JStr "A2"; JStr "A3"])])
               (JObj [("titles", JArr [JStr "B1"; JStr "B2"; JStr "B3"])])
               (JObj [("titles", JArr [JStr "C1"; JStr "C2"; JStr "C3"])])
               {| Models.titlesParam := ["A1"; "A2"; "A3"] |}
               {| Models.titlesParam := ["B1"; "B2"; "B3"] |}
               {| Models.titlesParam := ["C1"; "C2"; "C3"] |}
               [Run.Text (Some "A whale"); Run.Text (Some "A ship");
                Run.Text (Some "A crane")]
               eq_refl eq_refl eq_refl eq_refl).
Defined.

(** ** Frames *)

Lemma promiseAll_Forall2 {A B} (R : A -> B -> Prop) (f : A -> Run.IO B) :
  (forall a w b w', f a w = (Run.Ok b, w') -> R a b) ->
  forall l w bs w',
    Run.promiseAll (map f l) w = (Run.Ok bs, w') -> Forall2 R l bs.
Proof.
  intros H l. induction l as [|a l IH]; intros w bs w' E.
  - injection E as <- <-. constructor.
  - unfold Run.promiseAll in E. cbn [map Run.runAll] in E.
    destruct (f a w) as [r1 w1] eqn:E1.
    destruct (Run.runAll (map f l) w1) as [rs w2] eqn:E2.
    destruct r1 as [b|e]; cbn [Run.firstError] in E; [|discriminate].
    destruct (Run.firstError rs) as [l'|e] eqn:E3; [|discriminate].
    injection E as <- <-. constructor.
    + exact (H _ _ _ _ E1).
    + apply (IH w1 l' w2). unfold Run.promiseAll. now rewrite E2, E3.
Qed.




(** ** Detached work *)

Lemma undetached_ret {A} (a : A) : undetached (Run.ret a).
Proof. intros w r w' E. now injection E as _ <-. Qed.

Lemma undetached_throw {A} (e : Run.Error) : undetached (@Run.throw A e).
Proof. intros w r w' E. now injection E as _ <-. Qed.

Lemma undetached_lift {A} (x : Run.Result A) : undetached (Run.lift x).
Proof. intros w r w' E. now injection E as _ <-. Qed.

Lemma undetached_call (rq : Run.Request) : undetached (Run.call rq).
Proof.
  intros w r w' E. unfold Run.call in E.
  destruct (Run.replies w); now injection E as _ <-.
Qed.

Lemma undetached_bind {A B} (c : Run.IO A) (k : A -> Run.IO B) :
  undetached c -> (forall a, undetached (k a)) -> undetached (Run.bind c k).
Proof.
  intros Hc Hk w r w' E. unfold Run.bind in E.
  destruct (c w) as [[a|e] w1] eqn:E1; pose proof (Hc _ _ _ E1) as D1.
  - now rewrite (Hk a _ _ _ E).
  - now injection E as _ <-.
Qed.

Lemma undetached_promiseAll {A} (branches : list (Run.IO A)) :
  Forall undetached branches -> undetached (Run.promiseAll branches).
Proof.
  intros H w r w' E. unfold Run.promiseAll in E.
  destruct (Run.runAll branches w) as [rs w1] eqn:E1. injection E as _ <-.
  revert w rs w1 E1. induction H as [|c rest Hc _ IH]; intros w rs w1 E1.
  - now injection E1 as _ <-.
  - cbn [Run.runAll] in E1. destruct (c w) as [r0 w0] eqn:E0.
    destruct (Run.runAll rest w0) as [rs' w2] eqn:E2. injection E1 as _ <-.
    now rewrite (IH _ _ _ E2), (Hc _ _ _ E0).
Qed.

Lemma undetached_forLoop {A} (body : A -> Run.IO A) (n : nat) :
  (forall a, undetached (body a)) -> forall acc, undetached (Index.forLoop n body acc).
Proof.
  intro H. induction n as [|n IH]; intro acc; cbn [Index.forLoop].
  - apply undetached_ret.
  - apply undetached_bind; [apply H|exact IH].
Qed.

Lemma undetached_map {A B} (f : A -> Run.IO B) (l : list A) :
  (forall a, undetached (f a)) -> Forall undetached (map f l).
Proof. intro H. apply Forall_forall. intros c Hin. apply in_map_iff in Hin.
  destruct Hin as (a & <- & _). apply H. Qed.

Lemma undetached_runTools {T} (tool : Models.RunnableToolFunctionWithParse T)
      (prompt : string) : undetached (Index.runTools tool prompt).
Proof.
  unfold Index.runTools. apply undetached_bind; [apply undetached_call|].
  intros [args| |content|u rp|message];
    try apply undetached_ret; try apply undetached_throw.
  destruct (Models.parse tool args);
    [apply undetached_ret|apply undetached_throw].
Qed.

(** The stages that generate text start no detached work. *)
Lemma undetached_textStages (m : Index.Meeting) : undetached (textStages m).
Proof.
  unfold textStages, Index.meetingWithTags, Index.meetingWithTweets,
    Index.meetingWithYouTubeTitles, Index.youTubeTitles, Index.designIdeas,
    Index.generateTags, Index.generateTweets, Index.generateYouTubeTitleFromPrompt,
    Index.generateImageDesignIdeaFromPrompt.
  repeat first
    [ apply undetached_runTools | apply undetached_ret | apply undetached_throw
    | apply undetached_lift | apply undetached_call
    | apply undetached_bind; [|intro]
    | apply undetached_promiseAll, undetached_map; intro
    | apply undetached_forLoop; intro
    | match goal with
      | |- undetached (match ?x with _ => _ end) => destruct x
      end ].
Qed.

(** ** Answers that break the schema of a stage *)

Lemma main_parts (argv : list string) (outputDir : string) (w : Run.World) :
  Index.main argv outputDir w
  = Run.bind (prelude argv)
             (fun m => Run.bind (textStages m) (imagesAndOutput outputDir)) w.
Proof.
  unfold Index.main, prelude, textStages, imagesAndOutput, Index.meetingWithImages,
    Run.bind, Run.ret.
  destruct (Run.lift _ w) as [[path|e] w0]; [|reflexivity].
  destruct (Index.openMeetingFile path w0) as [[file|e] w0']; [|reflexivity].
  destruct (Index.parseMeetingFile file w0') as [[m|e] w1]; [|reflexivity].
  destruct (Index.extractApiKeyFromEnv w1) as [[key|e] w2]; [|reflexivity].
  destruct (Index.meetingWithTags m w2) as [[m1|e] w3]; [|reflexivity].
  destruct (Index.meetingWithTweets m1 w3) as [[m2|e] w4]; [|reflexivity].
  destruct (Index.meetingWithYouTubeTitles m2 w4) as [[mt|e] w5] eqn:E; [|reflexivity].
  destruct (Index.designIdeas mt w5) as [[ideas|e] w6]; [|reflexivity].
  cbn [fst snd].
  destruct (Index.generateImage _ _ _ w6) as [[images|e] w7]; reflexivity.
Qed.

(** Nothing happens to the world before the first request. *)
Lemma prelude_world (argv : list string) w r w' :
  prelude argv w = (r, w') -> w' = w.
Proof.
  unfold prelude, Index.parseMeetingFile, Index.openMeetingFile,
    Index.extractApiKeyFromEnv.
  unfold Run.bind, Run.lift, Run.ret, Run.throw.
  destruct (Index.extractInputFilePathFromArgs argv) as [path|e];
    [|now intros [= _ <-]].
  cbv beta.
  match goal with
  | |- context [find ?f ?l] => destruct (find f l) as [[name [doc|]]|]
  end; try now intros [= _ <-].
  destruct (Zod.safeParse Index.meetingSchema doc); [|now intros [= _ <-]].
  destruct (Run.apiKey w) as [[|c k]|]; now intros [= _ <-].
Qed.

Lemma textStages_traced (m : Index.Meeting) : traced (textStages m).
Proof.
  unfold textStages.
  apply traced_bind; [exact (issues_traced _ _ (meetingWithTags_issues m))|].
  intro m1.
  apply traced_bind; [exact (issues_traced _ _ (meetingWithTweets_issues m1))|].
  intro m2. apply traced_bind.
  { unfold Index.meetingWithYouTubeTitles.
    apply traced_bind; [exact (issues_traced _ _ (youTubeTitles_issues m2))|].
    intro ts. exact (issues_traced _ _ (issues_ret _)). }
  intro mt.
  apply traced_bind; [exact (issues_traced _ _ (designIdeas_issues mt))|].
  intro ideas. exact (issues_traced _ _ (issues_ret _)).
Qed.

Lemma firstFailure_none xs x :
  firstFailure xs = None -> In x xs -> exchangeError x = None.
Proof.
  induction xs as [|y xs IH]; [contradiction|].
  cbn. destruct (exchangeError y) eqn:E; [discriminate|].
  intros H [<-|Hin]; [exact E|exact (IH H Hin)].
Qed.

(** An answer that breaks the schema makes its call fail with the issues
    the schema raises. *)
Lemma violation_exchangeError x issues :
  violation x = Some issues -> exchangeError x = Some (Run.ZodError issues).
Proof.
  destruct x as [[toolName prompt|prompt|prompt] [[args| |content|u rp|message]|]];
    try discriminate.
  cbn. destruct (toolParseError toolName args) as [[| | | |]|]; try discriminate.
  now intros [= ->].
Qed.

(** Branches that make one exchange each. *)
Lemma runAll_mapi_exchanges {A B} (P : Run.Request * option Run.Response -> Prop)
      (f : A -> nat -> Run.IO B) :
  (forall a i w r w',
      f a i w = (r, w') ->
      exists x, Run.exchanges w' = Run.exchanges w ++ [x] /\ P x) ->
  forall l i w rs w',
    Run.runAll (Index.mapi_from i f l) w = (rs, w') ->
    exists xs, Run.exchanges w' = Run.exchanges w ++ xs /\ Forall P xs.
Proof.
  intros H l. induction l as [|a rest IH]; intros i w rs w' E.
  - injection E as <- <-. exists []. now rewrite app_nil_r.
  - cbn [Index.mapi_from Run.runAll] in E.
    destruct (f a i w) as [r1 w1] eqn:E1.
    destruct (Run.runAll (Index.mapi_from (S i) f rest) w1) as [rs' w2] eqn:E2.
    injection E as <- <-.
    destruct (IH _ _ _ _ E2) as (xs2 & X2 & P2).
    destruct (H _ _ _ _ _ E1) as (x & X1 & P1).
    exists (x :: xs2). rewrite X2, X1, <- app_assoc. split; [reflexivity|].
    now constructor.
Qed.

(** The statements after the design ideas make image requests only. *)
Lemma imagesAndOutput_exchanges outputDir state w r w' :
  imagesAndOutput outputDir state w = (r, w') ->
  exists xs,
    Run.exchanges w' = Run.exchanges w ++ xs
    /\ Forall (fun x => violation x = None) xs.
Proof.
  unfold imagesAndOutput, Run.bind, Index.generateImage, Run.promiseAll.
  intro E.
  match type of E with
  | context [Run.runAll ?b w] => destruct (Run.runAll b w) as [rs w1] eqn:E1
  end.
  apply (runAll_mapi_exchanges (fun x => violation x = None)) in E1.
  - destruct E1 as (xs & X & P). exists xs. split; [|exact P].
    destruct (Run.firstError rs); [|injection E as _ <-; exact X].
    unfold Index.writeMeetingToFile, Run.writeFile in E.
    destruct (existsb _ (Run.readOnly w1)); injection E as _ <-; exact X.
  - clear. intros design i w r w' E.
    unfold Run.rethrow, Run.bind, Run.call, Run.detach, Run.ret, Run.throw in E.
    destruct (Run.replies w) as [|[args| |content|[[|c u]|] [[|c' rp]|]|message] tl];
      injection E as _ <-; eexists; split; reflexivity.
Qed.

(** A run of [main] either meets no answer that breaks a schema, or is
    aborted, before any file is written and any download started, by the
    error of an exchange that failed. *)
Lemma main_cases argv outputDir w r w' xs :
  Index.main argv outputDir w = (r, w') ->
  Run.exchanges w' = Run.exchanges w ++ xs ->
  (forall x, In x xs -> violation x = None)
  \/ (exists e, r = Run.Throw e
                /\ Run.files w' = Run.files w
                /\ Run.detached w' = Run.detached w
                /\ firstFailure xs = Some e).
Proof.
  intros E X. rewrite main_parts in E. unfold Run.bind in E.
  destruct (prelude argv w) as [[m|e] w0] eqn:E0;
    apply prelude_world in E0; subst w0.
  - destruct (textStages m w) as [[state|e] w1] eqn:E1;
      pose proof (undetached_textStages m _ _ _ E1) as U1;
      destruct (textStages_traced m _ _ _ E1) as (xs1 & X1 & F1 & O1).
    + left. apply imagesAndOutput_exchanges in E.
      destruct E as (xs2 & X2 & P2).
      rewrite X2, X1, <- app_assoc in X. apply app_inv_head in X. subst xs.
      intros x Hin. apply in_app_or in Hin. destruct Hin as [Hin|Hin].
      * pose proof (firstFailure_none _ _ O1 Hin) as N.
        destruct (violation x) as [issues|] eqn:V; [|reflexivity].
        apply violation_exchangeError in V. congruence.
      * exact (proj1 (Forall_forall _ _) P2 x Hin).
    + right. injection E as <- <-.
      rewrite X1 in X. apply app_inv_head in X. subst xs.
      exists e. repeat split; assumption.
  - left. injection E as <- <-.
    rewrite <- (app_nil_r (Run.exchanges w)) in X at 1.
    apply app_inv_head in X. subst xs. contradiction.
Qed.

(** The parameters of the tweet tool must hold exactly three tweets. *)
Lemma tweetToolParamsSchema_rejects (tweets : list string) :
  List.length tweets <> 3 ->
  exists issues,
    Zod.safeParse Models.tweetToolParamsSchema
                  (JObj [("tweets", JArr (map JStr tweets))])
    = Zod.Failure issues.
Proof.
  intro H. apply not_success_failure.
  unfold Zod.safeParse, Models.tweetToolParamsSchema, Zod.z_object, Zod.prop.
  rewrite isSuccess_ap. cbn [getProp String.eqb Ascii.eqb Bool.eqb].
  unfold Zod.z_array. cbn [flat_map Zod.checkIssues]. rewrite length_map.
  destruct (Nat.eqb_spec (List.length tweets) 3); [contradiction|reflexivity].
Qed.

Lemma wrong_number_of_tweets prompt tweets :
  List.length tweets <> 3 ->
  exists issues,
    violation (Run.ChatTool "tweetTool" prompt, Some (toolCall "tweets" tweets))
    = Some issues.
Proof.
  intro H. destruct (tweetToolParamsSchema_rejects tweets H) as (issues & P).
  exists issues. unfold violation, toolParseError, toolCall.
  cbn [String.eqb Ascii.eqb Bool.eqb]. now rewrite P.
Qed.

(** The error of a run that failed is the error of one of its exchanges. *)
Lemma firstFailure_In xs e :
  firstFailure xs = Some e -> exists y, In y xs /\ exchangeError y = Some e.
Proof.
  induction xs as [|x rest IH]; [discriminate|]. cbn [firstFailure].
  destruct (exchangeError x) as [e'|] eqn:Ex.
  - intro H. injection H as ->. exists x. split; [now left|exact Ex].
  - intro H. destruct (IH H) as (y & Hin & Ey). exists y. split; [now right|exact Ey].
Qed.

(** C8.  In a run of [main], an answer of the model that the schema of its
    stage refuses aborts the run: the run throws, no file is written and no
    download is started.  When the refused answer is the only exchange of
    the run that failed, the run is aborted by the very error of the
    validation; the branches of a [Promise.all] are awaited together, so
    when several of them fail, which error aborts the run is a matter of
    time and is not stated.  An answer with a number of tweets other than
    three is an answer that the schema refuses. *)
Theorem schema_violation_aborts
        (argv : list string) (outputDir : string) (w w' : Run.World)
        (r : Run.Result unit) (xs : list (Run.Request * option Run.Response)) :
  Index.main argv outputDir w = (r, w') ->
  Run.exchanges w' = Run.exchanges w ++ xs ->
  (forall x issues,
      In x xs -> violation x = Some issues ->
      (exists e, r = Run.Throw e)
      /\ Run.files w' = Run.files w
      /\ Run.detached w' = Run.detached w
      /\ ((forall y, In y xs -> exchangeError y <> None -> y = x) ->
          r = Run.Throw (Run.ZodError issues)))
  /\ (forall prompt tweets,
         List.length tweets <> 3 ->
         exists issues,
           violation (Run.ChatTool "tweetTool" prompt, Some (toolCall "tweets" tweets))
           = Some issues).
Proof.
  intros E X. split; [|exact wrong_number_of_tweets].
  intros x issues Hin V.
  destruct (main_cases _ _ _ _ _ _ E X) as [N|(e & -> & F & D & O)].
  - rewrite (N x Hin) in V. discriminate.
  - split; [now exists e|]. split; [exact F|]. split; [exact D|].
    intro Only. destruct (firstFailure_In _ _ O) as (y & Hy & Ey).
    assert (y = x) as -> by (apply Only; [exact Hy|congruence]).
    rewrite (violation_exchangeError _ _ V) in Ey. congruence.
Qed.

Lemma schema_violation_aborts_witness :
  fst (Index.main scenarioArgv "/dist" twoTweetsWorld)
  = Run.Throw (Run.ZodError [{| Zod.code := Zod.too_small;
                                Zod.path := [Zod.Key "tweets"] |}])
  /\ Run.files (snd (Index.main scenarioArgv "/dist" twoTweetsWorld)) = []
  /\ Run.detached (snd (Index.main scenarioArgv "/dist" twoTweetsWorld)) = [].
Proof.
  destruct (schema_violation_aborts scenarioArgv "/dist" twoTweetsWorld
              (snd (Index.main scenarioArgv "/dist" twoTweetsWorld))
              (fst (Index.main scenarioArgv "/dist" twoTweetsWorld))
              [(tagRequest scenarioTalk, Some (toolCall "tags" ["Containers"; "Linux"]));
               (tweetRequest "2024-02-14"
                  (Index.withTags scenarioTalk ["containers"; "linux"]),
                Some (toolCall "tweets" ["Join us!"; "Containers ahead."]))]
              eq_refl eq_refl) as (H & _).
  destruct (H (tweetRequest "2024-02-14"
                 (Index.withTags scenarioTalk ["containers"; "linux"]),
               Some (toolCall "tweets" ["Join us!"; "Containers ahead."]))
              [{| Zod.code := Zod.too_small; Zod.path := [Zod.Key "tweets"] |}]
              (or_intror (or_introl eq_refl)) eq_refl) as (_ & F & D & Z).
  split; [|split; [exact F|exact D]].
  apply Z. intros y [<-|[<-|[]]] Ey; [|reflexivity].
  exfalso. apply Ey. reflexivity.
Defined.

(** ** The scenario from end to end *)

(** With answers that pass every validation the run ends well; it has
    started the download of the three images and written the record,
    whose added field holds nine titles. *)
Lemma scenario_output :
  fst (Index.main scenarioArgv "/dist" (scenarioWorld scenarioReplies)) = Run.Ok tt
  /\ map fst (Run.detached (snd (Index.main scenarioArgv "/dist"
                                            (scenarioWorld scenarioReplies))))
     = ["/dist/2024-02-14_sluug_a-whale-at-sea.png";
        "/dist/2024-02-14_sluug_a-ship.png";
        "/dist/2024-02-14_sluug_a-crane.png"]
  /\ map fst (Run.files (snd (Index.main scenarioArgv "/dist"
                                         (scenarioWorld scenarioReplies))))
     = ["/dist/2024-02-14_sluug.json"]
  /\ match nth_error (Run.files (snd (Index.main scenarioArgv "/dist"
                                                  (scenarioWorld scenarioReplies)))) 0 with
     | Some (_, Run.JsonFile doc) =>
         getField "youTubeTitle" doc
         = Some (JArr (map JStr
                         ["A1 | SLUUG 2024-02-14"; "A2 | SLUUG 2024-02-14";
                          "A3 | SLUUG 2024-02-14"; "B1 | SLUUG 2024-02-14";
                          "B2 | SLUUG 2024-02-14"; "B3 | SLUUG 2024-02-14";
                          "C1 | SLUUG 2024-02-14"; "C2 | SLUUG 2024-02-14";
                          "C3 | SLUUG 2024-02-14"]))
     | _ => False
     end.
Proof. vm_compute. repeat split. Qed.

(** C4.  The input of the scenario is a meeting document with exactly one
    presentation, and the model answers every title request with three
    titles, as the schema of the title tool requires.  The record that
    [main] writes then holds nine strings under [youTubeTitle], the three
    titles of each of the three requests of the loop, and not three; each
    of them contains the type and the date of the meeting. *)
Theorem single_talk_record_holds_nine_titles :
  Run.inputs (scenarioWorld scenarioReplies) = [("meeting.json", Some containersMeeting)]
  /\ getField "presentations" containersMeeting = Some (JArr [containersTalk])
  /\ exists w' path doc titles,
      Index.main scenarioArgv "/dist" (scenarioWorld scenarioReplies)
      = (Run.Ok tt, w')
      /\ Run.files w' = [(path, Run.JsonFile doc)]
      /\ getField "youTubeTitle" doc = Some (JArr (map JStr titles))
      /\ List.length titles = 9
      /\ List.length titles <> 3
      /\ Forall (fun title =>
                   contains title "SLUUG" /\ contains title "2024-02-14")
                titles.
Proof.
  split; [reflexivity|]. split; [reflexivity|].
  do 3 eexists.
  exists (Index.suffixTitleWithMeetingDateAndType
            ["A1"; "A2"; "A3"; "B1"; "B2"; "B3"; "C1"; "C2"; "C3"]
            "2024-02-14" Models.SLUUG).
  split; [vm_compute; reflexivity|]. split; [reflexivity|].
  split; [vm_compute; reflexivity|]. split; [reflexivity|].
  split; [cbn; discriminate|].
  apply Forall_forall. intros title Hin.
  exact (suffixed_title_contains _ _ _ _ Hin).
Qed.

(** ** The earlier revision *)

(** Its title stage issues one request, for the first presentation. *)
Lemma legacy_generateYouTubeTitles_one_request isoDate meetingType m p0 rest :
  Models.presentations m = p0 :: rest ->
  issues [Run.ChatTool "youTubeTitleTool" (Legacy.convertPresentationToPrompt p0)]
         (Legacy.generateYouTubeTitles isoDate meetingType m).
Proof.
  intro H. unfold Legacy.generateYouTubeTitles. rewrite H.
  apply tool_stage_issues. reflexivity.
Qed.

(** Its [addLinkToTweets] throws as well on a presentation without posts. *)
Lemma legacy_addLinkToTweets_without_tweets presentation meetupUrl :
  Models.tweets presentation = None ->
  Legacy.addLinkToTweets presentation meetupUrl
  = Run.Throw (Run.Err "Presentation does not contain any tweets").
Proof. intro H. unfold Legacy.addLinkToTweets. now rewrite H. Qed.

(* ================================================================== *)
(** * Further properties of the code *)

(** ** The parameters of the tools *)

Lemma parseItems_strings_inv p i items (l : list string) :
  Zod.parseItems Zod.z_string p i items = Zod.Success l -> items = map JStr l.
Proof.
  revert i l. induction items as [|v rest IH]; intros i l H.
  - injection H as <-. reflexivity.
  - cbn [Zod.parseItems] in H. apply ap_Success in H.
    destruct H as (g & tl & Hg & Htl & ->).
    apply ap_Success in Hg. destruct Hg as (c & s & Hc & Hs & ->).
    injection Hc as <-. cbn [map]. rewrite <- (IH _ _ Htl). f_equal.
    unfold Zod.z_string in Hs.
    destruct v; try discriminate. now injection Hs as ->.
Qed.

(** An array schema of strings accepts exactly the arrays of strings whose
    length passes its checks, and returns the strings. *)
Lemma z_array_strings_iff checks p v (l : list string) :
  Zod.z_array Zod.z_string checks p v = Zod.Success l
  <-> v = Some (JArr (map JStr l))
      /\ flat_map (Zod.checkIssues p (List.length l)) checks = [].
Proof.
  split.
  - intro H. apply z_array_Success in H. destruct H as (items & -> & Hc & Hi).
    pose proof (parseItems_length _ _ _ _ _ Hi) as L.
    apply parseItems_strings_inv in Hi. subst items.
    split; [reflexivity|]. now rewrite L.
  - intros [-> Hc]. unfold Zod.z_array. rewrite length_map, Hc.
    apply parseItems_strings.
Qed.

Lemma getField_Some key doc v :
  getField key doc = Some v -> exists o, doc = JObj o /\ getProp key o = Some v.
Proof.
  destruct doc; try discriminate. intro H. now eexists.
Qed.

(** X1.  The parameters of the tag tool are accepted exactly when their
    property [tags] is an array of at most three strings, and the parsed
    record holds these strings. *)
Theorem tagToolParamsSchema_accepts_iff (doc : json) (a : Models.TagToolParams) :
  Zod.safeParse Models.tagToolParamsSchema doc = Zod.Success a
  <-> getField "tags" doc = Some (JArr (map JStr (Models.tagsParam a)))
      /\ List.length (Models.tagsParam a) <= 3.
Proof.
  unfold Zod.safeParse, Models.tagToolParamsSchema, Zod.z_object, Zod.prop.
  split.
  - destruct doc as [| | | | |o]; try discriminate.
    intro H. apply ap_Success in H. destruct H as (g & l & Hg & Hl & ->).
    injection Hg as <-. cbn [Models.tagsParam getField].
    pose proof (z_array_max_length _ _ _ _ _ Hl) as L.
    apply z_array_strings_iff in Hl. destruct Hl as [-> _]. now split.
  - intros [H L]. apply getField_Some in H. destruct H as (o & -> & ->).
    destruct a as [l]. cbn [Models.tagsParam] in *.
    rewrite (proj2 (z_array_strings_iff _ _ _ l)); [reflexivity|].
    split; [reflexivity|]. cbn [flat_map Zod.checkIssues].
    destruct (Nat.ltb_spec 3 (List.length l)); [lia|reflexivity].
Qed.

Lemma exactly_three_iff key p o (l : list string) :
  Zod.prop o p key (Zod.z_array Zod.z_string [Zod.Length 3]) = Zod.Success l
  <-> getProp key o = Some (JArr (map JStr l)) /\ List.length l = 3.
Proof.
  unfold Zod.prop. rewrite z_array_strings_iff. cbn [flat_map Zod.checkIssues].
  destruct (Nat.eqb_spec (List.length l) 3) as [E|E].
  - split; intros [H _]; now split.
  - split; intros [H C]; [discriminate C|contradiction].
Qed.

(** X2.  The parameters of the tweet tool, of the title tool and of the
    design tool are accepted exactly when their property ([tweets], [titles],
    [designs]) is an array of exactly three strings, and the parsed record
    holds these strings. *)
Theorem three_strings_params_accept_iff (doc : json) :
  (forall a,
      Zod.safeParse Models.tweetToolParamsSchema doc = Zod.Success a
      <-> getField "tweets" doc = Some (JArr (map JStr (Models.tweetsParam a)))
          /\ List.length (Models.tweetsParam a) = 3)
  /\ (forall a,
         Zod.safeParse Models.youTubeTitleToolParamsSchema doc = Zod.Success a
         <-> getField "titles" doc = Some (JArr (map JStr (Models.titlesParam a)))
             /\ List.length (Models.titlesParam a) = 3)
  /\ (forall a,
         Zod.safeParse Models.imageDesignsToolParamsSchema doc = Zod.Success a
         <-> getField "designs" doc = Some (JArr (map JStr (Models.designsParam a)))
             /\ List.length (Models.designsParam a) = 3).
Proof.
  unfold Zod.safeParse, Models.tweetToolParamsSchema,
    Models.youTubeTitleToolParamsSchema, Models.imageDesignsToolParamsSchema,
    Zod.z_object.
  split; [|split]; intros [l]; cbn [Models.tweetsParam Models.titlesParam
                                      Models.designsParam]; split.
  all: try (destruct doc as [| | | | |o]; try discriminate;
            intro H; apply ap_Success in H;
            destruct H as (g & l' & Hg & Hl & E);
            injection Hg as <-; injection E as ->;
            cbn [getField]; exact (proj1 (exactly_three_iff _ _ _ _) Hl)).
  all: intros [H L]; apply getField_Some in H; destruct H as (o & -> & H);
    now rewrite (proj2 (exactly_three_iff _ _ _ l) (conj H L)).
Qed.

(** X3.  The schema of the meeting type accepts exactly the two strings
    SLUUG and STLLUG, in capitals, and returns the type they name. *)
Theorem meetingTypeSchema_accepts_iff p (v : option json) (t : Models.MeetingType) :
  Models.meetingTypeSchema p v = Zod.Success t
  <-> v = Some (JStr (Index.meetingTypeName t)).
Proof.
  unfold Models.meetingTypeSchema, Zod.z_enum. split.
  - destruct v as [[| | |s| |]|]; try discriminate.
    cbn [Zod.enumValue].
    destruct (String.eqb_spec "SLUUG" s) as [<-|_];
      [intros [= <-]; reflexivity|].
    destruct (String.eqb_spec "STLLUG" s) as [<-|_];
      [intros [= <-]; reflexivity|discriminate].
  - intros ->. destruct t; reflexivity.
Qed.

(** ** The tags *)

Lemma toLowerChar_idempotent (c : ascii) :
  JS.toLowerChar (JS.toLowerChar c) = JS.toLowerChar c.
Proof. destruct c as [[] [] [] [] [] [] [] []]; reflexivity. Qed.

Lemma isWhiteSpace_toLowerChar (c : ascii) :
  JS.isWhiteSpace (JS.toLowerChar c) = JS.isWhiteSpace c.
Proof. destruct c as [[] [] [] [] [] [] [] []]; reflexivity. Qed.

Lemma isSpace_toLowerChar (c : ascii) :
  Ascii.eqb (JS.toLowerChar c) " " = Ascii.eqb c " ".
Proof. destruct c as [[] [] [] [] [] [] [] []]; reflexivity. Qed.

Lemma toLowerCase_idempotent (s : string) :
  JS.toLowerCase (JS.toLowerCase s) = JS.toLowerCase s.
Proof.
  induction s as [|c r IH]; [reflexivity|].
  cbn. now rewrite toLowerChar_idempotent, IH.
Qed.

Lemma spaces_toLowerCase (s : string) : spaces (JS.toLowerCase s) = spaces s.
Proof.
  induction s as [|c r IH]; [reflexivity|].
  cbn. now rewrite isSpace_toLowerChar, IH.
Qed.

Lemma startsWithWhiteSpace_toLowerCase (s : string) :
  startsWithWhiteSpace (JS.toLowerCase s) = startsWithWhiteSpace s.
Proof. destruct s; [reflexivity|apply isWhiteSpace_toLowerChar]. Qed.

Lemma endsWithWhiteSpace_toLowerCase (s : string) :
  endsWithWhiteSpace (JS.toLowerCase s) = endsWithWhiteSpace s.
Proof.
  induction s as [|c r IH]; [reflexivity|].
  destruct r as [|c' r']; [apply isWhiteSpace_toLowerChar|exact IH].
Qed.

(** [s.replace(" ", "-")], one character at a time. *)
Lemma replace_space_cons (c : ascii) (r : string) :
  JS.replace " " "-" (String c r)
  = if Ascii.eqb c " " then String "-" r else String c (JS.replace " " "-" r).
Proof.
  cbn [JS.replace prefix]. destruct (Ascii.eqb_spec c " ") as [->|N].
  - destruct (ascii_dec " " " "); [|contradiction].
    destruct r; reflexivity.
  - destruct (ascii_dec " " c) as [E|_]; [now subst c|reflexivity].
Qed.

Lemma spaces_replace (s : string) :
  spaces (JS.replace " " "-" s) = Nat.pred (spaces s).
Proof.
  induction s as [|c r IH]; [reflexivity|].
  rewrite replace_space_cons. cbn [spaces].
  destruct (Ascii.eqb c " ") eqn:E; [reflexivity|].
  cbn [spaces]. now rewrite E, IH.
Qed.

Lemma replace_no_space (s : string) :
  spaces s = 0 -> JS.replace " " "-" s = s.
Proof.
  induction s as [|c r IH]; [reflexivity|].
  rewrite replace_space_cons. cbn [spaces].
  destruct (Ascii.eqb c " "); [discriminate|].
  cbn. intro H. now rewrite IH.
Qed.

Lemma startsWithWhiteSpace_replace (s : string) :
  startsWithWhiteSpace s = false ->
  startsWithWhiteSpace (JS.replace " " "-" s) = false.
Proof.
  destruct s as [|c r]; [reflexivity|].
  rewrite replace_space_cons. cbn [startsWithWhiteSpace].
  destruct (Ascii.eqb_spec c " ") as [->|_];
    [intro H; vm_compute in H; discriminate H|]. now cbn.
Qed.

Lemma replace_empty_iff (s : string) :
  JS.replace " " "-" s = EmptyString <-> s = EmptyString.
Proof.
  destruct s as [|c r]; [now split|].
  rewrite replace_space_cons. destruct (Ascii.eqb c " "); now split.
Qed.

Lemma endsWithWhiteSpace_replace (s : string) :
  endsWithWhiteSpace s = false ->
  endsWithWhiteSpace (JS.replace " " "-" s) = false.
Proof.
  induction s as [|c r IH]; [reflexivity|].
  rewrite replace_space_cons.
  destruct (Ascii.eqb_spec c " ") as [->|N].
  - destruct r; [reflexivity|now cbn].
  - destruct r as [|c' r']; [now cbn|].
    intro H. cbn [endsWithWhiteSpace] in H.
    specialize (IH H).
    destruct (JS.replace " " "-" (String c' r')) as [|d t] eqn:E.
    + apply (proj1 (replace_empty_iff _)) in E. discriminate E.
    + exact IH.
Qed.

Lemma trimStart_no_leading_space (s : string) :
  startsWithWhiteSpace (JS.trimStart s) = false.
Proof.
  induction s as [|c r IH]; [reflexivity|].
  cbn [JS.trimStart]. destruct (JS.isWhiteSpace c) eqn:W; [exact IH|].
  cbn. exact W.
Qed.

Lemma trimEnd_keeps_start (s : string) :
  startsWithWhiteSpace s = false -> startsWithWhiteSpace (JS.trimEnd s) = false.
Proof.
  destruct s as [|c r]; [reflexivity|]. cbn [startsWithWhiteSpace JS.trimEnd].
  intro W. destruct (JS.trimEnd r); [rewrite W|]; cbn; exact W.
Qed.

Lemma trimStart_fixed (s : string) :
  startsWithWhiteSpace s = false -> JS.trimStart s = s.
Proof.
  destruct s as [|c r]; [reflexivity|]. cbn. now intros ->.
Qed.

Lemma trimEnd_fixed (s : string) :
  endsWithWhiteSpace s = false -> JS.trimEnd s = s.
Proof.
  induction s as [|c r IH]; [reflexivity|].
  destruct r as [|c' r'].
  - cbn. now intros ->.
  - intro H. cbn [endsWithWhiteSpace] in H. specialize (IH H).
    cbn [JS.trimEnd] in IH |- *. now rewrite IH.
Qed.

(** What [tagTool] makes of one tag is trimmed and in lower case. *)
Lemma tagTool_tidy (tag : string) :
  tidyTag (JS.toLowerCase (JS.replace " " "-" (JS.trimEnd (JS.trimStart tag)))).
Proof.
  repeat split.
  - rewrite startsWithWhiteSpace_toLowerCase.
    apply startsWithWhiteSpace_replace, trimEnd_keeps_start,
      trimStart_no_leading_space.
  - rewrite endsWithWhiteSpace_toLowerCase.
    apply endsWithWhiteSpace_replace, trimEnd_no_trailing_space.
  - apply toLowerCase_idempotent.
Qed.

(** X4.  Applying [tagTool] to its own result changes nothing exactly when
    every tag, once trimmed, holds at most one space. *)
Theorem tagTool_idempotent_iff (args : Models.TagToolParams) :
  Index.tagTool {| Models.tagsParam := Index.tagTool args |} = Index.tagTool args
  <-> Forall (fun tag => spaces (JS.trimEnd (JS.trimStart tag)) <= 1)
             (Models.tagsParam args).
Proof.
  unfold Index.tagTool. cbn [Models.tagsParam]. rewrite map_map.
  rewrite map_ext_in_iff, Forall_forall.
  split; intros H tag Hin; specialize (H tag Hin).
  - apply (f_equal spaces) in H.
    rewrite !spaces_toLowerCase, !spaces_replace in H.
    destruct (tagTool_tidy tag) as (S & E & _).
    rewrite (trimStart_fixed _ S), (trimEnd_fixed _ E) in H.
    rewrite spaces_toLowerCase, spaces_replace in H. lia.
  - destruct (tagTool_tidy tag) as (S & E & L).
    rewrite (trimStart_fixed _ S), (trimEnd_fixed _ E).
    rewrite replace_no_space; [exact L|].
    rewrite spaces_toLowerCase, spaces_replace. lia.
Qed.

Lemma Forall2_Forall_r {A B} (R : A -> B -> Prop) (P : B -> Prop) l l' :
  (forall a b, R a b -> P b) -> Forall2 R l l' -> Forall P l'.
Proof.
  intros H F. induction F as [|a b l l' Hab _ IH]; constructor; eauto.
Qed.

Lemma tagToolParams_at_most_three args a :
  Zod.safeParse Models.tagToolParamsSchema args = Zod.Success a ->
  List.length (Models.tagsParam a) <= 3.
Proof.
  unfold Zod.safeParse, Models.tagToolParamsSchema, Zod.z_object.
  destruct args as [| | | | |o]; try discriminate.
  intro H. apply ap_Success in H. destruct H as (g & l & Hg & Hl & ->).
  injection Hg as <-. cbn. exact (z_array_max_length _ _ _ _ _ Hl).
Qed.

Lemma tweetToolParams_three args a :
  Zod.safeParse Models.tweetToolParamsSchema args = Zod.Success a ->
  List.length (Models.tweetsParam a) = 3.
Proof.
  unfold Zod.safeParse, Models.tweetToolParamsSchema, Zod.z_object.
  destruct args as [| | | | |o]; try discriminate.
  intro H. apply ap_Success in H. destruct H as (g & l & Hg & Hl & ->).
  injection Hg as <-. cbn. exact (z_array_exact_length _ _ _ _ _ Hl).
Qed.

Lemma generateTags_Ok_tags p w p' w' :
  Index.generateTags p w = (Run.Ok p', w') ->
  exists a,
    p' = Index.withTags p (Index.tagTool a)
    /\ List.length (Models.tagsParam a) <= 3.
Proof.
  intro E. apply tool_stage_cases in E. destruct E as (_ & _ & V).
  destruct (hd_error (Run.replies w)) as [[args| |content|u rp|message]|];
    try discriminate.
  cbn [Models.parse Models.zodFunction Models.function] in V.
  destruct (Zod.safeParse _ args) as [a|] eqn:P; [|discriminate].
  injection V as ->. exists a. split; [reflexivity|].
  exact (tagToolParams_at_most_three _ _ P).
Qed.

(** X5.  When the tag stage returns, the meeting has as many presentations
    as before and each of them carries at most three tags, every one of
    which is trimmed and in lower case. *)
Theorem tag_stage_postcondition (m m' : Index.Meeting) (w w' : Run.World) :
  Index.meetingWithTags m w = (Run.Ok m', w') ->
  List.length (Index.presentations m') = List.length (Index.presentations m)
  /\ Forall (fun p' =>
               exists l,
                 Index.tags p' = Some l
                 /\ List.length l <= 3
                 /\ Forall tidyTag l)
            (Index.presentations m').
Proof.
  intro E. unfold Index.meetingWithTags, Run.bind, Run.ret in E.
  destruct (Run.promiseAll _ w) as [[ps|e] w1] eqn:E1; [|discriminate].
  injection E as <- <-. cbn [Index.presentations Index.withPresentations].
  pose proof (promiseAll_Forall2
                (fun p p' => exists a, p' = Index.withTags p (Index.tagTool a)
                                       /\ List.length (Models.tagsParam a) <= 3)
                Index.generateTags generateTags_Ok_tags _ _ _ _ E1) as F.
  split; [symmetry; exact (Forall2_length F)|].
  refine (Forall2_Forall_r _ _ _ _ _ F).
  intros p p' (a & -> & L). exists (Index.tagTool a).
  split; [reflexivity|]. unfold Index.tagTool. rewrite length_map.
  split; [exact L|].
  apply Forall_forall. intros t Hin. apply in_map_iff in Hin.
  destruct Hin as (tag & <- & _). apply tagTool_tidy.
Qed.

Lemma tag_stage_postcondition_witness :
  List.length [Index.withTags scenarioTalk ["containers"; "linux"]] = 1
  /\ Forall (fun p' =>
               exists l,
                 Index.tags p' = Some l
                 /\ List.length l <= 3
                 /\ Forall tidyTag l)
            [Index.withTags scenarioTalk ["containers"; "linux"]].
Proof.
  apply (tag_stage_postcondition scenarioMeeting
           (Index.withPresentations scenarioMeeting
              [Index.withTags scenarioTalk ["containers"; "linux"]])
           (scenarioWorld scenarioReplies)
           (snd (Index.meetingWithTags scenarioMeeting
                   (scenarioWorld scenarioReplies)))).
  reflexivity.
Defined.

(** ** The social posts *)

Lemma endsWithWhiteSpace_app (a b : string) :
  b <> EmptyString -> endsWithWhiteSpace (a +++ b) = endsWithWhiteSpace b.
Proof.
  intro N. induction a as [|c r IH]; [reflexivity|].
  cbn [String.append]. destruct (r +++ b) as [|c' t] eqn:E.
  - destruct r; [cbn in E; contradiction|discriminate].
  - cbn [endsWithWhiteSpace]. exact IH.
Qed.

Lemma tweets_branch_Ok_posts meetingDate meetupUrl p w p' w' :
  Run.bind (Index.generateTweets p meetingDate)
           (fun q => Run.lift (Index.addLinkToTweets q meetupUrl)) w
  = (Run.Ok p', w') ->
  exists generated,
    List.length generated = 3
    /\ Index.addLinkToTweets (Index.withTweet p generated) meetupUrl = Run.Ok p'.
Proof.
  unfold Run.bind. intro E.
  destruct (Index.generateTweets p meetingDate w) as [[q|e] w1] eqn:E1;
    [|discriminate].
  apply tool_stage_cases in E1. destruct E1 as (_ & _ & V).
  destruct (hd_error (Run.replies w)) as [[args| |content|u rp|message]|];
    try discriminate.
  cbn [Models.parse Models.zodFunction Models.function] in V.
  destruct (Zod.safeParse _ args) as [a|] eqn:P; [|discriminate].
  injection V as ->. exists (Models.tweetsParam a).
  split; [exact (tweetToolParams_three _ _ P)|].
  unfold Run.lift in E. injection E as E _. exact E.
Qed.

(** X6.  When the tweet stage returns, every presentation carries exactly
    three posts, none of which ends with a white space; when the meeting has
    a link that is not empty and does not end with a white space, every post
    is a generated post followed by a space and the link. *)
Theorem tweet_stage_postcondition (m m' : Index.Meeting) (w w' : Run.World) :
  Index.meetingWithTweets m w = (Run.Ok m', w') ->
  List.length (Index.presentations m') = List.length (Index.presentations m)
  /\ Forall (fun p' =>
               exists posts,
                 Index.tweet p' = Some posts
                 /\ List.length posts = 3
                 /\ Forall (fun post => endsWithWhiteSpace post = false) posts
                 /\ (forall link,
                        Index.meetupUrl m = Some link ->
                        link <> EmptyString ->
                        endsWithWhiteSpace link = false ->
                        Forall (fun post =>
                                  exists generated,
                                    post = generated +++ " " +++ link)
                               posts))
            (Index.presentations m').
Proof.
  intro E. unfold Index.meetingWithTweets, Run.bind at 1, Run.ret in E.
  destruct (Run.promiseAll _ w) as [[ps|e] w1] eqn:E1; [|discriminate].
  injection E as <- <-. cbn [Index.presentations Index.withPresentations].
  pose proof (promiseAll_Forall2
                (fun p p' =>
                   exists generated,
                     List.length generated = 3
                     /\ Index.addLinkToTweets (Index.withTweet p generated)
                                              (Index.meetupUrl m) = Run.Ok p')
                _ (tweets_branch_Ok_posts (Index.meetingDate m) (Index.meetupUrl m))
                _ _ _ _ E1) as F.
  split; [symmetry; exact (Forall2_length F)|].
  refine (Forall2_Forall_r _ _ _ _ _ F).
  intros p p' (generated & L & A).
  unfold Index.addLinkToTweets in A. cbn [Index.tweet Index.withTweet] in A.
  destruct (Index.meetupUrl m) as [[|c r]|] eqn:U; injection A as <-;
    cbn [Index.tweet]; eexists; (split; [reflexivity|]);
    rewrite length_map; (split; [exact L|]); split;
    try (apply Forall_forall; intros post Hin; apply in_map_iff in Hin;
         destruct Hin as (g & <- & _); apply trimEnd_no_trailing_space);
    try (intros link [= <-]; try contradiction; discriminate).
  intros link [= <-] _ W. apply Forall_forall. intros post Hin.
  apply in_map_iff in Hin. destruct Hin as (g & <- & _). exists g.
  apply trimEnd_fixed.
  rewrite endsWithWhiteSpace_app by discriminate.
  now rewrite (endsWithWhiteSpace_app " " (String c r)) by discriminate.
Qed.

Lemma tweet_stage_postcondition_witness :
  List.length
    [Index.withTweet (Index.withTags scenarioTalk ["containers"; "linux"])
       ["Join us! https://meetup.example/e/1";
        "Containers ahead. https://meetup.example/e/1";
        "See you there. https://meetup.example/e/1"]]
  = List.length (Index.presentations linkedMeeting).
Proof.
  exact (proj1 (tweet_stage_postcondition linkedMeeting
                  (Index.withPresentations linkedMeeting
                     [Index.withTweet
                        (Index.withTags scenarioTalk ["containers"; "linux"])
                        ["Join us! https://meetup.example/e/1";
                         "Containers ahead. https://meetup.example/e/1";
                         "See you there. https://meetup.example/e/1"]])
                  (scenarioWorld (skipn 1 scenarioReplies))
                  (snd (Index.meetingWithTweets linkedMeeting
                          (scenarioWorld (skipn 1 scenarioReplies))))
                  eq_refl)).
Defined.

(** ** Requests that are made whatever the outcome *)

Lemma alwaysIssues_tool_stage {T B} (tool : Models.RunnableToolFunctionWithParse T)
      (prompt : string) (f : list string -> B) :
  alwaysIssues [Run.ChatTool (Models.name tool) prompt]
    (Run.bind (Index.runTools tool prompt)
              (fun result =>
                 match result with
                 | None => Run.throw (Run.Err "OpenAI did not call the tool.")
                 | Some generated => Run.ret (f generated)
                 end)).
Proof.
  intros w r w' E. apply tool_stage_cases in E. destruct E as (X & F & _).
  split; [|exact F]. unfold requests. now rewrite X, map_app.
Qed.

Lemma alwaysIssues_promiseAll {A B} (rq : A -> Run.Request) (f : A -> Run.IO B) :
  (forall a, alwaysIssues [rq a] (f a)) ->
  forall l, alwaysIssues (map rq l) (Run.promiseAll (map f l)).
Proof.
  intros H l. unfold Run.promiseAll.
  assert (G : forall w rs w',
             Run.runAll (map f l) w = (rs, w') ->
             requests w' = requests w ++ map rq l /\ Run.files w' = Run.files w).
  { induction l as [|a l IH]; intros w rs w' E.
    - injection E as _ <-. now rewrite app_nil_r.
    - cbn [map Run.runAll] in E.
      destruct (f a w) as [r1 w1] eqn:E1.
      destruct (Run.runAll (map f l) w1) as [rs' w2] eqn:E2.
      injection E as _ <-.
      destruct (H a _ _ _ E1) as [R1 F1]. destruct (IH _ _ _ E2) as [R2 F2].
      rewrite R2, R1, F2, F1, <- app_assoc. now split. }
  intros w r w' E.
  destruct (Run.runAll (map f l) w) as [rs w1] eqn:E1.
  injection E as _ <-. exact (G _ _ _ E1).
Qed.

Lemma alwaysIssues_then_ret {A B} rqs (c : Run.IO A) (g : A -> B) :
  alwaysIssues rqs c -> alwaysIssues rqs (Run.bind c (fun a => Run.ret (g a))).
Proof.
  intros H w r w' E. unfold Run.bind, Run.ret in E.
  destruct (c w) as [[a|e] w1] eqn:E1; injection E as _ <-; exact (H _ _ _ E1).
Qed.

Lemma alwaysIssues_tweets_branch meetingDate meetupUrl p :
  alwaysIssues [tweetRequest meetingDate p]
    (Run.bind (Index.generateTweets p meetingDate)
              (fun q => Run.lift (Index.addLinkToTweets q meetupUrl))).
Proof.
  intros w r w' E. unfold Run.bind, Run.lift in E.
  destruct (Index.generateTweets p meetingDate w) as [[q|e] w1] eqn:E1;
    injection E as _ <-;
    exact (alwaysIssues_tool_stage _ _ _ _ _ _ E1).
Qed.

(** X7.  The tag stage and the tweet stage make exactly one request per
    presentation, in the order of the presentations, whether the stage
    returns or throws: a branch that fails does not keep the others from
    making their request.  Neither stage writes a file. *)
Theorem per_presentation_stages_request_all (m : Index.Meeting) :
  alwaysIssues (map tagRequest (Index.presentations m)) (Index.meetingWithTags m)
  /\ alwaysIssues (map (tweetRequest (Index.meetingDate m)) (Index.presentations m))
                  (Index.meetingWithTweets m).
Proof.
  split.
  - unfold Index.meetingWithTags. apply alwaysIssues_then_ret.
    apply alwaysIssues_promiseAll. intro p.
    exact (alwaysIssues_tool_stage _ _ _).
  - unfold Index.meetingWithTweets. apply alwaysIssues_then_ret.
    apply (alwaysIssues_promiseAll (tweetRequest (Index.meetingDate m))).
    intro p. apply alwaysIssues_tweets_branch.
Qed.

Lemma per_presentation_stages_request_all_witness :
  fst (Index.meetingWithTags twoTalksMeeting
         (scenarioWorld [Run.Rejected "overloaded"; toolCall "tags" ["Shell"]]))
  = Run.Throw (Run.ApiError "overloaded")
  /\ requests (snd (Index.meetingWithTags twoTalksMeeting
                      (scenarioWorld [Run.Rejected "overloaded";
                                      toolCall "tags" ["Shell"]])))
     = [] ++ [tagRequest scenarioTalk; tagRequest secondTalk].
Proof.
  split; [reflexivity|].
  exact (proj1 (proj1 (per_presentation_stages_request_all twoTalksMeeting)
                      (scenarioWorld [Run.Rejected "overloaded";
                                      toolCall "tags" ["Shell"]])
                      (fst (Index.meetingWithTags twoTalksMeeting
                              (scenarioWorld [Run.Rejected "overloaded";
                                              toolCall "tags" ["Shell"]])))
                      (snd (Index.meetingWithTags twoTalksMeeting
                              (scenarioWorld [Run.Rejected "overloaded";
                                              toolCall "tags" ["Shell"]])))
                      eq_refl)).
Defined.

(** ** Titles and design ideas for several talks *)

Lemma length_concat_three {A} (ls : list (list A)) :
  Forall (fun l => List.length l = 3) ls ->
  List.length (concat ls) = 3 * List.length ls.
Proof.
  intro H. induction H as [|l ls Hl _ IH]; [reflexivity|].
  cbn [concat List.length]. rewrite length_app, Hl, IH. lia.
Qed.

Lemma generated_titles_shape prompt meetingDate meetingType w titles w' :
  Index.generateYouTubeTitleFromPrompt prompt meetingDate meetingType w
    = (Run.Ok titles, w') ->
  List.length titles = 3
  /\ Forall (fun title =>
               exists generated,
                 title = generated +++ " | " +++ Index.meetingTypeName meetingType
                         +++ " " +++ meetingDate)
            titles.
Proof.
  intro E. apply generateYouTubeTitleFromPrompt_Ok in E.
  destruct E as (g & L & ->). unfold Index.suffixTitleWithMeetingDateAndType.
  rewrite length_map. split; [exact L|].
  apply Forall_forall. intros t Hin. apply in_map_iff in Hin.
  destruct Hin as (x & <- & _). now exists x.
Qed.

(** X8.  When the title stage returns, it has gathered three titles per
    request it made: nine for a single presentation and [3 * (N + 1)] for
    [N] presentations otherwise; every title is a generated title followed
    by a bar, the type and the date of the meeting. *)
Theorem title_stage_postcondition (m : Index.Meeting) (w w' : Run.World)
        (titles : list string) :
  Index.youTubeTitles m w = (Run.Ok titles, w') ->
  List.length titles = 3 * List.length (titleRequests (Index.presentations m))
  /\ (List.length (Index.presentations m) <> 1 ->
      List.length titles = 3 * (List.length (Index.presentations m) + 1))
  /\ Forall (fun title =>
               exists generated,
                 title = generated +++ " | "
                         +++ Index.meetingTypeName (Index.meetingType m)
                         +++ " " +++ Index.meetingDate m)
            titles.
Proof.
  intro E.
  assert (G : forall ps,
             Index.presentations m = ps ->
             (forall p, ps <> [p]) ->
             List.length titles = 3 * (List.length ps + 1)
             /\ Forall (fun title =>
                          exists generated,
                            title = generated +++ " | "
                                    +++ Index.meetingTypeName (Index.meetingType m)
                                    +++ " " +++ Index.meetingDate m)
                       titles).
  { intros ps Hp Hn. unfold Index.youTubeTitles in E. rewrite Hp in E.
    assert (E' :
              Run.bind
                (Run.promiseAll
                   (map (fun presentation =>
                           Index.generateYouTubeTitleFromPrompt
                             (Index.convertPresentationToPrompt presentation false None)
                             (Index.meetingDate m) (Index.meetingType m)) ps))
                (fun ts =>
                   Run.bind
                     (Index.generateYouTubeTitleFromPrompt
                        (Index.convertPresentationsToPrompt ps false None)
                        (Index.meetingDate m) (Index.meetingType m))
                     (fun combined => Run.ret (([] ++ concat ts) ++ combined))) w
              = (Run.Ok titles, w')).
    { destruct ps as [|p [|p' ps']]; [exact E| |exact E].
      exfalso. exact (Hn p eq_refl). }
    clear E. unfold Run.bind, Run.ret in E'.
    destruct (Run.promiseAll _ w) as [[ts|e] w1] eqn:E1; [|discriminate].
    destruct (Index.generateYouTubeTitleFromPrompt _ _ _ w1) as [[c|e] w2] eqn:E2;
      [|discriminate].
    injection E' as <- <-.
    pose proof (promiseAll_Forall2
                  (fun (_ : Index.Presentation) ts =>
                     List.length ts = 3
                     /\ Forall (fun title =>
                                  exists generated,
                                    title = generated +++ " | "
                                            +++ Index.meetingTypeName (Index.meetingType m)
                                            +++ " " +++ Index.meetingDate m) ts)
                  _ (fun a w0 b w0' H => generated_titles_shape _ _ _ _ _ _ H)
                  _ _ _ _ E1) as F.
    apply generated_titles_shape in E2. destruct E2 as [Lc Fc].
    cbn [app]. rewrite length_app, Lc. split.
    - rewrite (length_concat_three ts).
      + rewrite <- (Forall2_length F). lia.
      + refine (Forall2_Forall_r _ _ _ _ _ F). now intros a b [L _].
    - apply Forall_app. split; [|exact Fc].
      apply Forall_concat. refine (Forall2_Forall_r _ _ _ _ _ F).
      now intros a b [_ H]. }
  destruct (Index.presentations m) as [|p [|p' ps']] eqn:Hp.
  - destruct (G [] eq_refl) as [L F]; [discriminate|].
    split; [exact L|]. split; [intros _; exact L|exact F].
  - clear G. unfold Index.youTubeTitles in E. rewrite Hp in E.
    cbn [Index.forLoop] in E. unfold Run.bind, Run.ret in E.
    destruct (Index.generateYouTubeTitleFromPrompt _ _ _ w) as [[ts1|e] w1] eqn:E1;
      [|discriminate].
    destruct (Index.generateYouTubeTitleFromPrompt _ _ _ w1) as [[ts2|e] w2] eqn:E2;
      [|discriminate].
    destruct (Index.generateYouTubeTitleFromPrompt _ _ _ w2) as [[ts3|e] w3] eqn:E3;
      [|discriminate].
    injection E as <- <-.
    apply generated_titles_shape in E1, E2, E3.
    destruct E1 as [L1 F1], E2 as [L2 F2], E3 as [L3 F3].
    cbn [app titleRequests List.length]. rewrite !length_app, L1, L2, L3.
    split; [reflexivity|]. split; [intro N; now contradiction N|].
    repeat (apply Forall_app; split); assumption.
  - destruct (G (p :: p' :: ps') eq_refl) as [L F]; [discriminate|].
    cbn [titleRequests]. rewrite length_app, length_map. cbn [List.length] in *.
    split; [lia|]. split; [intros _; lia|exact F].
Qed.

Lemma title_stage_postcondition_witness :
  List.length
    ["A1 | STLLUG 2024-03-13"; "A2 | STLLUG 2024-03-13"; "A3 | STLLUG 2024-03-13";
     "B1 | STLLUG 2024-03-13"; "B2 | STLLUG 2024-03-13"; "B3 | STLLUG 2024-03-13";
     "C1 | STLLUG 2024-03-13"; "C2 | STLLUG 2024-03-13"; "C3 | STLLUG 2024-03-13"]
  = 3 * (List.length (Index.presentations twoTalksMeeting) + 1).
Proof.
  refine (proj1 (proj2 (title_stage_postcondition twoTalksMeeting
                          titleStageWorld
                          (snd (Index.youTubeTitles twoTalksMeeting titleStageWorld))
                          _ eq_refl)) _).
  discriminate.
Defined.

Lemma generated_idea_not_empty prompt w idea w' :
  Index.generateImageDesignIdeaFromPrompt prompt w = (Run.Ok idea, w') ->
  idea <> EmptyString.
Proof.
  unfold Index.generateImageDesignIdeaFromPrompt, Run.bind, Run.call.
  destruct (Run.replies w) as [|[args| |[[|c s]|]|u rp|message] rest];
    try discriminate.
  intros [= <- _]. discriminate.
Qed.

(** The design ideas of a stage that returns. *)
Lemma designIdeas_Ok (mt : Index.MeetingWithYouTubeTitles)
        (w w' : Run.World) (ideas : list string) :
  Index.designIdeas mt w = (Run.Ok ideas, w') ->
  List.length ideas
  = List.length (ideaRequests (Index.presentations (Index.meeting mt)))
  /\ (List.length (Index.presentations (Index.meeting mt)) = 1 ->
      List.length ideas = 3)
  /\ (List.length (Index.presentations (Index.meeting mt)) <> 1 ->
      List.length ideas = List.length (Index.presentations (Index.meeting mt)) + 1)
  /\ Forall (fun idea => idea <> EmptyString) ideas.
Proof.
  intro E.
  assert (G : forall ps,
             Index.presentations (Index.meeting mt) = ps ->
             (forall p, ps <> [p]) ->
             List.length ideas = List.length ps + 1
             /\ Forall (fun idea => idea <> EmptyString) ideas).
  { intros ps Hp Hn. unfold Index.designIdeas in E. rewrite Hp in E.
    assert (E' :
              Run.bind
                (Run.promiseAll
                   (map (fun presentation =>
                           Index.generateImageDesignIdeaFromPrompt
                             (Index.convertPresentationToPrompt presentation false None))
                        ps))
                (fun generated =>
                   Run.bind
                     (Index.generateImageDesignIdeaFromPrompt
                        (Index.convertPresentationsToPrompt ps false None))
                     (fun combined => Run.ret (([] ++ generated) ++ [combined]))) w
              = (Run.Ok ideas, w')).
    { destruct ps as [|p [|p' ps']]; [exact E| |exact E].
      exfalso. exact (Hn p eq_refl). }
    clear E. unfold Run.bind, Run.ret in E'.
    destruct (Run.promiseAll _ w) as [[gs|e] w1] eqn:E1; [|discriminate].
    destruct (Index.generateImageDesignIdeaFromPrompt _ w1) as [[c|e] w2] eqn:E2;
      [|discriminate].
    injection E' as <- <-.
    pose proof (promiseAll_Forall2
                  (fun (_ : Index.Presentation) idea => idea <> EmptyString)
                  _ (fun a w0 b w0' H => generated_idea_not_empty _ _ _ _ H)
                  _ _ _ _ E1) as F.
    apply generated_idea_not_empty in E2.
    cbn [app]. rewrite length_app, <- (Forall2_length F). split; [reflexivity|].
    apply Forall_app. split; [|now constructor].
    refine (Forall2_Forall_r _ _ _ _ _ F). now intros a b H. }
  destruct (Index.presentations (Index.meeting mt)) as [|p [|p' ps']] eqn:Hp.
  - destruct (G [] eq_refl) as [L F]; [discriminate|].
    split; [exact L|]. split; [discriminate|]. split; [intros _; exact L|exact F].
  - clear G. unfold Index.designIdeas in E. rewrite Hp in E.
    cbn [Index.forLoop] in E. unfold Run.bind, Run.ret in E.
    destruct (Index.generateImageDesignIdeaFromPrompt _ w) as [[i1|e] w1] eqn:E1;
      [|discriminate].
    destruct (Index.generateImageDesignIdeaFromPrompt _ w1) as [[i2|e] w2] eqn:E2;
      [|discriminate].
    destruct (Index.generateImageDesignIdeaFromPrompt _ w2) as [[i3|e] w3] eqn:E3;
      [|discriminate].
    injection E as <- <-.
    apply generated_idea_not_empty in E1, E2, E3.
    cbn [app ideaRequests List.length].
    split; [reflexivity|]. split; [reflexivity|].
    split; [intro N; now contradiction N|].
    repeat constructor; assumption.
  - destruct (G (p :: p' :: ps') eq_refl) as [L F]; [discriminate|].
    cbn [ideaRequests]. rewrite length_app, length_map. cbn [List.length] in *.
    split; [lia|]. split; [discriminate|]. split; [intros _; lia|exact F].
Qed.

(** X9.  When the design stage returns, it has gathered one design idea per
    request it made, three for a single presentation and [N + 1] for [N]
    presentations otherwise, and no idea is the empty string. *)
Theorem design_stage_postcondition (mt : Index.MeetingWithYouTubeTitles)
        (w w' : Run.World) (ideas : list string) :
  Index.designIdeas mt w = (Run.Ok ideas, w') ->
  List.length ideas = fanOut (List.length (Index.presentations (Index.meeting mt)))
  /\ (List.length (Index.presentations (Index.meeting mt)) = 1 ->
      List.length ideas = 3)
  /\ (List.length (Index.presentations (Index.meeting mt)) <> 1 ->
      List.length ideas = List.length (Index.presentations (Index.meeting mt)) + 1)
  /\ Forall (fun idea => idea <> EmptyString) ideas.
Proof.
  intro E. apply designIdeas_Ok in E. destruct E as (L & L1 & Ln & F).
  split; [|split; [exact L1|split; [exact Ln|exact F]]].
  unfold fanOut.
  destruct (Nat.eqb_spec (List.length (Index.presentations (Index.meeting mt))) 1)
    as [E1|E1]; [exact (L1 E1)|exact (Ln E1)].
Qed.

Lemma design_stage_postcondition_witness :
  List.length ["A whale"; "A ship"; "A crane"] = 3.
Proof.
  refine (proj1 (proj2 (design_stage_postcondition
                          {| Index.meeting := scenarioMeeting;
                             Index.youTubeTitle := [] |}
                          designStageWorld imageStageWorld
                          ["A whale"; "A ship"; "A crane"] eq_refl)) eq_refl).
Defined.

(** ** The names of the image files *)

Lemma length_take n s : String.length (JS.take n s) <= n.
Proof.
  revert s. induction n as [|n IH]; intros [|c r]; cbn; try lia.
  specialize (IH r). lia.
Qed.

Lemma length_trimEnd s : String.length (JS.trimEnd s) <= String.length s.
Proof.
  induction s as [|c r IH]; [reflexivity|]. cbn [JS.trimEnd String.length].
  destruct (JS.trimEnd r); [destruct (JS.isWhiteSpace c)|]; cbn in *; lia.
Qed.

Lemma length_removeChars class s :
  String.length (JS.removeChars class s) <= String.length s.
Proof.
  induction s as [|c r IH]; [reflexivity|]. cbn [JS.removeChars String.length].
  destruct (existsb _ _); cbn; lia.
Qed.

Lemma removeChars_clean class s :
  allChars (fun c => negb (existsb (Ascii.eqb c) (list_ascii_of_string class)))
           (JS.removeChars class s) = true.
Proof.
  induction s as [|c r IH]; [reflexivity|]. cbn [JS.removeChars].
  destruct (existsb _ _) eqn:E; [exact IH|]. cbn. now rewrite E.
Qed.

(** [s.replaceAll(" ", "-")], one character at a time. *)
Lemma replaceAll_space_cons (c : ascii) (r : string) :
  JS.replaceAll " " "-" (String c r)
  = String (if Ascii.eqb c " " then "-"%char else c) (JS.replaceAll " " "-" r).
Proof.
  unfold JS.replaceAll. cbn [JS.replaceAll_from prefix String.length Nat.sub].
  destruct (Ascii.eqb_spec c " ") as [->|N].
  - destruct (ascii_dec " " " "); [|contradiction]. destruct r; reflexivity.
  - destruct (ascii_dec " " c) as [E|_]; [now subst c|reflexivity].
Qed.

Lemma length_replaceAll_space s :
  String.length (JS.replaceAll " " "-" s) = String.length s.
Proof.
  induction s as [|c r IH]; [reflexivity|].
  rewrite replaceAll_space_cons. cbn. now rewrite IH.
Qed.

Lemma replaceAll_space_plain s :
  allChars (fun c => negb (existsb (Ascii.eqb c)
                             (list_ascii_of_string Index.punctuation))) s = true ->
  allChars plainChar (JS.replaceAll " " "-" s) = true.
Proof.
  induction s as [|c r IH]; [reflexivity|].
  rewrite replaceAll_space_cons. cbn [allChars]. intro H.
  apply andb_true_iff in H. destruct H as [Hc Hr].
  rewrite (IH Hr), andb_true_r. unfold plainChar.
  destruct (Ascii.eqb_spec c " ") as [->|N]; [reflexivity|].
  rewrite Hc. now destruct (Ascii.eqb_spec c " ").
Qed.

Lemma plainChar_toLowerChar c :
  plainChar c = true -> plainChar (JS.toLowerChar c) = true.
Proof. destruct c as [[] [] [] [] [] [] [] []]; vm_compute; trivial. Qed.

Lemma toLowerCase_plain s :
  allChars plainChar s = true -> allChars plainChar (JS.toLowerCase s) = true.
Proof.
  induction s as [|c r IH]; [reflexivity|]. cbn [allChars JS.toLowerCase].
  intro H. apply andb_true_iff in H. destruct H as [Hc Hr].
  now rewrite (plainChar_toLowerChar _ Hc), (IH Hr).
Qed.

(** X10.  The part of the name of an image file that comes from the revised
    prompt is the lower case of a text of at most sixty characters (the
    first sixty of the prompt, trimmed at the end, without the punctuation
    marks of the pattern and with a hyphen for every space); it holds no
    space and none of these punctuation marks, so no dot and no slash, and
    it is in lower case.  No length is stated after the lower-casing, which
    in ECMAScript can lengthen a text that holds characters outside
    Latin-1. *)
Theorem imageFileBody_is_plain (revisedPrompt : string) :
  imageFileBody revisedPrompt = JS.toLowerCase (imageFileStem revisedPrompt)
  /\ String.length (imageFileStem revisedPrompt) <= 60
  /\ allChars plainChar (imageFileBody revisedPrompt) = true
  /\ JS.toLowerCase (imageFileBody revisedPrompt) = imageFileBody revisedPrompt.
Proof.
  unfold imageFileBody, imageFileStem. split; [reflexivity|]. split; [|split].
  - rewrite length_replaceAll_space.
    pose proof (length_removeChars Index.punctuation
                  (JS.trimEnd (JS.take 60 revisedPrompt))).
    pose proof (length_trimEnd (JS.take 60 revisedPrompt)).
    pose proof (length_take 60 revisedPrompt). lia.
  - apply toLowerCase_plain, replaceAll_space_plain, removeChars_clean.
  - apply toLowerCase_idempotent.
Qed.

(** ** The image stage *)

(** Branches that behave as the branches of [generateImage]: one image
    request each and no file written; a branch that returns has started one
    download, to the file named after the description of its image, and a
    branch that throws has started none and tells which idea failed. *)
Lemma runAll_image_branches directoryPath fileNamePrefix
      (f : string -> nat -> Run.IO Models.Image) :
  (forall design i w r w',
      f design i w = (r, w') ->
      Run.files w' = Run.files w
      /\ exists x,
          Run.exchanges w' = Run.exchanges w ++ [x]
          /\ fst x = Run.ImageGen design
          /\ match r with
             | Run.Ok img =>
                 Models.alt img <> EmptyString
                 /\ imageOfAnswer fileNamePrefix x img
                 /\ exists url,
                     Run.detached w'
                     = Run.detached w
                       ++ [(imagePath directoryPath fileNamePrefix img,
                            Run.PngFile url)]
             | Run.Throw e => Run.detached w' = Run.detached w /\ imageError i e
             end) ->
  forall designIdeas i w rs w',
    Run.runAll (Index.mapi_from i f designIdeas) w = (rs, w') ->
    Run.files w' = Run.files w
    /\ exists xs downloads,
        Run.exchanges w' = Run.exchanges w ++ xs
        /\ map fst xs = map Run.ImageGen designIdeas
        /\ Run.detached w' = Run.detached w ++ downloads
        /\ Forall isPng downloads
        /\ match Run.firstError rs with
           | Run.Ok images =>
               List.length images = List.length designIdeas
               /\ Forall (wellNamedImage fileNamePrefix) images
               /\ Forall2 (imageOfAnswer fileNamePrefix) xs images
               /\ map fst downloads
                  = map (imagePath directoryPath fileNamePrefix) images
           | Run.Throw e =>
               exists k, i <= k < i + List.length designIdeas /\ imageError k e
           end.
Proof.
  intros H designIdeas.
  induction designIdeas as [|design rest IH]; intros i w rs w' E.
  - injection E as <- <-. split; [reflexivity|]. exists [], [].
    rewrite !app_nil_r. repeat split; constructor.
  - cbn [Index.mapi_from Run.runAll] in E.
    destruct (f design i w) as [r1 w1] eqn:E1.
    destruct (Run.runAll (Index.mapi_from (S i) f rest) w1) as [rs' w2] eqn:E2.
    injection E as <- <-.
    destruct (H _ _ _ _ _ E1) as (F1 & x & X1 & Q1 & C1).
    destruct (IH _ _ _ _ E2) as (F2 & xs2 & downloads2 & X2 & Q2 & D2 & P2 & C2).
    split; [now rewrite F2, F1|].
    cbn [Run.firstError List.length].
    destruct r1 as [img|e].
    + destruct C1 as (N1 & A1 & url & D1).
      exists (x :: xs2), ((imagePath directoryPath fileNamePrefix img,
                           Run.PngFile url) :: downloads2).
      split; [rewrite X2, X1, <- app_assoc; reflexivity|].
      split; [cbn [map]; now rewrite Q1, Q2|].
      split; [rewrite D2, D1, <- app_assoc; reflexivity|].
      split; [constructor; [now exists url|exact P2]|].
      destruct (Run.firstError rs') as [images|e].
      * destruct C2 as (L2 & G2 & A2 & N2). cbn [List.length map fst].
        rewrite L2, N2. split; [reflexivity|].
        split; [constructor; [|exact G2]|].
        -- destruct A1 as (u & _ & S1). now split.
        -- split; [now constructor|reflexivity].
      * destruct C2 as (k & Hk & Ek). exists k. split; [lia|exact Ek].
    + destruct C1 as (D1 & Ei).
      exists (x :: xs2), downloads2.
      split; [rewrite X2, X1, <- app_assoc; reflexivity|].
      split; [cbn [map]; now rewrite Q1, Q2|].
      split; [now rewrite D2, D1|]. split; [exact P2|].
      exists i. split; [lia|exact Ei].
Qed.

(** [generateImage] is such a run of branches, numbered from zero. *)
Lemma generateImage_branches (designIdeas : list string)
      (directoryPath fileNamePrefix : string) (w w' : Run.World)
      (r : Run.Result (list Models.Image)) :
  Index.generateImage designIdeas directoryPath fileNamePrefix w = (r, w') ->
  Run.files w' = Run.files w
  /\ exists xs downloads,
      Run.exchanges w' = Run.exchanges w ++ xs
      /\ map fst xs = map Run.ImageGen designIdeas
      /\ Run.detached w' = Run.detached w ++ downloads
      /\ Forall isPng downloads
      /\ match r with
         | Run.Ok images =>
             List.length images = List.length designIdeas
             /\ Forall (wellNamedImage fileNamePrefix) images
             /\ Forall2 (imageOfAnswer fileNamePrefix) xs images
             /\ map fst downloads
                = map (imagePath directoryPath fileNamePrefix) images
         | Run.Throw e =>
             exists k, 0 <= k < 0 + List.length designIdeas /\ imageError k e
         end.
Proof.
  unfold Index.generateImage, Run.promiseAll. intro E.
  match type of E with
  | context [Run.runAll ?b w] => destruct (Run.runAll b w) as [rs w1] eqn:E1
  end.
  injection E as <- <-.
  apply (runAll_image_branches directoryPath fileNamePrefix) in E1; [exact E1|].
  clear. intros design i w r w' E.
  unfold Run.rethrow, Run.bind, Run.call, Run.detach, Run.ret, Run.throw in E.
  destruct (Run.replies w) as [|[args| |content|[[|c u]|] [[|c' rp]|]|message] tl];
    injection E as <- <-; cbn [Run.exchanges Run.files Run.detached];
    (split; [reflexivity|]); eexists; (split; [reflexivity|]);
    (split; [reflexivity|]);
    try (split; [reflexivity|eexists; reflexivity]).
  split; [discriminate|]. split; [|eexists; reflexivity].
  eexists. split; reflexivity.
Qed.



(** ** A whole run *)

Lemma length_titleRequests ps :
  List.length (titleRequests ps) = fanOut (List.length ps).
Proof.
  destruct ps as [|p [|p' ps']]; try reflexivity.
  cbn [titleRequests]. rewrite length_app, length_map. reflexivity.
Qed.

Lemma length_ideaRequests ps :
  List.length (ideaRequests ps) = fanOut (List.length ps).
Proof.
  destruct ps as [|p [|p' ps']]; try reflexivity.
  cbn [ideaRequests]. rewrite length_app, length_map. reflexivity.
Qed.

Lemma promiseAll_length {A B} (f : A -> Run.IO B) l w bs w' :
  Run.promiseAll (map f l) w = (Run.Ok bs, w') -> List.length bs = List.length l.
Proof.
  intro E. symmetry.
  exact (Forall2_length
           (promiseAll_Forall2 (fun _ _ => True) f (fun _ _ _ _ _ => I) _ _ _ _ E)).
Qed.

(** The stage of the tags and the stage of the tweets keep the date and the
    type of the meeting and the number of its presentations. *)
Lemma meetingWithTags_shape m w m' w' :
  Index.meetingWithTags m w = (Run.Ok m', w') ->
  Index.meetingDate m' = Index.meetingDate m
  /\ Index.meetingType m' = Index.meetingType m
  /\ List.length (Index.presentations m') = List.length (Index.presentations m).
Proof.
  intro E. unfold Index.meetingWithTags, Run.bind, Run.ret in E.
  destruct (Run.promiseAll _ w) as [[ps|e] w1] eqn:E1; [|discriminate].
  injection E as <- <-. repeat split. exact (promiseAll_length _ _ _ _ _ E1).
Qed.

Lemma meetingWithTweets_shape m w m' w' :
  Index.meetingWithTweets m w = (Run.Ok m', w') ->
  Index.meetingDate m' = Index.meetingDate m
  /\ Index.meetingType m' = Index.meetingType m
  /\ List.length (Index.presentations m') = List.length (Index.presentations m).
Proof.
  intro E. unfold Index.meetingWithTweets, Run.bind at 1, Run.ret in E.
  destruct (Run.promiseAll _ w) as [[ps|e] w1] eqn:E1; [|discriminate].
  injection E as <- <-. repeat split. exact (promiseAll_length _ _ _ _ _ E1).
Qed.

(** What the four stages that generate text leave when they all return. *)
Lemma textStages_Ok m w mt ideas w' :
  textStages m w = (Run.Ok (mt, ideas), w') ->
  Index.meetingDate (Index.meeting mt) = Index.meetingDate m
  /\ Index.meetingType (Index.meeting mt) = Index.meetingType m
  /\ List.length (Index.presentations (Index.meeting mt))
     = List.length (Index.presentations m)
  /\ List.length ideas = fanOut (List.length (Index.presentations m))
  /\ List.length (requests w')
     = List.length (requests w)
       + (2 * List.length (Index.presentations m)
          + 2 * fanOut (List.length (Index.presentations m)))
  /\ Run.files w' = Run.files w.
Proof.
  unfold textStages, Run.bind at 1 2 3 4, Run.ret. intro E.
  destruct (Index.meetingWithTags m w) as [[m1|e] w1] eqn:E1; [|discriminate].
  destruct (Index.meetingWithTweets m1 w1) as [[m2|e] w2] eqn:E2; [|discriminate].
  destruct (Index.meetingWithYouTubeTitles m2 w2) as [[mt'|e] w3] eqn:E3;
    [|discriminate].
  destruct (Index.designIdeas mt' w3) as [[ideas'|e] w4] eqn:E4; [|discriminate].
  injection E as <- <- <-.
  destruct (meetingWithTags_shape _ _ _ _ E1) as (D1 & T1 & L1).
  destruct (meetingWithTweets_shape _ _ _ _ E2) as (D2 & T2 & L2).
  pose proof (issued_requests _ _ _ _ _ (meetingWithTags_issues m) E1) as R1.
  pose proof (issued_requests _ _ _ _ _ (meetingWithTweets_issues m1) E2) as R2.
  destruct (meetingWithTags_issues m _ _ _ E1) as (x1 & _ & F1 & _).
  destruct (meetingWithTweets_issues m1 _ _ _ E2) as (x2 & _ & F2 & _).
  unfold Index.meetingWithYouTubeTitles, Run.bind, Run.ret in E3.
  destruct (Index.youTubeTitles m2 w2) as [[ts|e] w3'] eqn:E3'; [|discriminate].
  injection E3 as <- <-.
  pose proof (issued_requests _ _ _ _ _ (youTubeTitles_issues m2) E3') as R3.
  destruct (youTubeTitles_issues m2 _ _ _ E3') as (x3 & _ & F3 & _).
  pose proof (issued_requests _ _ _ _ _ (designIdeas_issues _) E4) as R4.
  destruct (designIdeas_issues _ _ _ _ E4) as (x4 & _ & F4 & _).
  apply designIdeas_Ok in E4. destruct E4 as (L4 & _).
  cbn [Index.meeting] in *.
  rewrite length_ideaRequests in L4.
  rewrite R4, R3, R2, R1, !length_app, !length_map, length_titleRequests,
    length_ideaRequests, L4, L2, L1, D2, D1, T2, T1, F4, F3, F2, F1.
  repeat split. lia.
Qed.

Lemma exchanges_requests w w' xs :
  Run.exchanges w' = Run.exchanges w ++ xs ->
  requests w' = requests w ++ map fst xs.
Proof. unfold requests. intros ->. apply map_app. Qed.

(** The statements of [main] after the stages that generate text: every
    case of what they return and leave. *)
Lemma imagesAndOutput_cases outputDir (mt : Index.MeetingWithYouTubeTitles)
      (ideas : list string) w r w' :
  imagesAndOutput outputDir (mt, ideas) w = (r, w') ->
  let prefix :=
    Index.getFileNamePrefix (Index.meetingDate (Index.meeting mt))
                            (Index.meetingType (Index.meeting mt)) in
  requests w' = requests w ++ map Run.ImageGen ideas
  /\ match r with
     | Run.Throw _ => Run.files w' = Run.files w
     | Run.Ok _ =>
         exists images downloads,
           Run.files w'
           = Run.files w
             ++ [(recordPath outputDir (Index.meeting mt),
                  Run.JsonFile (Index.meetingToJson (Index.withImage mt images)))]
           /\ List.length images = List.length ideas
           /\ Forall (wellNamedImage prefix) images
           /\ Run.detached w' = Run.detached w ++ downloads
           /\ Forall isPng downloads
           /\ map fst downloads = map (imagePath outputDir prefix) images
     end.
Proof.
  unfold imagesAndOutput, Run.bind. cbn [fst snd]. cbv zeta. intro E.
  destruct (Index.generateImage _ _ _ w) as [[images|e] w1] eqn:E1;
    apply generateImage_branches in E1;
    destruct E1 as (F1 & xs & downloads & X1 & Q1 & D1 & P1 & C1).
  - destruct C1 as (L1 & G1 & _ & N1).
    unfold Index.writeMeetingToFile, Run.writeFile in E.
    destruct (existsb _ (Run.readOnly w1)); injection E as <- <-.
    + split; [unfold requests; now rewrite X1, map_app, Q1|exact F1].
    + cbn [Run.files Run.detached].
      split; [unfold requests; cbn [Run.exchanges]; now rewrite X1, map_app, Q1|].
      exists images, downloads. rewrite F1. unfold recordPath.
      unfold Index.getFileNamePrefix. rewrite !append_assoc.
      repeat split; assumption.
  - injection E as <- <-.
    split; [unfold requests; now rewrite X1, map_app, Q1|exact F1].
Qed.

(** X12.  The record is the only file that a run of [main] writes with a
    write that it awaits, and it writes it only when it returns: a run that
    throws writes no record.  The image files are left to downloads that
    are started and not awaited, so the program does not decide whether
    they are written before the record, after it or not at all.  The record
    goes to the path that [path.join] makes of the output directory and the
    date of the meeting, a low line, the type of the meeting in lower case
    and the extension json; it is the serialised meeting, with the date,
    the type and the number of presentations of the input and one image
    per design idea, and the downloads that were started are to write
    exactly the files that these images name. *)
Theorem main_writes_the_record_only (argv : list string) (outputDir : string)
        (w w' : Run.World) (r : Run.Result unit) :
  Index.main argv outputDir w = (r, w') ->
  match r with
  | Run.Throw _ => Run.files w' = Run.files w
  | Run.Ok _ =>
      exists m mt images downloads,
        prelude argv w = (Run.Ok m, w)
        /\ Run.files w'
           = Run.files w
             ++ [(recordPath outputDir m,
                  Run.JsonFile (Index.meetingToJson (Index.withImage mt images)))]
        /\ Index.meetingDate (Index.meeting mt) = Index.meetingDate m
        /\ Index.meetingType (Index.meeting mt) = Index.meetingType m
        /\ List.length (Index.presentations (Index.meeting mt))
           = List.length (Index.presentations m)
        /\ List.length images = fanOut (List.length (Index.presentations m))
        /\ Forall (wellNamedImage
                     (Index.getFileNamePrefix (Index.meetingDate m)
                                              (Index.meetingType m)))
                  images
        /\ Run.detached w' = Run.detached w ++ downloads
        /\ Forall isPng downloads
        /\ Permutation
             (map fst downloads)
             (map (imagePath outputDir
                     (Index.getFileNamePrefix (Index.meetingDate m)
                                              (Index.meetingType m)))
                  images)
  end.
Proof.
  intro E. rewrite main_parts in E. unfold Run.bind in E.
  destruct (prelude argv w) as [[m|e] w0] eqn:E0;
    pose proof (prelude_world _ _ _ _ E0); subst w0.
  - destruct (textStages m w) as [[[mt ideas]|e] w1] eqn:E1.
    + pose proof (undetached_textStages m _ _ _ E1) as U.
      apply textStages_Ok in E1. destruct E1 as (D & T & LP & LI & _ & F1).
      apply imagesAndOutput_cases in E. cbv zeta in E. destruct E as (_ & E).
      destruct r as [[]|e]; [|now rewrite E].
      destruct E as (images & downloads & F2 & L2 & G2 & D2 & P2 & N2).
      exists m, mt, images, downloads. unfold recordPath in *.
      rewrite D, T in *. rewrite F2, F1, D2, U, N2, L2, LI.
      repeat split; try assumption. apply Permutation_refl.
    + injection E as <- <-.
      now destruct (textStages_traced m _ _ _ E1) as (xs & _ & F & _).
  - now injection E as <- <-.
Qed.

(** X13.  A run of [main] that returns has made [2 * N + 3 * f] requests,
    where [N] is the number of presentations of the input and [f] is 3 when
    [N] is 1 and [N + 1] otherwise: eleven requests for one talk and
    [5 * N + 3] for several. *)
Theorem main_number_of_requests (argv : list string) (outputDir : string)
        (w w' : Run.World) :
  Index.main argv outputDir w = (Run.Ok tt, w') ->
  exists m,
    prelude argv w = (Run.Ok m, w)
    /\ List.length (requests w')
       = List.length (requests w)
         + (2 * List.length (Index.presentations m)
            + 3 * fanOut (List.length (Index.presentations m)))
    /\ (List.length (Index.presentations m) = 1 ->
        List.length (requests w') = List.length (requests w) + 11)
    /\ (List.length (Index.presentations m) <> 1 ->
        List.length (requests w')
        = List.length (requests w) + (5 * List.length (Index.presentations m) + 3)).
Proof.
  intro E. rewrite main_parts in E. unfold Run.bind in E.
  destruct (prelude argv w) as [[m|e] w0] eqn:E0; [|discriminate].
  pose proof (prelude_world _ _ _ _ E0); subst w0.
  destruct (textStages m w) as [[[mt ideas]|e] w1] eqn:E1; [|discriminate].
  apply textStages_Ok in E1. destruct E1 as (_ & _ & _ & L & R1 & _).
  apply imagesAndOutput_cases in E. destruct E as (R2 & _).
  exists m. split; [reflexivity|].
  assert (T : List.length (requests w')
              = List.length (requests w)
                + (2 * List.length (Index.presentations m)
                   + 3 * fanOut (List.length (Index.presentations m)))).
  { rewrite R2, length_app, R1, (length_map Run.ImageGen), L. lia. }
  split; [exact T|]. rewrite T. unfold fanOut.
  split; intro H.
  - rewrite H. reflexivity.
  - destruct (Nat.eqb_spec (List.length (Index.presentations m)) 1); [contradiction|].
    lia.
Qed.

Lemma main_writes_the_record_only_witness :
  exists w',
    Index.main scenarioArgv "/dist" (scenarioWorld scenarioReplies)
    = (Run.Ok tt, w')
    /\ map fst (Run.files w') = ["/dist/2024-02-14_sluug.json"]
    /\ exists downloads,
        Run.detached w' = downloads
        /\ Permutation (map fst downloads)
                       ["/dist/2024-02-14_sluug_a-whale-at-sea.png";
                        "/dist/2024-02-14_sluug_a-ship.png";
                        "/dist/2024-02-14_sluug_a-crane.png"].
Proof.
  destruct (Index.main scenarioArgv "/dist" (scenarioWorld scenarioReplies))
    as [r w'] eqn:E.
  assert (R : r = Run.Ok tt).
  { pose proof E as E'. vm_compute in E'. injection E' as <- _. reflexivity. }
  subst r. exists w'. split; [reflexivity|].
  pose proof (main_writes_the_record_only scenarioArgv "/dist"
                (scenarioWorld scenarioReplies) w' (Run.Ok tt) E) as H.
  cbv beta iota in H.
  destruct H as (m & mt & images & downloads & P & F & _ & _ & _ & _ & _ & D & _).
  vm_compute in P. injection P as <-.
  split; [rewrite F; vm_compute; reflexivity|].
  exists (Run.detached w'). split; [reflexivity|].
  pose proof E as E'. vm_compute in E'. injection E' as <-.
  vm_compute. apply Permutation_refl.
Defined.

Lemma main_number_of_requests_witness :
  exists w',
    Index.main scenarioArgv "/dist" (scenarioWorld scenarioReplies)
    = (Run.Ok tt, w')
    /\ List.length (requests w')
       = List.length (requests (scenarioWorld scenarioReplies)) + 11.
Proof.
  destruct (Index.main scenarioArgv "/dist" (scenarioWorld scenarioReplies))
    as [r w'] eqn:E.
  assert (R : r = Run.Ok tt).
  { pose proof E as E'. vm_compute in E'. injection E' as <- _. reflexivity. }
  subst r. exists w'. split; [reflexivity|].
  destruct (main_number_of_requests scenarioArgv "/dist"
              (scenarioWorld scenarioReplies) w' E) as (m & P & _ & H & _).
  apply H. vm_compute in P. injection P as <-. reflexivity.
Defined.

(** ** What each stage sets *)









(** ** The record that is written can be read again *)

Lemma parseItems_map {A} (elem : Zod.ZodType A) (enc : A -> json) :
  (forall a p, elem p (Some (enc a)) = Zod.Success a) ->
  forall l p i, Zod.parseItems elem p i (map enc l) = Zod.Success l.
Proof.
  intros H l p. induction l as [|a l IH]; intro i; [reflexivity|].
  cbn [map Zod.parseItems]. now rewrite H, IH.
Qed.

Lemma z_array_map {A} (elem : Zod.ZodType A) (enc : A -> json) :
  (forall a p, elem p (Some (enc a)) = Zod.Success a) ->
  forall l p, Zod.z_array elem [] p (Some (JArr (map enc l))) = Zod.Success l.
Proof.
  intros H l p. unfold Zod.z_array. cbn [flat_map]. now apply parseItems_map.
Qed.

Lemma linkSchema_reads_linkToJson l p :
  Models.linkSchema p (Some (Index.linkToJson l)) = Zod.Success l.
Proof. destruct l as [u [t|]]; reflexivity. Qed.

Lemma imageSchema_reads_imageToJson i p :
  Models.imageSchema p (Some (Index.imageToJson i)) = Zod.Success i.
Proof. destruct i as [s a]; reflexivity. Qed.

Lemma presentationSchema_reads_presentationToJson pr p :
  Index.presentationSchema p (Some (Index.presentationToJson pr)) = Zod.Success pr.
Proof.
  destruct pr as [t n a [r|] [tg|] [tw|]];
    unfold Index.presentationSchema, Index.presentationToJson, Zod.z_object,
      Zod.prop, Index.jStrings, Zod.z_optional;
    cbn [app Index.optProp getProp String.eqb Ascii.eqb Bool.eqb
         Index.title Index.presenterNames Index.abstract Index.references
         Index.tags Index.tweet];
    rewrite ?z_array_strings,
      ?(z_array_map Models.linkSchema Index.linkToJson linkSchema_reads_linkToJson);
    reflexivity.
Qed.

(** X14.  The record that [main] writes is a meeting document that the
    validation of the input accepts, when the meeting has a presentation:
    read again, it gives the meeting with every field of the schema as
    written, tags, posts and images included, and without the titles, whose
    property is not one of the schema. *)
Theorem meetingSchema_reads_meetingToJson (mt : Index.MeetingWithYouTubeTitles) :
  Index.presentations (Index.meeting mt) <> [] ->
  Zod.safeParse Index.meetingSchema (Index.meetingToJson mt)
  = Zod.Success (Index.meeting mt).
Proof.
  destruct mt as [[d t ps [mu|] [yu|] [yt|] [im|]] titles];
    cbn [Index.meeting Index.presentations]; intro N;
    (destruct ps as [|p0 ps]; [contradiction|]);
    unfold Zod.safeParse, Index.meetingSchema, Index.meetingToJson, Zod.z_object,
      Zod.prop, Index.jStrings, Zod.z_optional;
    cbn [app Index.optProp getProp String.eqb Ascii.eqb Bool.eqb
         Index.meeting Index.youTubeTitle
         Index.meetingDate Index.meetingType Index.presentations
         Index.meetupUrl Index.youtubeUrl Index.youtubeTitle Index.image];
    rewrite ?z_array_strings,
      ?(z_array_map Models.imageSchema Index.imageToJson imageSchema_reads_imageToJson);
    unfold Zod.z_array; cbn [flat_map Zod.checkIssues List.length map Nat.ltb Nat.leb app];
    rewrite (parseItems_map Index.presentationSchema Index.presentationToJson
               presentationSchema_reads_presentationToJson (p0 :: ps));
    destruct t; reflexivity.
Qed.

Lemma meetingSchema_reads_meetingToJson_witness :
  Zod.safeParse Index.meetingSchema
    (Index.meetingToJson
       {| Index.meeting := linkedMeeting;
          Index.youTubeTitle := ["A1 | SLUUG 2024-02-14"] |})
  = Zod.Success linkedMeeting.
Proof.
  apply (meetingSchema_reads_meetingToJson
           {| Index.meeting := linkedMeeting;
              Index.youTubeTitle := ["A1 | SLUUG 2024-02-14"] |}).
  cbn. discriminate.
Defined.

(** ** What stops a run before its first request *)

Lemma prelude_throws_main (argv : list string) (outputDir : string) w e :
  prelude argv w = (Run.Throw e, w) ->
  Index.main argv outputDir w = (Run.Throw e, w).
Proof. intro H. rewrite main_parts. unfold Run.bind. now rewrite H. Qed.

(** X15.  [main] checks, in this order, that a path is given as the third
    argument, that the file opens, that its text is JSON, that the document
    passes the validation, and that the key of the API is set and not
    empty; the first check that fails throws its error, and then no request
    has been made and nothing has been written.  The key is looked for only
    once the input has been validated. *)
Theorem main_checks_before_first_request
        (argv : list string) (outputDir : string) (w : Run.World) :
  (List.length argv < 3 ->
   Index.main argv outputDir w
   = (Run.Throw (Run.Err "No file path provided. You must supply the path to a JSON file as an argument."), w))
  /\ (forall path,
         nth_error argv 2 = Some path ->
         match find (fun f => String.eqb (fst f) path) (Run.inputs w) with
         | None =>
             Index.main argv outputDir w = (Run.Throw (Run.IoError path), w)
         | Some (_, None) =>
             Index.main argv outputDir w = (Run.Throw Run.SyntaxError, w)
         | Some (_, Some doc) =>
             match Zod.safeParse Index.meetingSchema doc with
             | Zod.Failure issues =>
                 Index.main argv outputDir w
                 = (Run.Throw (Run.ZodError issues), w)
             | Zod.Success m =>
                 match Run.apiKey w with
                 | Some (String _ _) => prelude argv w = (Run.Ok m, w)
                 | _ =>
                     Index.main argv outputDir w
                     = (Run.Throw (Run.Err "Environment Variable: OPENAI_API_KEY not found."), w)
                 end
             end
         end).
Proof.
  split.
  - intro L. apply prelude_throws_main.
    destruct argv as [|a0 [|a1 [|a2 rest]]]; try reflexivity.
    cbn in L. lia.
  - intros path Hp.
    assert (A : Index.extractInputFilePathFromArgs argv = Run.Ok path).
    { destruct argv as [|a0 [|a1 [|a2 rest]]]; try discriminate.
      now injection Hp as ->. }
    destruct (find _ (Run.inputs w)) as [[name [doc|]]|] eqn:F.
    + destruct (Zod.safeParse Index.meetingSchema doc) as [m|issues] eqn:P.
      * assert (Q : forall r,
                   Index.extractApiKeyFromEnv w = (r, w) ->
                   prelude argv w
                   = (match r with
                      | Run.Ok _ => Run.Ok m
                      | Run.Throw e => Run.Throw e
                      end, w)).
        { intros r K. unfold prelude, Run.bind, Run.lift, Index.openMeetingFile,
            Index.parseMeetingFile, Run.ret. rewrite A, F, P, K.
          now destruct r. }
        unfold Index.extractApiKeyFromEnv in Q.
        destruct (Run.apiKey w) as [[|c k]|];
          first [exact (Q _ eq_refl)
                | apply prelude_throws_main; exact (Q _ eq_refl)].
      * apply prelude_throws_main.
        unfold prelude, Run.bind, Run.lift, Index.openMeetingFile,
          Index.parseMeetingFile, Run.throw.
        now rewrite A, F, P.
    + apply prelude_throws_main.
      unfold prelude, Run.bind, Run.lift, Index.openMeetingFile,
        Index.parseMeetingFile, Run.throw.
      now rewrite A, F.
    + apply prelude_throws_main.
      unfold prelude, Run.bind, Run.lift, Index.openMeetingFile. now rewrite A, F.
Qed.

Lemma main_checks_before_first_request_witness :
  Index.main ["node"; "index.js"] "/dist" (scenarioWorld scenarioReplies)
  = (Run.Throw (Run.Err "No file path provided. You must supply the path to a JSON file as an argument."),
     scenarioWorld scenarioReplies).
Proof.
  apply (proj1 (main_checks_before_first_request ["node"; "index.js"] "/dist"
                  (scenarioWorld scenarioReplies))).
  cbn. lia.
Defined.

(** ** The earlier revision: the name of the input file *)

Lemma drop_drop (a b : nat) (s : string) :
  JS.drop a (JS.drop b s) = JS.drop (b + a) s.
Proof.
  revert s. induction b as [|b IH]; intro s; [reflexivity|].
  destruct s as [|c r]; [now destruct a|]. cbn. apply IH.
Qed.

Lemma endsWith_inv (s search : string) :
  JSLib.endsWith s search = true ->
  String.length search <= String.length s
  /\ JS.drop (String.length s - String.length search) s = search.
Proof.
  unfold JSLib.endsWith. intro H. apply andb_prop in H. destruct H as [L E].
  apply Nat.leb_le in L. now apply String.eqb_eq in E.
Qed.

(** No name ends with both suffixes. *)
Lemma endsWith_stllug_not_sluug (s : string) :
  JSLib.endsWith s "stllug.json" = true -> JSLib.endsWith s "sluug.json" = false.
Proof.
  intro H. apply endsWith_inv in H. destruct H as [L E].
  change (String.length "stllug.json") with 11 in *.
  unfold JSLib.endsWith. change (String.length "sluug.json") with 10.
  replace (String.length s - 10) with ((String.length s - 11) + 1) by lia.
  rewrite <- drop_drop, E. apply andb_false_r.
Qed.

(** X16.  The earlier revision takes the type of the meeting from the
    name of the input file, without its directories: SLUUG exactly when the
    name ends with sluug.json, STLLUG exactly when it ends with stllug.json,
    and an error when it ends with neither; the letters are compared as they
    are, so a name in capitals is refused. *)
Theorem parseMeetingTypeFromFileName_cases (filePath : string) :
  (LegacyNames.parseMeetingTypeFromFileName filePath = Run.Ok Models.SLUUG
   <-> JSLib.endsWith (JSLib.basename filePath) "sluug.json" = true)
  /\ (LegacyNames.parseMeetingTypeFromFileName filePath = Run.Ok Models.STLLUG
      <-> JSLib.endsWith (JSLib.basename filePath) "stllug.json" = true)
  /\ ((exists e, LegacyNames.parseMeetingTypeFromFileName filePath = Run.Throw e)
      <-> JSLib.endsWith (JSLib.basename filePath) "sluug.json" = false
          /\ JSLib.endsWith (JSLib.basename filePath) "stllug.json" = false)
  /\ LegacyNames.parseMeetingTypeFromFileName "/talks/2024-02-14_SLUUG.json"
     = Run.Throw (Run.Err ("Invalid file name. The file name must end with "
                           +++ LegacyNames.quote +++ "sluug.json"
                           +++ LegacyNames.quote +++ " or "
                           +++ LegacyNames.quote +++ "stllug.json"
                           +++ LegacyNames.quote +++ ".")).
Proof.
  unfold LegacyNames.parseMeetingTypeFromFileName.
  split; [|split; [|split; [|reflexivity]]].
  - destruct (JSLib.endsWith (JSLib.basename filePath) "sluug.json") eqn:A;
      [now split|].
    destruct (JSLib.endsWith (JSLib.basename filePath) "stllug.json");
      split; discriminate.
  - destruct (JSLib.endsWith (JSLib.basename filePath) "stllug.json") eqn:B.
    + rewrite (endsWith_stllug_not_sluug _ B). now split.
    + destruct (JSLib.endsWith (JSLib.basename filePath) "sluug.json");
        split; discriminate.
  - destruct (JSLib.endsWith (JSLib.basename filePath) "sluug.json") eqn:A.
    + split; [intros [e E]; discriminate E|intros [X _]; discriminate X].
    + destruct (JSLib.endsWith (JSLib.basename filePath) "stllug.json") eqn:B.
      * split; [intros [e E]; discriminate E|intros [_ X]; discriminate X].
      * split; [now split|intros _; eexists; reflexivity].
Qed.

(** ** The earlier revision: the date of the name of the input file *)

Lemma isLeapYear_era (y era : Z) :
  JSDate.isLeapYear (y + era * 400) = JSDate.isLeapYear y.
Proof.
  unfold JSDate.isLeapYear.
  replace (y + era * 400)%Z with (y + (era * 100) * 4)%Z at 1 by ring.
  replace (y + era * 400)%Z with (y + (era * 4) * 100)%Z at 1 by ring.
  now rewrite !Z_mod_plus_full.
Qed.

Lemma daysInMonth_era (y era m : Z) :
  JSDate.daysInMonth (y + era * 400) m = JSDate.daysInMonth y m.
Proof. unfold JSDate.daysInMonth. now rewrite isLeapYear_era. Qed.

Lemma isLeapYear_true (y : Z) :
  JSDate.isLeapYear y = true ->
  (y mod 4 = 0 /\ y mod 100 <> 0)%Z \/ (y mod 400 = 0)%Z.
Proof.
  unfold JSDate.isLeapYear. intro H. apply orb_prop in H. destruct H as [H|H].
  - left. apply andb_prop in H. destruct H as [A B].
    apply Z.eqb_eq in A. apply negb_true_iff, Z.eqb_neq in B. now split.
  - right. now apply Z.eqb_eq in H.
Qed.

(** The day of the year that starts in March, of a month and a day. *)
Lemma month_side (leap : bool) (m d : Z) :
  (1 <= m <= 12)%Z ->
  (1 <= d <= (if (m =? 2)%Z then (if leap then 29 else 28)
              else if ((m =? 4) || (m =? 6) || (m =? 9) || (m =? 11))%Z then 30
                   else 31))%Z ->
  let mp := ((m + 9) mod 12)%Z in
  let doy := ((153 * mp + 2) / 5 + d - 1)%Z in
  (0 <= doy <= 365)%Z
  /\ (doy = 365%Z -> leap = true /\ (m <= 2)%Z)
  /\ ((5 * doy + 2) / 153 = mp)%Z
  /\ (doy - (153 * mp + 2) / 5 + 1 = d)%Z
  /\ (if (mp <? 10)%Z then mp + 3 else mp - 9)%Z = m.
Proof.
  intros Hm Hd.
  assert (C : (m = 1 \/ m = 2 \/ m = 3 \/ m = 4 \/ m = 5 \/ m = 6 \/ m = 7
               \/ m = 8 \/ m = 9 \/ m = 10 \/ m = 11 \/ m = 12)%Z) by lia.
  destruct leap; repeat (destruct C as [C|C]); subst m; cbn in Hd; cbv zeta;
    match goal with
    | |- context [((?a + 9) mod 12)%Z] =>
        let v := eval vm_compute in ((a + 9) mod 12)%Z in
        change ((a + 9) mod 12)%Z with v
    end;
    match goal with
    | |- context [((153 * ?a + 2) / 5)%Z] =>
        let v := eval vm_compute in ((153 * a + 2) / 5)%Z in
        change ((153 * a + 2) / 5)%Z with v
    end.
  all: split; [lia|split; [|split; [|split; [lia|reflexivity]]]].
  all: try (intro X; split; [reflexivity|lia]).
  all: try (intro X; lia).
  all: Z.to_euclidean_division_equations; lia.
Qed.

(** The year of its era of a day of the era. *)
Lemma year_side (yoe doy : Z) :
  (0 <= yoe < 400)%Z -> (0 <= doy <= 365)%Z ->
  (doy = 365%Z ->
   ((yoe + 1) mod 4 = 0 /\ (yoe + 1) mod 100 <> 0)%Z \/ yoe = 399%Z) ->
  let doe := (yoe * 365 + yoe / 4 - yoe / 100 + doy)%Z in
  (0 <= doe < 146097)%Z
  /\ ((doe - doe / 1460 + doe / 36524 - doe / 146096) / 365 = yoe)%Z.
Proof.
  intros Hy Hd Hl doe. subst doe.
  Z.to_euclidean_division_equations; lia.
Qed.

(** The year of the era, the month and the day of a day of the era. *)
Lemma fromDayOfEra_dayOfEra (yoe m d : Z) :
  (0 <= yoe < 400)%Z -> (1 <= m <= 12)%Z ->
  (1 <= d <= JSDate.daysInMonth (if (m <=? 2)%Z then yoe + 1 else yoe) m)%Z ->
  (0 <= dayOfEra yoe m d < 146097)%Z
  /\ JSLib.fromDayOfEra (dayOfEra yoe m d) = (yoe, m, d).
Proof.
  intros Hy Hm Hd. unfold JSDate.daysInMonth in Hd.
  destruct (month_side _ m d Hm Hd) as (D & L & Mp & Dd & Mm).
  cbv zeta in D, L, Mp, Dd, Mm.
  assert (L' : ((153 * ((m + 9) mod 12) + 2) / 5 + d - 1 = 365 ->
                ((yoe + 1) mod 4 = 0 /\ (yoe + 1) mod 100 <> 0)
                \/ yoe = 399)%Z).
  { intro X. destruct (L X) as [Lp M2].
    replace (m <=? 2)%Z with true in Lp by (symmetry; apply Z.leb_le; lia).
    apply isLeapYear_true in Lp. destruct Lp as [Lp|Lp]; [now left|right].
    Z.to_euclidean_division_equations; lia. }
  destruct (year_side yoe _ Hy D L') as [B Y]. cbv zeta in B, Y.
  unfold dayOfEra. cbv zeta. split; [exact B|].
  unfold JSLib.fromDayOfEra. cbv zeta. rewrite Y.
  replace (yoe * 365 + yoe / 4 - yoe / 100
           + ((153 * ((m + 9) mod 12) + 2) / 5 + d - 1)
           - (365 * yoe + yoe / 4 - yoe / 100))%Z
    with ((153 * ((m + 9) mod 12) + 2) / 5 + d - 1)%Z by ring.
  rewrite Mp, Dd, Mm. reflexivity.
Qed.

(** The year, the month and the day of the day number of a calendar
    date are this date. *)
Lemma civilFromDays_makeDay (y m d : Z) :
  (1 <= m <= 12)%Z -> (1 <= d <= JSDate.daysInMonth y m)%Z ->
  JSLib.civilFromDays (JSDate.makeDay y m d) = (y, m, d).
Proof.
  intros Hm Hd.
  set (y' := (if (m <=? 2)%Z then y - 1 else y)%Z).
  set (era := (y' / 400)%Z). set (yoe := (y' - era * 400)%Z).
  assert (Hyoe : (0 <= yoe < 400)%Z).
  { subst yoe era. pose proof (Z.mod_pos_bound y' 400 ltac:(lia)) as B.
    rewrite Z.mod_eq in B by lia. lia. }
  assert (M : JSDate.makeDay y m d
              = (dayOfEra yoe m d + era * 146097 - 719468)%Z).
  { unfold JSDate.makeDay, dayOfEra. fold y'. cbv zeta. fold era. fold yoe. ring. }
  assert (Y : y = ((if (m <=? 2)%Z then yoe + 1 else yoe) + era * 400)%Z).
  { subst yoe y'. destruct (m <=? 2)%Z; ring. }
  assert (Hd' : (1 <= d <= JSDate.daysInMonth
                             (if (m <=? 2)%Z then yoe + 1 else yoe) m)%Z).
  { rewrite <- (daysInMonth_era _ era). now rewrite <- Y. }
  destruct (fromDayOfEra_dayOfEra yoe m d Hyoe Hm Hd') as [B F].
  unfold JSLib.civilFromDays. rewrite M. cbv zeta.
  replace (dayOfEra yoe m d + era * 146097 - 719468 + 719468)%Z
    with (dayOfEra yoe m d + era * 146097)%Z by ring.
  rewrite Z.div_add by lia. rewrite (Z.div_small (dayOfEra yoe m d)) by lia.
  replace (dayOfEra yoe m d + era * 146097 - (0 + era) * 146097)%Z
    with (dayOfEra yoe m d) by ring.
  rewrite F. f_equal. f_equal.
  destruct (m <=? 2)%Z; lia.
Qed.

Lemma decimal_2 (n : Z) : (0 <= n <= 99)%Z -> JSLib.decimal 2 n = pad2 n.
Proof.
  intro H. unfold pad2. cbn [JSLib.decimal String.append]. f_equal.
  f_equal. Z.to_euclidean_division_equations; lia.
Qed.

Lemma decimal_4 (n : Z) : (0 <= n <= 9999)%Z -> JSLib.decimal 4 n = pad4 n.
Proof.
  intro H. unfold pad4, pad2. cbn [JSLib.decimal String.append].
  replace (n / 10 / 10 / 10 mod 10)%Z with (n / 1000)%Z
    by (Z.to_euclidean_division_equations; lia).
  replace (n / 10 / 10 mod 10)%Z with (n / 100 mod 10)%Z
    by (Z.to_euclidean_division_equations; lia).
  replace (n / 10 mod 10)%Z with (n mod 100 / 10)%Z
    by (Z.to_euclidean_division_equations; lia).
  replace (n mod 100 mod 10)%Z with (n mod 10)%Z
    by (Z.to_euclidean_division_equations; lia).
  reflexivity.
Qed.

(** The first ten characters of the ISO text of the UTC midnight of a
    calendar date are this date written YYYY-MM-DD. *)
Lemma toISOString_date (y m d : Z) :
  (0 <= y <= 9999)%Z -> (1 <= m <= 12)%Z ->
  (1 <= d <= JSDate.daysInMonth y m)%Z ->
  JS.take 10 (JSLib.toISOString (JSDate.makeDay y m d * JSDate.msPerDay)%Z)
  = isoDate y m d.
Proof.
  intros Hy Hm Hd. pose proof (daysInMonth_bounds y m) as Hb.
  unfold JSLib.toISOString.
  rewrite Z.div_mul by (unfold JSDate.msPerDay; lia).
  rewrite civilFromDays_makeDay by assumption.
  unfold JSLib.yearText.
  replace ((0 <=? y) && (y <=? 9999))%Z with true
    by (symmetry; apply andb_true_intro; split; apply Z.leb_le; lia).
  rewrite decimal_4, !(decimal_2 m), !(decimal_2 d) by lia.
  reflexivity.
Qed.

(** X17.  In the earlier revision a file whose name starts with a calendar
    date written YYYY-MM-DD gives the UTC midnight of that date as the date
    of the meeting, whatever the host, and the prefix of the names of the
    output files is this date again, followed by the type in lower case;
    so for an input named after the date and the type, the record is
    written under the name of the input file. *)
Theorem file_name_gives_date_and_prefix
        (host : JSDate.Host) (filePath rest : string) (y m d : Z) :
  (0 <= y <= 9999)%Z -> (1 <= m <= 12)%Z ->
  (1 <= d <= JSDate.daysInMonth y m)%Z ->
  JSLib.basename filePath = isoDate y m d +++ rest ->
  LegacyNames.parseMeetingDateFromFileName host filePath
  = Run.Ok (JSDate.makeDay y m d * JSDate.msPerDay)%Z
  /\ (forall t,
         LegacyNames.getFileNamePrefix (JSDate.makeDay y m d * JSDate.msPerDay)%Z t
         = isoDate y m d +++ "_" +++ JS.toLowerCase (Index.meetingTypeName t))
  /\ (forall t,
         JSLib.basename filePath = meetingFileName y m d t ->
         LegacyNames.parseMeetingTypeFromFileName filePath = Run.Ok t
         /\ LegacyNames.getFileNamePrefix
              (JSDate.makeDay y m d * JSDate.msPerDay)%Z t +++ ".json"
            = JSLib.basename filePath).
Proof.
  intros Hy Hm Hd Hb.
  assert (P : forall t,
             LegacyNames.getFileNamePrefix
               (JSDate.makeDay y m d * JSDate.msPerDay)%Z t
             = isoDate y m d +++ "_" +++ JS.toLowerCase (Index.meetingTypeName t)).
  { intro t. unfold LegacyNames.getFileNamePrefix.
    rewrite toISOString_date by assumption. now destruct t. }
  split; [|split; [exact P|]].
  - unfold LegacyNames.parseMeetingDateFromFileName. rewrite Hb.
    change (JS.take 10 (isoDate y m d +++ rest)) with (isoDate y m d).
    unfold JSDate.parse. now rewrite parseDateOnly_isoDate.
  - intros t Ht. split.
    + unfold LegacyNames.parseMeetingTypeFromFileName. rewrite Ht.
      now destruct t.
    + rewrite P, Ht. now destruct t.
Qed.

Lemma file_name_gives_date_and_prefix_witness :
  LegacyNames.parseMeetingDateFromFileName plainHost "/talks/2024-02-14_sluug.json"
  = Run.Ok 1707868800000%Z
  /\ LegacyNames.parseMeetingTypeFromFileName "/talks/2024-02-14_sluug.json"
     = Run.Ok Models.SLUUG
  /\ LegacyNames.getFileNamePrefix 1707868800000%Z Models.SLUUG +++ ".json"
     = "2024-02-14_sluug.json".
Proof.
  destruct (file_name_gives_date_and_prefix
              plainHost "/talks/2024-02-14_sluug.json" "_sluug.json" 2024 2 14
              ltac:(lia) ltac:(lia) ltac:(vm_compute; split; discriminate)
              eq_refl) as (D & _ & T).
  destruct (T Models.SLUUG eq_refl) as [T1 T2].
  split; [exact D|]. split; [exact T1|exact T2].
Defined.

(** ** The earlier revision: tags, posts and titles *)

(** X18.  In the earlier revision [tagTool] replaces the first space of a
    tag only and does not trim: applying it to its own result changes
    nothing exactly when no tag holds more than one space. *)
Theorem legacy_tagTool_idempotent_iff (args : Models.TagToolParams) :
  Legacy.tagTool {| Models.tagsParam := Legacy.tagTool args |} = Legacy.tagTool args
  <-> Forall (fun tag => spaces tag <= 1) (Models.tagsParam args).
Proof.
  unfold Legacy.tagTool. cbn [Models.tagsParam]. rewrite map_map.
  rewrite map_ext_in_iff, Forall_forall.
  split; intros H tag Hin; specialize (H tag Hin).
  - apply (f_equal spaces) in H.
    rewrite !spaces_toLowerCase, !spaces_replace in H.
    rewrite spaces_toLowerCase, spaces_replace in H. lia.
  - rewrite (replace_no_space (JS.toLowerCase (JS.replace " " "-" tag))).
    + apply toLowerCase_idempotent.
    + rewrite spaces_toLowerCase, spaces_replace. lia.
Qed.

(** X19.  In the earlier revision the link goes into each post through a
    template literal: without a link every post ends with the word
    undefined, and with a link that is not empty and does not end with a
    white space every post is the generated text, a space and the link;
    nothing of the generated text is trimmed in either case. *)
Theorem legacy_addLinkToTweets_posts
        (presentation : Models.Presentation) (tweets : list string) :
  Models.tweets presentation = Some tweets ->
  Legacy.addLinkToTweets presentation None
  = Run.Ok (Legacy.withTweets presentation
              (map (fun tweet => tweet +++ " undefined") tweets))
  /\ (forall link,
         link <> EmptyString -> endsWithWhiteSpace link = false ->
         Legacy.addLinkToTweets presentation (Some link)
         = Run.Ok (Legacy.withTweets presentation
                     (map (fun tweet => tweet +++ " " +++ link) tweets))).
Proof.
  intro H. unfold Legacy.addLinkToTweets. rewrite H.
  assert (T : forall text,
             text <> EmptyString -> endsWithWhiteSpace text = false ->
             map (fun tweet => JS.trimEnd (tweet +++ " " +++ text)) tweets
             = map (fun tweet => tweet +++ " " +++ text) tweets).
  { intros text N E. apply map_ext. intro tweet. apply trimEnd_fixed.
    rewrite endsWithWhiteSpace_app by discriminate.
    change (" " +++ text) with (String " " text).
    destruct text as [|c r]; [contradiction|exact E]. }
  split.
  - cbn [Legacy.templateText]. now rewrite T.
  - intros link N E. cbn [Legacy.templateText]. now rewrite T.
Qed.

Lemma legacy_addLinkToTweets_posts_witness :
  Legacy.addLinkToTweets (earlierTalk "Containers") None
  = Run.Ok (Legacy.withTweets (earlierTalk "Containers")
              ["Join us! undefined"; "See you there.  undefined"]).
Proof.
  exact (proj1 (legacy_addLinkToTweets_posts (earlierTalk "Containers")
                  ["Join us!"; "See you there. "] eq_refl)).
Defined.

(** X20.  When the title stage of the earlier revision returns, it has
    made one request, for the first presentation, whatever the number of
    presentations, and has written no file; the meeting then holds exactly
    three titles, each the type of the meeting, the date of the name of the
    input file written YYYY-MM-DD, a dash and a generated title, and its
    presentations are unchanged. *)
Theorem legacy_title_stage_postcondition
        (y mo d : Z) (meetingType : Models.MeetingType)
        (m m' : Models.Meeting) (w w' : Run.World) :
  (0 <= y <= 9999)%Z -> (1 <= mo <= 12)%Z ->
  (1 <= d <= JSDate.daysInMonth y mo)%Z ->
  Legacy.generateYouTubeTitles
    (JS.take 10 (JSLib.toISOString (JSDate.makeDay y mo d * JSDate.msPerDay)%Z))
    meetingType m w = (Run.Ok m', w') ->
  exists presentation0 generated,
    hd_error (Models.presentations m) = Some presentation0
    /\ requests w'
       = requests w
         ++ [Run.ChatTool "youTubeTitleTool"
               (Legacy.convertPresentationToPrompt presentation0)]
    /\ Run.files w' = Run.files w
    /\ List.length generated = 3
    /\ Models.youtubeTitles m'
       = Some (map (fun title =>
                      Index.meetingTypeName meetingType +++ " "
                      +++ isoDate y mo d +++ " - " +++ title)
                   generated)
    /\ Models.presentations m' = Models.presentations m.
Proof.
  intros Hy Hm Hd E. rewrite toISOString_date in E by assumption.
  unfold Legacy.generateYouTubeTitles in E.
  destruct (Models.presentations m) as [|presentation0 rest] eqn:P;
    [discriminate E|].
  apply tool_stage_cases in E. destruct E as (X & F & V).
  destruct (hd_error (Run.replies w)) as [[args| |content|u rp|message]|];
    try discriminate.
  cbn [Models.parse Models.zodFunction Models.function] in V.
  destruct (Zod.safeParse _ args) as [a|] eqn:A; [|discriminate].
  injection V as ->.
  exists presentation0, (Models.titlesParam a).
  split; [reflexivity|]. split.
  - unfold requests. rewrite X, map_app. reflexivity.
  - split; [exact F|]. split; [exact (youTubeTitleToolParams_three _ _ A)|].
    split; [reflexivity|exact P].
Qed.

Lemma legacy_title_stage_postcondition_witness :
  exists (presentation0 : Models.Presentation) (generated : list string),
    hd_error (Models.presentations earlierMeeting) = Some presentation0
    /\ requests (snd (Legacy.generateYouTubeTitles "2024-02-14" Models.SLUUG
                        earlierMeeting
                        (scenarioWorld [toolCall "titles" ["A1"; "A2"; "A3"]])))
       = requests (scenarioWorld [toolCall "titles" ["A1"; "A2"; "A3"]])
         ++ [Run.ChatTool "youTubeTitleTool"
               (Legacy.convertPresentationToPrompt presentation0)]
    /\ List.length generated = 3.
Proof.
  destruct (legacy_title_stage_postcondition
              2024 2 14 Models.SLUUG earlierMeeting
              (Legacy.withYoutubeTitles earlierMeeting
                 ["SLUUG 2024-02-14 - A1"; "SLUUG 2024-02-14 - A2";
                  "SLUUG 2024-02-14 - A3"])
              (scenarioWorld [toolCall "titles" ["A1"; "A2"; "A3"]])
              (snd (Legacy.generateYouTubeTitles "2024-02-14" Models.SLUUG
                      earlierMeeting
                      (scenarioWorld [toolCall "titles" ["A1"; "A2"; "A3"]])))
              ltac:(lia) ltac:(lia) ltac:(vm_compute; split; discriminate)
              ltac:(vm_compute; reflexivity))
    as (p0 & g & H0 & R & _ & L & _).
  exists p0, g. split; [exact H0|]. split; [exact R|exact L].
Defined.
